(** * ChatService of venueless/core/services/chat.py: event ordering,
      channel membership, reactions, notifications and forced joins,
      and the reads of the service: channel lookup and lists, unread
      pointers, pages of events and mentions.

    The relational store, the shared counter store and the fan-out
    transport are explicit components of a state that every operation
    threads.  An operation returns either a value or a Python exception,
    together with the state it leaves behind (what was written before an
    exception stays written, unless a transaction rolls it back). *)

From stdpp Require Import base option list gmap strings sorting.
From Stdlib Require Import ZArith Lia Ascii.

Set Warnings "-register-all".
Local Open Scope string_scope.
Local Open Scope list_scope.
Local Open Scope Z_scope.

(** ** Python values *)

(** A [uuid.UUID] is determined by its canonical text. *)
Record UUID := mkUUID { uuid_str : string }.

#[global] Instance UUID_eq_dec : EqDecision UUID.
Proof. solve_decision. Defined.

(** [str(u)] for a UUID [u]. *)
Definition str_uuid (u : UUID) : string := uuid_str u.

(** JSON-like values held in [content], [profile] and [config] fields.
    A [dict] keeps insertion order. *)
Inductive json :=
| JNull
| JBool (b : bool)
| JNum (z : Z)
| JStr (s : string)
| JList (l : list json)
| JDict (d : list (string * json)).

Abbreviation dict := (list (string * json)).

(** [d.get(k)] *)
Fixpoint dict_get (k : string) (d : dict) : option json :=
  match d with
  | [] => None
  | (k', v) :: d' => if decide (k' = k) then Some v else dict_get k d'
  end.

(** [d[k] = v] *)
Fixpoint dict_set (k : string) (v : json) (d : dict) : dict :=
  match d with
  | [] => [(k, v)]
  | (k', v') :: d' =>
      if decide (k' = k) then (k', v) :: d' else (k', v') :: dict_set k v d'
  end.

(** [d.setdefault(k, v)] *)
Definition dict_setdefault (k : string) (v : json) (d : dict) : dict :=
  match dict_get k d with
  | Some _ => d
  | None => dict_set k v d
  end.

(** Truth value of an optional JSON value ([None] is falsy). *)
Definition truthy (o : option json) : bool :=
  match o with
  | None | Some JNull => false
  | Some (JBool b) => b
  | Some (JNum z) => negb (z =? 0)
  | Some (JStr s) => negb (String.eqb s "")
  | Some (JList l) => match l with [] => false | _ => true end
  | Some (JDict d) => match d with [] => false | _ => true end
  end.

(** ** Rows of the relational store *)

(** Modelled from the spec: the model classes of [..models] (User, Channel,
    Membership, ChatEvent, ChatEventReaction, ChatEventNotification,
    BBBCall, AuditLog) are not part of the sources.  The records carry the
    attributes of the data model that the service reads or writes; the
    automatic keys of membership, reaction and notification rows, which
    the service never reads, are left out.  The uniqueness constraints of
    the data model are hypotheses of the properties, not part of the
    tables, so that a table is a list of rows in storage order. *)

Inductive UserType := PERSON | KIOSK | ANONYMOUS.

#[global] Instance UserType_eq_dec : EqDecision UserType.
Proof. solve_decision. Defined.

Record User := mkUser {
  u_id : UUID;
  u_world : string;
  u_profile : dict;
  u_blocked_users : list UUID;
  u_deleted : bool;
  u_type : UserType }.

Record Room := mkRoom {
  r_id : UUID;
  r_force_join : bool;
  r_deleted : bool }.

Record Channel := mkChannel {
  c_id : UUID;
  c_world : string;
  c_room : option UUID }.

Record Membership := mkMembership {
  m_channel : UUID;
  m_user : UUID;
  m_volatile : bool;
  m_hidden : bool }.

Record ChatEvent := mkChatEvent {
  e_id : Z;
  e_channel : UUID;
  e_event_type : string;
  e_content : dict;
  e_sender : UUID;
  e_replaces : option Z;
  e_edited : option Z }.

Record ChatEventReaction := mkReaction {
  rx_chat_event : Z;
  rx_reaction : string;
  rx_sender : UUID }.

Record ChatEventNotification := mkNotification {
  n_chat_event : Z;
  n_recipient : UUID }.

Record BBBCall := mkBBBCall {
  call_id : UUID;
  call_world : string;
  call_server : string;
  call_invited_members : list UUID }.

(** What [ChatEvent.serialize_public] returns.
    Modelled from the spec: the model class ChatEvent is not part of the
    sources; the serialised form carries the fields of the data model
    and the event's current reaction rows. *)
Record PublicEvent := mkPublicEvent {
  pe_event_id : Z;
  pe_channel : string;
  pe_event_type : string;
  pe_content : dict;
  pe_sender : string;
  pe_replaces : option Z;
  pe_edited : option Z;
  pe_reactions : list (string * UUID) }.

Record AuditLog := mkAuditLog {
  a_world : string;
  a_user : UUID;
  a_type : string;
  a_object : Z;
  a_by_same_user : bool;
  a_old : PublicEvent;
  a_new : PublicEvent }.

Record World := mkWorld {
  w_id : string;
  w_feature_flags : list string;
  w_config : dict }.

Record DB := mkDB {
  users : list User;
  rooms : list Room;
  channels : list Channel;
  memberships : list Membership;
  chat_events : list ChatEvent;
  reactions : list ChatEventReaction;
  notifications : list ChatEventNotification;
  bbb_calls : list BBBCall;
  audit_log : list AuditLog }.

(** One entry of the channel list sent to a user. *)
Record ChannelListEntry := mkEntry {
  cle_id : string;
  cle_unread_pointer : Z;
  cle_members : option (list json) }.

(** Messages handed to the fan-out transport. *)
Inductive Message :=
| GroupSend (group : string) (event : PublicEvent)
| UserBroadcast (kind : string) (channel_list : list ChannelListEntry)
    (user_id : UUID) (socket_id : string).

(** Modelled from the spec: the counter store behind [aredis] of
    [..utils.redis], a shared integer under the key [chat.event_id]
    (absent after a flush) with atomic increment, and the sets written
    with [sadd]. *)
Record Redis := mkRedis {
  chat_event_id : option Z;
  redis_sets : list (string * string) }.

Record State := mkState {
  st_db : DB;
  st_redis : Redis;
  st_sent : list Message;
  st_clock : Z;
  st_uuid_draws : nat }.

Inductive Exn :=
| IntegrityError (already_exists : bool)
| MultipleObjectsReturned
| DoesNotExist
| DatabaseError
| TypeError
| KeyError
| ValueError (msg : string)
| RecursionError
| ResponseError.

Inductive Outcome (A : Type) :=
| Ok (a : A)
| Raise (e : Exn).
Arguments Ok {A} a.
Arguments Raise {A} e.

(** ** The monad of operations *)

Definition M (A : Type) : Type := State → Outcome A * State.

Definition ret {A} (a : A) : M A := λ st, (Ok a, st).
Definition raise {A} (e : Exn) : M A := λ st, (Raise e, st).
Definition bind {A B} (m : M A) (k : A → M B) : M B :=
  λ st, match m st with
        | (Ok a, st') => k a st'
        | (Raise e, st') => (Raise e, st')
        end.

Notation "'let*' x ':=' m 'in' k" := (bind m (λ x, k))
  (at level 10, x pattern, m at level 100, k at level 200).

Definition get_db : M DB := λ st, (Ok (st_db st), st).
Definition put_db (d : DB) : M unit :=
  λ st, (Ok tt, mkState d (st_redis st) (st_sent st) (st_clock st) (st_uuid_draws st)).
Definition get_redis : M Redis := λ st, (Ok (st_redis st), st).
Definition put_redis (r : Redis) : M unit :=
  λ st, (Ok tt, mkState (st_db st) r (st_sent st) (st_clock st) (st_uuid_draws st)).
Definition send (msg : Message) : M unit :=
  λ st, (Ok tt, mkState (st_db st) (st_redis st) (st_sent st ++ [msg])
                  (st_clock st) (st_uuid_draws st)).
Definition now : M Z := λ st, (Ok (st_clock st), st).

(** [with transaction.atomic():] the store is rolled back when the block
    raises; the counter store and the transport are not transactional. *)
Definition atomic {A} (m : M A) : M A :=
  λ st, match m st with
        | (Ok a, st') => (Ok a, st')
        | (Raise e, st') =>
            (Raise e, mkState (st_db st) (st_redis st') (st_sent st')
                        (st_clock st') (st_uuid_draws st'))
        end.

(** [for x in l: body(x)] *)
Fixpoint for_each {A} (l : list A) (body : A → M unit) : M unit :=
  match l with
  | [] => ret tt
  | x :: l' => let* _ := body x in for_each l' body
  end.

(** Setters of the tables that operations write. *)
Definition set_channels (v : list Channel) (d : DB) : DB :=
  mkDB (users d) (rooms d) v (memberships d) (chat_events d) (reactions d)
       (notifications d) (bbb_calls d) (audit_log d).
Definition set_memberships (v : list Membership) (d : DB) : DB :=
  mkDB (users d) (rooms d) (channels d) v (chat_events d) (reactions d)
       (notifications d) (bbb_calls d) (audit_log d).
Definition set_chat_events (v : list ChatEvent) (d : DB) : DB :=
  mkDB (users d) (rooms d) (channels d) (memberships d) v (reactions d)
       (notifications d) (bbb_calls d) (audit_log d).
Definition set_reactions (v : list ChatEventReaction) (d : DB) : DB :=
  mkDB (users d) (rooms d) (channels d) (memberships d) (chat_events d) v
       (notifications d) (bbb_calls d) (audit_log d).
Definition set_notifications (v : list ChatEventNotification) (d : DB) : DB :=
  mkDB (users d) (rooms d) (channels d) (memberships d) (chat_events d)
       (reactions d) v (bbb_calls d) (audit_log d).
Definition set_bbb_calls (v : list BBBCall) (d : DB) : DB :=
  mkDB (users d) (rooms d) (channels d) (memberships d) (chat_events d)
       (reactions d) (notifications d) v (audit_log d).
Definition set_audit_log (v : list AuditLog) (d : DB) : DB :=
  mkDB (users d) (rooms d) (channels d) (memberships d) (chat_events d)
       (reactions d) (notifications d) (bbb_calls d) v.

(** [try: m except Exception as e: h(e)] *)
Definition catch {A} (m : M A) (h : Exn → M A) : M A :=
  λ st, match m st with
        | (Ok a, st') => (Ok a, st')
        | (Raise e, st') => h e st'
        end.

(** ** External collaborators *)

Inductive Permission := ROOM_CHAT_READ | ROOM_CHAT_JOIN.

(** Functions of other modules that the service calls: the call-server
    chooser of [.bbb], the random UUID source behind the primary keys, the
    permission oracle of the world, the public-profile serialiser of the
    user model and the group name format of [live.channels]. *)
Class Collaborators := {
  choose_server : World → DB → string;
  uuid4 : nat → UUID;
  has_permission : World → User → Permission → option Room → bool;
  serialize_public_user : User → option json → json;
  GROUP_CHAT : UUID → string }.

(** ** The counter store *)

(** The values that [INCR] raises by one: the signed 64-bit integers
    below the largest. *)
Definition incr_ok (c : Z) : Prop := - 2 ^ 63 ≤ c < 2 ^ 63 - 1.

#[global] Instance incr_ok_dec c : Decision (incr_ok c).
Proof. unfold incr_ok. apply _. Defined.

(** [redis.incr("chat.event_id")]: an absent key counts as 0; a value
    that is no signed 64-bit integer, or the largest one, is refused with
    an error reply and stays as it is. *)
Definition redis_incr : M Z :=
  let* r := get_redis in
  if decide (incr_ok (default 0 (chat_event_id r))) then
    let v := match chat_event_id r with Some c => c + 1 | None => 1 end in
    let* _ := put_redis (mkRedis (Some v) (redis_sets r)) in
    ret v
  else raise ResponseError.

(** [redis.set("chat.event_id", v)] *)
Definition redis_set (v : Z) : M unit :=
  let* r := get_redis in
  put_redis (mkRedis (Some v) (redis_sets r)).

(** [redis.sadd(key, member)] *)
Definition redis_sadd (key member : string) : M unit :=
  let* r := get_redis in
  if decide ((key, member) ∈ redis_sets r) then ret tt
  else put_redis (mkRedis (chat_event_id r) (redis_sets r ++ [(key, member)])).

(** ** The durable event log *)

(** [aggregate(m=Max("id"))["m"]] over a list of ids *)
Fixpoint max_id (ids : list Z) : option Z :=
  match ids with
  | [] => None
  | i :: ids' =>
      match max_id ids' with
      | None => Some i
      | Some m => Some (Z.max i m)
      end
  end.

(** [x or 0] for an optional integer *)
Definition or_0 (o : option Z) : Z :=
  match o with
  | None => 0
  | Some m => m
  end.

Definition event_ids (d : DB) : list Z := e_id <$> chat_events d.

Definition highest_id (d : DB) : Z := or_0 (max_id (event_ids d)).

Definition event_reactions (d : DB) (id : Z) : list (string * UUID) :=
  (λ r, (rx_reaction r, rx_sender r)) <$>
    filter (λ r, rx_chat_event r = id) (reactions d).

Definition serialize_public (d : DB) (e : ChatEvent) : PublicEvent :=
  mkPublicEvent (e_id e) (str_uuid (e_channel e)) (e_event_type e)
    (e_content e) (str_uuid (e_sender e)) (e_replaces e) (e_edited e)
    (event_reactions d (e_id e)).

(** A channel id, and a user id, that a row of another table may refer
    to: the id of a stored row. *)
Definition channel_stored (d : DB) (c : UUID) : Prop := c ∈ c_id <$> channels d.
Definition user_stored (d : DB) (u : UUID) : Prop := u ∈ u_id <$> users d.

#[global] Instance channel_stored_dec d c : Decision (channel_stored d c).
Proof. unfold channel_stored. apply _. Defined.
#[global] Instance user_stored_dec d u : Decision (user_stored d u).
Proof. unfold user_stored. apply _. Defined.

(** [ChatEvent.objects.create(...)]: the primary key is unique (the
    violation reads "... already exists"), and [channel_id], [sender_id]
    and [replaces_id] are foreign keys (a violation reads "... is not
    present in table ..."); the unique index is checked first. *)
Definition ChatEvent_create (ce : ChatEvent) : M ChatEvent :=
  let* d := get_db in
  if decide (e_id ce ∈ event_ids d) then raise (IntegrityError true)
  else if decide (channel_stored d (e_channel ce) ∧ user_stored d (e_sender ce)) then
    match e_replaces ce with
    | Some r =>
        if decide (r ∈ event_ids d ∨ r = e_id ce)
        then let* _ := put_db (set_chat_events (chat_events d ++ [ce]) d) in ret ce
        else raise (IntegrityError false)
    | None => let* _ := put_db (set_chat_events (chat_events d ++ [ce]) d) in ret ce
    end
  else raise (IntegrityError false).

(** [content.get("type") == "call"] *)
Definition is_call (content : dict) : bool :=
  match dict_get "type" content with
  | Some (JStr s) => bool_decide (s = "call")
  | _ => false
  end.

(** [content["body"][k] = v] *)
Definition body_set (k : string) (v : json) (content : dict) : M dict :=
  match dict_get "body" content with
  | Some (JDict b) => ret (dict_set "body" (JDict (dict_set k v b)) content)
  | Some _ => raise TypeError
  | None => raise KeyError
  end.

Section Service.
Context `{!Collaborators} (world : World).

(** [uuid.uuid4()], the default of a UUID primary key *)
Definition draw_uuid : M UUID :=
  λ st, (Ok (uuid4 (st_uuid_draws st)),
         mkState (st_db st) (st_redis st) (st_sent st) (st_clock st)
           (S (st_uuid_draws st))).

(** [BBBCall.objects.create(world_id=..., server=...)] followed by
    [call.invited_members.add] of the channel's members *)
Definition BBBCall_create (server : string) (members : list UUID) : M UUID :=
  let* id := draw_uuid in
  let* d := get_db in
  if decide (id ∈ call_id <$> bbb_calls d) then raise (IntegrityError true)
  else
    let* _ := put_db (set_bbb_calls
                        (bbb_calls d ++ [mkBBBCall id (w_id world) server members]) d) in
    ret id.

(** [[m.user for m in channel.members.all()]] *)
Definition channel_member_ids (d : DB) (channel : UUID) : list UUID :=
  m_user <$> filter (λ m, m_channel m = channel) (memberships d).

(** The call branch of [_store_event]: the [content] dict of the caller
    is updated in place, so the updated dict is returned. *)
Definition prepare_call (channel : Channel) (content : dict) : M dict :=
  if is_call content then
    if decide ("janus" ∈ w_feature_flags world) then
      body_set "type" (JStr "janus") (dict_setdefault "body" (JDict []) content)
    else
      let* d := get_db in
      let* call := BBBCall_create (choose_server world d)
                     (channel_member_ids d (c_id channel)) in
      let* content := body_set "id" (JStr (str_uuid call))
                        (dict_setdefault "body" (JDict []) content) in
      body_set "type" (JStr "bbb") content
  else ret content.

(** [_store_event]: [None] on a duplicate id, and the caller's [content]
    as the call branch left it. *)
Definition _store_event (channel : Channel) (id : Z) (event_type : string)
    (content : dict) (sender : User) (replaces : option Z)
  : M (option PublicEvent * dict) :=
  let* content := prepare_call channel content in
  catch
    (let* ce := ChatEvent_create
                  (mkChatEvent id (c_id channel) event_type content
                     (u_id sender) replaces None) in
     let* d := get_db in
     ret (Some (serialize_public d ce), content))
    (λ e, match e with
          | IntegrityError true => ret (None, content)
          | _ => raise e
          end).

Definition _get_highest_id : M Z :=
  let* d := get_db in ret (highest_id d).

Definition get_last_id : M Z :=
  let* r := get_redis in
  match chat_event_id r with
  | Some rval => ret rval
  | None => _get_highest_id
  end.

(** The first statements of [create_event]: the increment, and the
    safety block for a cleared counter store. *)
Definition allocate_event_id : M Z :=
  let* event_id := redis_incr in
  let* _ := (if event_id <? 2 then
               let* current_max := _get_highest_id in
               redis_set (current_max + 1)
             else ret tt) in
  ret event_id.

(** [create_event]; [fuel] bounds the depth of the recursive call, which
    is taken only with [_retry = False] and passes [_retry = True]. *)
Fixpoint create_event_rec (fuel : nat) (channel : Channel) (event_type : string)
    (content : dict) (sender : User) (replaces : option Z) (_retry : bool)
  : M PublicEvent :=
  match fuel with
  | O => raise RecursionError
  | S fuel' =>
      let* event_id := allocate_event_id in
      let* (event, content) :=
        _store_event channel event_id event_type content sender replaces in
      match event with
      | Some event => ret event
      | None =>
          if negb _retry then
            let* current_max := _get_highest_id in
            let* _ := redis_set (current_max + 1) in
            create_event_rec fuel' channel event_type content sender None true
          else raise (ValueError "unable to recover in store_event")
      end
  end.

Definition create_event := create_event_rec 2.

(** ** Channels and memberships *)

(** [Membership.objects.get_or_create(channel_id=..., user=...,
    defaults={"volatile": volatile})]; a created row is not hidden.  The
    channel and the user of a row are foreign keys; the block of
    [add_channel_user] reads and writes nothing between the insert and its
    commit, where they are checked, so the check is made at the insert. *)
Definition Membership_get_or_create (channel_id : UUID) (user : User)
    (volatile : bool) : M (Membership * bool) :=
  let* d := get_db in
  match filter (λ m, m_channel m = channel_id ∧ m_user m = u_id user)
          (memberships d) with
  | [] =>
      if decide (channel_stored d channel_id ∧ user_stored d (u_id user)) then
        let m := mkMembership channel_id (u_id user) volatile false in
        let* _ := put_db (set_memberships (memberships d ++ [m]) d) in
        ret (m, true)
      else raise (IntegrityError false)
  | [m] => ret (m, false)
  | _ => raise MultipleObjectsReturned
  end.

(** [m.save(update_fields=["volatile"])] *)
Definition Membership_save_volatile (m : Membership) : M unit :=
  let* d := get_db in
  put_db (set_memberships
            ((λ m', if decide (m_channel m' = m_channel m ∧ m_user m' = m_user m)
                    then mkMembership (m_channel m') (m_user m') (m_volatile m)
                           (m_hidden m')
                    else m') <$> memberships d) d).

(** [add_channel_user]; the suppressed [User.DoesNotExist] cannot arise
    for a loaded [user]. *)
Definition add_channel_user (channel_id : UUID) (user : User) (volatile : bool)
  : M bool :=
  atomic
    (let* (m, created) := Membership_get_or_create channel_id user volatile in
     let* _ := (if negb created && m_volatile m && negb volatile then
                  Membership_save_volatile
                    (mkMembership (m_channel m) (m_user m) false (m_hidden m))
                else ret tt) in
     ret created).

Definition remove_channel_user (channel_id uid : UUID) : M unit :=
  let* d := get_db in
  put_db (set_memberships
            (filter (λ m, ¬ (m_channel m = channel_id ∧ m_user m = uid))
               (memberships d)) d).

Definition hide_channel_user (channel_id uid : UUID) : M unit :=
  let* d := get_db in
  put_db (set_memberships
            ((λ m, if decide (m_channel m = channel_id ∧ m_user m = uid)
                   then mkMembership (m_channel m) (m_user m) (m_volatile m) true
                   else m) <$> memberships d) d).

(** The value of a grouped [Count("*")] subquery: NULL when no row
    matches. *)
Definition subquery_count {A} (rows : list A) : option nat :=
  match rows with
  | [] => None
  | _ => Some (length rows)
  end.

Definition mcount_match (d : DB) (user_ids : list UUID) (c : Channel) : option nat :=
  subquery_count
    (filter (λ m, m_channel m = c_id c ∧ m_user m ∈ user_ids) (memberships d)).

Definition mcount_mismatch (d : DB) (user_ids : list UUID) (c : Channel) : option nat :=
  subquery_count
    (filter (λ m, m_channel m = c_id c ∧ m_user m ∉ user_ids) (memberships d)).

(** The channels selected by the [.get(...)] of
    [get_or_create_direct_channel]. *)
Definition direct_channel_matches (d : DB) (user_ids : list UUID) : list Channel :=
  filter (λ c, mcount_mismatch d user_ids c = None
               ∧ mcount_match d user_ids c = Some (length user_ids)
               ∧ c_room c = None
               ∧ c_world c = w_id world) (channels d).

(** The validation of [get_or_create_direct_channel]: [true] when the
    request is rejected. *)
Definition not_eligible (users : list User) (user_ids : list UUID) : bool :=
  negb (bool_decide (length users = length user_ids))
  || bool_decide (length users < 2)%nat
  || existsb
       (λ u, existsb (λ v, bool_decide (u_id v ∈ u_blocked_users u))
               (filter (λ v, u_id v ≠ u_id u) users)
             || u_deleted u
             || bool_decide (u_type u = KIOSK ∨ u_type u = ANONYMOUS))
       users.

Definition Channel_create (room : option UUID) : M Channel :=
  let* id := draw_uuid in
  let* d := get_db in
  if decide (id ∈ c_id <$> channels d) then raise (IntegrityError true)
  else
    let c := mkChannel id (w_id world) room in
    let* _ := put_db (set_channels (channels d ++ [c]) d) in
    ret c.

Definition Membership_create (m : Membership) : M unit :=
  let* d := get_db in
  if decide (Exists (λ m', m_channel m' = m_channel m ∧ m_user m' = m_user m)
               (memberships d))
  then raise (IntegrityError true)
  else put_db (set_memberships (memberships d ++ [m]) d).

Definition get_or_create_direct_channel (user_ids : list UUID) (hide : bool)
    (hide_except : option string) : M (option Channel * bool * list User) :=
  atomic
    (let* d := get_db in
     let users := filter (λ u, u_world u = w_id world ∧ u_id u ∈ user_ids)
                    (users d) in
     if not_eligible users user_ids then ret (None, false, [])
     else
       match direct_channel_matches d user_ids with
       | [c] => ret (Some c, false, users)
       | [] =>
           let* c := Channel_create None in
           let* _ := for_each users
                       (λ u, Membership_create
                               (mkMembership (c_id c) (u_id u) false
                                  (hide && negb (bool_decide
                                     (Some (str_uuid (u_id u)) = hide_except))))) in
           ret (Some c, true, users)
       | _ => raise MultipleObjectsReturned
       end).

(** ** Reactions and notifications *)

(** [ChatEvent.objects.prefetch_related("reactions").get(pk=pk)] *)
Definition _get_event (pk : Z) : M ChatEvent :=
  let* d := get_db in
  match filter (λ e, e_id e = pk) (chat_events d) with
  | [] => raise DoesNotExist
  | [e] => ret e
  | _ => raise MultipleObjectsReturned
  end.

Definition remove_reaction (event : ChatEvent) (reaction : string) (user : User)
  : M PublicEvent :=
  let* d := get_db in
  let* _ := put_db (set_reactions
                      (filter (λ r, ¬ (rx_chat_event r = e_id event
                                       ∧ rx_reaction r = reaction
                                       ∧ rx_sender r = u_id user))
                         (reactions d)) d) in
  let* e := _get_event (e_id event) in
  let* d := get_db in
  ret (serialize_public d e).

(** [add_reaction]: [update_or_create] without [defaults] leaves a row
    that it finds as it is; the event and the sender of a row that it
    inserts are foreign keys. *)
Definition add_reaction (event : ChatEvent) (reaction : string) (user : User)
  : M PublicEvent :=
  let* d := get_db in
  let* _ :=
    match filter (λ r, rx_chat_event r = e_id event ∧ rx_reaction r = reaction
                       ∧ rx_sender r = u_id user) (reactions d) with
    | [] =>
        if decide (e_id event ∈ event_ids d ∧ user_stored d (u_id user)) then
          put_db (set_reactions
                    (reactions d ++ [mkReaction (e_id event) reaction (u_id user)]) d)
        else raise (IntegrityError false)
    | [_] => ret tt
    | _ => raise MultipleObjectsReturned
    end in
  let* e := _get_event (e_id event) in
  let* d := get_db in
  ret (serialize_public d e).

(** The channels of the events that a notification row joins to. *)
Definition notification_channels (d : DB) (n : ChatEventNotification) : list UUID :=
  e_channel <$> filter (λ e, e_id e = n_chat_event n) (chat_events d).

(** The grouped count: one key per channel, with its number of rows. *)
Definition count_by_channel (cs : list UUID) : gmap string nat :=
  foldr (λ c acc, <[str_uuid c := S (default 0%nat (acc !! str_uuid c))]> acc) ∅ cs.

Definition get_notification_counts (d : DB) (user_id : UUID) : gmap string nat :=
  count_by_channel
    (n ← filter (λ n, n_recipient n = user_id) (notifications d);
     notification_channels d n).

(** [store_notification]: [bulk_create] of no row does nothing; the
    event and the recipient of a row are foreign keys, and the rows are
    inserted together or not at all. *)
Definition store_notification (event_id : Z) (user_ids : list UUID) : M unit :=
  match user_ids with
  | [] => ret tt
  | _ =>
      let* d := get_db in
      if decide (event_id ∈ event_ids d ∧ Forall (user_stored d) user_ids) then
        put_db (set_notifications
                  (notifications d ++ (mkNotification event_id <$> user_ids))
                  d)
      else raise (IntegrityError false)
  end.

(** The rows that [remove_notifications] selects. *)
Definition notification_selected (d : DB) (user_id channel_id : UUID) (max_id : Z)
    (n : ChatEventNotification) : Prop :=
  n_chat_event n ≤ max_id
  ∧ channel_id ∈ notification_channels d n
  ∧ n_recipient n = user_id.

#[global] Instance notification_selected_dec d u c x n :
  Decision (notification_selected d u c x n).
Proof. unfold notification_selected. apply _. Defined.

Definition remove_notifications (user_id channel_id : UUID) (max_id : Z) : M bool :=
  let* d := get_db in
  let deleted_count :=
    length (filter (notification_selected d user_id channel_id max_id)
              (notifications d)) in
  let* _ := put_db (set_notifications
                      (filter (λ n, ¬ notification_selected d user_id channel_id max_id n)
                         (notifications d)) d) in
  ret (bool_decide (0 < deleted_count)%nat).

(** ** Editing an event *)

(** [by_user.id == str(event.sender_id)]: for a loaded user the left
    operand is a [uuid.UUID] and the right one a [str]; Python never finds
    the two equal. *)
Definition uuid_eq_str (u : UUID) (s : string) : bool := false.

(** [event.save(update_fields=["content", "edited"])]: an UPDATE of the
    two columns of the row with the event's key; Django raises when no
    row was updated. *)
Definition ChatEvent_save_content_edited (event : ChatEvent) : M unit :=
  let* d := get_db in
  if decide (e_id event ∈ event_ids d) then
    put_db (set_chat_events
              ((λ e, if decide (e_id e = e_id event)
                     then mkChatEvent (e_id e) (e_channel e) (e_event_type e)
                            (e_content event) (e_sender e) (e_replaces e)
                            (e_edited event)
                     else e) <$> chat_events d) d)
  else raise DatabaseError.

(** [update_event]; the [event] object of the caller is updated in place,
    so it is returned. *)
Definition update_event (event : ChatEvent) (new_content : dict) (by_user : User)
  : M ChatEvent :=
  atomic
    (let* d := get_db in
     let old := serialize_public d event in
     let* t := now in
     let event := mkChatEvent (e_id event) (e_channel event) (e_event_type event)
                    new_content (e_sender event) (e_replaces event) (Some t) in
     let* _ := ChatEvent_save_content_edited event in
     let* d := get_db in
     let new := serialize_public d event in
     let* _ := put_db (set_audit_log
                         (audit_log d ++
                          [mkAuditLog (w_id world) (u_id by_user) "chat.event.updated"
                             (e_id event)
                             (uuid_eq_str (u_id by_user) (str_uuid (e_sender event)))
                             old new]) d) in
     ret event).

(** ** Channel lists and forced joins *)

Definition show_channels_to_hidden_users (channel_id : UUID) : M (list User) :=
  let* d := get_db in
  let u := m ← filter (λ m, m_channel m = channel_id ∧ m_hidden m = true)
                 (memberships d);
           filter (λ u, u_id u = m_user m) (users d) in
  let* _ := put_db (set_memberships
                      ((λ m, if decide (m_channel m = channel_id ∧ m_hidden m = true)
                             then mkMembership (m_channel m) (m_user m)
                                    (m_volatile m) false
                             else m) <$> memberships d) d) in
  ret u.

(** The annotation [max_id] of [get_channels_for_user]. *)
Definition max_nonmember_id (d : DB) (channel_id : UUID) : option Z :=
  max_id (e_id <$> filter (λ e, e_channel e = channel_id
                                ∧ e_event_type e ≠ "channel.member")
                     (chat_events d)).

Definition get_channels_for_user (d : DB) (user_id : UUID)
    (is_volatile is_hidden : option bool) : list ChannelListEntry :=
  m ← filter (λ m, m_user m = user_id
                   ∧ (is_hidden = None ∨ is_hidden = Some (m_hidden m))
                   ∧ (is_volatile = None ∨ is_volatile = Some (m_volatile m)))
         (memberships d);
  c ← filter (λ c, c_id c = m_channel m ∧ c_world c = w_id world) (channels d);
  [mkEntry (str_uuid (m_channel m))
     (or_0 (max_nonmember_id d (m_channel m)))
     (match c_room c with
      | Some _ => None
      | None =>
          Some (m' ← filter (λ m', m_channel m' = c_id c) (memberships d);
                u ← filter (λ u, u_id u = m_user m') (users d);
                [serialize_public_user u (dict_get "trait_badges_map" (w_config world))])
      end)].

Definition get_channels_to_join_forced (d : DB) (user : User) : list (Channel * Room) :=
  c ← filter (λ c, c_world c = w_id world
                   ∧ ¬ Exists (λ m, m_channel m = c_id c ∧ m_user m = u_id user
                                    ∧ m_volatile m = false) (memberships d))
         (channels d);
  r ← filter (λ r, c_room c = Some (r_id r) ∧ r_force_join r = true) (rooms d);
  [(c, r)].

Definition broadcast_channel_list (user : User) (socket_id : string) : M unit :=
  let* d := get_db in
  send (UserBroadcast "chat.channels"
          (get_channels_for_user d (u_id user) (Some false) (Some false))
          (u_id user) socket_id).

(** The body of the loop of [enforce_forced_joins]. *)
Definition force_join (user : User) (cr : Channel * Room) : M unit :=
  let (channel, room) := cr in
  if negb (has_permission world user ROOM_CHAT_JOIN (Some room)) then ret tt
  else
    let* joined := add_channel_user (c_id channel) user false in
    if joined then
      let* event :=
        create_event channel "channel.member"
          [("membership", JStr "join");
           ("user", serialize_public_user user
                      (dict_get "trait_badges_map" (w_config world)))]
          user None false in
      let* _ := send (GroupSend (GROUP_CHAT (c_id channel)) event) in
      let* _ := broadcast_channel_list user "dummysocket" in
      redis_sadd ("chat:unread.notify:" +:+ str_uuid (c_id channel))
        (str_uuid (u_id user))
    else ret tt.

Definition enforce_forced_joins (user : User) : M unit :=
  if negb (truthy (dict_get "display_name" (u_profile user))) then ret tt
  else
    let* d := get_db in
    let c_to_join := get_channels_to_join_forced d user in
    match c_to_join with
    | [] => ret tt
    | _ => for_each c_to_join (force_join user)
    end.

(** ** The writing operations of the service as one command type *)

Inductive ServiceCall :=
| Call_create_event (channel : Channel) (event_type : string) (content : dict)
    (sender : User) (replaces : option Z) (_retry : bool)
| Call_update_event (event : ChatEvent) (new_content : dict) (by_user : User)
| Call_add_channel_user (channel_id : UUID) (user : User) (volatile : bool)
| Call_remove_channel_user (channel_id uid : UUID)
| Call_hide_channel_user (channel_id uid : UUID)
| Call_show_channels_to_hidden_users (channel_id : UUID)
| Call_get_or_create_direct_channel (user_ids : list UUID) (hide : bool)
    (hide_except : option string)
| Call_add_reaction (event : ChatEvent) (reaction : string) (user : User)
| Call_remove_reaction (event : ChatEvent) (reaction : string) (user : User)
| Call_store_notification (event_id : Z) (user_ids : list UUID)
| Call_remove_notifications (user_id channel_id : UUID) (max_id : Z)
| Call_enforce_forced_joins (user : User).

Definition discard {A} (m : M A) : M unit := let* _ := m in ret tt.

Definition run_call (c : ServiceCall) : M unit :=
  match c with
  | Call_create_event ch ty co se re rt => discard (create_event ch ty co se re rt)
  | Call_update_event e co u => discard (update_event e co u)
  | Call_add_channel_user ch u v => discard (add_channel_user ch u v)
  | Call_remove_channel_user ch u => remove_channel_user ch u
  | Call_hide_channel_user ch u => hide_channel_user ch u
  | Call_show_channels_to_hidden_users ch => discard (show_channels_to_hidden_users ch)
  | Call_get_or_create_direct_channel ids h he =>
      discard (get_or_create_direct_channel ids h he)
  | Call_add_reaction e r u => discard (add_reaction e r u)
  | Call_remove_reaction e r u => discard (remove_reaction e r u)
  | Call_store_notification e ids => store_notification e ids
  | Call_remove_notifications u ch x => discard (remove_notifications u ch x)
  | Call_enforce_forced_joins u => enforce_forced_joins u
  end.

End Service.

(** ** States and rows used to state the properties *)

(** [st] with the store [d]. *)
Definition with_db (d : DB) (st : State) : State :=
  mkState d (st_redis st) (st_sent st) (st_clock st) (st_uuid_draws st).

(** The counter can be incremented. *)
Definition counter_ok (st : State) : Prop :=
  incr_ok (default 0 (chat_event_id (st_redis st))).

#[global] Instance counter_ok_dec st : Decision (counter_ok st).
Proof. unfold counter_ok. apply _. Defined.

(** The id that the next increment of the counter returns. *)
Definition next_id (st : State) : Z :=
  match chat_event_id (st_redis st) with Some c => c + 1 | None => 1 end.

(** [st] with the counter at [v]. *)
Definition with_counter (v : Z) (st : State) : State :=
  mkState (st_db st) (mkRedis (Some v) (redis_sets (st_redis st))) (st_sent st)
    (st_clock st) (st_uuid_draws st).

(** The state after the increment and the safety block. *)
Definition after_allocate (st : State) : State :=
  with_counter (if next_id st <? 2 then highest_id (st_db st) + 1 else next_id st) st.

(** The state after the self-healing reset of the counter. *)
Definition healed (st : State) : State :=
  with_counter (highest_id (st_db st) + 1) st.

(** Two states that differ at most in the BBB calls and the drawn UUIDs. *)
Definition same_but_calls (st st' : State) : Prop :=
  users (st_db st') = users (st_db st)
  ∧ rooms (st_db st') = rooms (st_db st)
  ∧ channels (st_db st') = channels (st_db st)
  ∧ memberships (st_db st') = memberships (st_db st)
  ∧ chat_events (st_db st') = chat_events (st_db st)
  ∧ reactions (st_db st') = reactions (st_db st)
  ∧ notifications (st_db st') = notifications (st_db st)
  ∧ audit_log (st_db st') = audit_log (st_db st)
  ∧ st_redis st' = st_redis st
  ∧ st_sent st' = st_sent st
  ∧ st_clock st' = st_clock st.

(** The row that an attempt of [create_event] inserts. *)
Definition new_event (id : Z) (ch : Channel) (ty : string) (content : dict)
    (sender : User) (replaces : option Z) : ChatEvent :=
  mkChatEvent id (c_id ch) ty content (u_id sender) replaces None.

(** [st] with the row [ce] appended to the event log. *)
Definition append_event (ce : ChatEvent) (st : State) : State :=
  with_db (set_chat_events (chat_events (st_db st) ++ [ce]) (st_db st)) st.

(** The reference [replaces] of a row inserted at [id] is satisfied. *)
Definition replaces_ok (d : DB) (id : Z) (replaces : option Z) : Prop :=
  match replaces with
  | None => True
  | Some r => r ∈ event_ids d ∨ r = id
  end.

#[global] Instance replaces_ok_dec d id r : Decision (replaces_ok d id r).
Proof. destruct r; apply _. Defined.

(** The references of a row inserted at [id] for [ch] and [sender] are
    satisfied. *)
Definition refs_ok (d : DB) (ch : Channel) (sender : User) (id : Z)
    (replaces : option Z) : Prop :=
  (channel_stored d (c_id ch) ∧ user_stored d (u_id sender))
  ∧ replaces_ok d id replaces.

#[global] Instance refs_ok_dec d ch sender id r : Decision (refs_ok d ch sender id r).
Proof. unfold refs_ok. apply _. Defined.

(** ** A small world for concrete runs *)

(** A text that differs for every draw, for the keys of the demo. *)
Fixpoint tally (n : nat) : string :=
  match n with
  | O => ""
  | S n' => "i" +:+ tally n'
  end.

Definition alice_id := mkUUID "5a1ce000-0000-4000-8000-00000000000a".
Definition bob_id := mkUUID "5b0b0000-0000-4000-8000-00000000000b".
Definition carol_id := mkUUID "5ca70100-0000-4000-8000-00000000000c".
Definition dave_id := mkUUID "5da7e000-0000-4000-8000-00000000000d".
Definition kiosk_id := mkUUID "5c105c00-0000-4000-8000-00000000000e".
Definition lobby_id := mkUUID "10bb1000-0000-4000-8000-000000000001".
Definition stage_id := mkUUID "57a9e000-0000-4000-8000-000000000002".
Definition lobby_room_id := mkUUID "4001b000-0000-4000-8000-000000000001".
Definition stage_room_id := mkUUID "4057a000-0000-4000-8000-000000000002".

Definition demo_world := mkWorld "demo" [] [].

Definition person (id : UUID) (name : string) (blocked : list UUID) : User :=
  mkUser id "demo" [("display_name", JStr name)] blocked false PERSON.

Definition alice := person alice_id "Alice" [].
Definition bob := person bob_id "Bob" [].
Definition carol := person carol_id "Carol" [].
(** Dave has blocked Bob. *)
Definition dave := person dave_id "Dave" [bob_id].
Definition kiosk := mkUser kiosk_id "demo" [] [] false KIOSK.

Definition lobby := mkChannel lobby_id "demo" (Some lobby_room_id).
Definition stage := mkChannel stage_id "demo" (Some stage_room_id).

Definition demo_collaborators : Collaborators :=
  {| choose_server := λ _ _, "bbb-1";
     uuid4 := λ n, mkUUID ("d1ec7000-0000-4000-8000-" +:+ tally n);
     has_permission := λ _ _ _ room,
       bool_decide (r_id <$> room = Some lobby_room_id);
     serialize_public_user := λ u _, JDict [("id", JStr (str_uuid (u_id u)))];
     GROUP_CHAT := λ c, "chat." +:+ str_uuid c |}.

Definition text (body : string) : dict := [("type", JStr "text"); ("body", JStr body)].

Definition demo_db : DB :=
  mkDB [alice; bob; carol; dave; kiosk]
       [mkRoom lobby_room_id true false; mkRoom stage_room_id true false]
       [lobby; stage]
       [mkMembership lobby_id alice_id true false]
       [mkChatEvent 1 lobby_id "channel.message" (text "one") alice_id None None;
        mkChatEvent 2 lobby_id "channel.message" (text "two") bob_id None None;
        mkChatEvent 3 stage_id "channel.message" (text "three") alice_id (Some 1) None]
       [] [] [] [].

(** The demo store with a counter store that was flushed. *)
Definition demo_flushed : State := mkState demo_db (mkRedis None []) [] 1000 0.

(** The demo store with a counter that fell behind the log. *)
Definition demo_behind : State := mkState demo_db (mkRedis (Some 1) []) [] 1000 0.

(** The demo store with the counter in step with the log. *)
Definition demo_state : State := mkState demo_db (mkRedis (Some 3) []) [] 1000 0.

(** The demo store after event 1 is gone, with nothing that refers to
    it, and a flushed counter store. *)
Definition demo_gap : State :=
  mkState (set_chat_events
             [mkChatEvent 2 lobby_id "channel.message" (text "two") bob_id None None;
              mkChatEvent 3 stage_id "channel.message" (text "three") alice_id None None]
             demo_db)
    (mkRedis None []) [] 1000 0.

(** The rows of a (channel, user) pair, and the constraint that there is
    at most one. *)
Definition membership_rows (d : DB) (c u : UUID) : list Membership :=
  filter (λ m, m_channel m = c ∧ m_user m = u) (memberships d).

Definition membership_key (m : Membership) : UUID * UUID := (m_channel m, m_user m).

Definition unique_memberships (d : DB) : Prop :=
  NoDup (membership_key <$> memberships d).

(** [m.volatile = False] on the rows of a pair. *)
Definition clear_volatile (c u : UUID) (ms : list Membership) : list Membership :=
  (λ m, if decide (m_channel m = c ∧ m_user m = u)
        then mkMembership (m_channel m) (m_user m) false (m_hidden m)
        else m) <$> ms.

(** The channels, one per joined row, of the notifications of a user. *)
Definition notified_channels (d : DB) (user_id : UUID) : list UUID :=
  n ← filter (λ n, n_recipient n = user_id) (notifications d);
  notification_channels d n.

(** The value of the grouped count under a key. *)
Definition grouped_count (k : string) (cs : list UUID) : option nat :=
  subquery_count (filter (λ c, str_uuid c = k) cs).

(** The rows of an (event, reaction, sender) triple. *)
Definition reaction_rows (d : DB) (event_id : Z) (reaction : string) (sender : UUID)
  : list ChatEventReaction :=
  filter (λ r, rx_chat_event r = event_id ∧ rx_reaction r = reaction
               ∧ rx_sender r = sender) (reactions d).

#[global] Instance ChatEventReaction_eq_dec : EqDecision ChatEventReaction.
Proof. solve_decision. Defined.

(** A reaction row has no column besides its triple, so the rows are
    unique per triple when no row occurs twice. *)
Definition unique_reactions (d : DB) : Prop := NoDup (reactions d).

Definition with_reactions (rs : list ChatEventReaction) (st : State) : State :=
  with_db (set_reactions rs (st_db st)) st.

(** The stored events of [st] are still stored, unchanged and in place,
    in [st']. *)
Definition events_extended (st st' : State) : Prop :=
  ∃ new, chat_events (st_db st') = chat_events (st_db st) ++ new.

(** An operation whose runs relate the state they start from to the state
    they leave, whether they return or raise. *)
Definition respects (R : State → State → Prop) {A} (m : M A) : Prop :=
  ∀ st, R st (snd (m st)).

(** The state after a rollback of the store. *)
Definition rolled_back (st st' : State) : State :=
  mkState (st_db st) (st_redis st') (st_sent st') (st_clock st') (st_uuid_draws st').

(** The row that [update_event] leaves in place of [e]. *)
Definition edited_row (id : Z) (new_content : dict) (t : Z) (e : ChatEvent) : ChatEvent :=
  if decide (e_id e = id)
  then mkChatEvent (e_id e) (e_channel e) (e_event_type e) new_content (e_sender e)
         (e_replaces e) (Some t)
  else e.

(** The [users] that [get_or_create_direct_channel] loads. *)
Definition requested_users (world : World) (d : DB) (user_ids : list UUID) : list User :=
  filter (λ u, u_world u = w_id world ∧ u_id u ∈ user_ids) (users d).

(** Every membership row belongs to a stored channel. *)
Definition memberships_have_channels (d : DB) : Prop :=
  Forall (λ m, m_channel m ∈ c_id <$> channels d) (memberships d).

(** The membership rows that [get_or_create_direct_channel] creates. *)
Definition direct_rows (c : UUID) (hide : bool) (hide_except : option string)
    (us : list User) : list Membership :=
  (λ u, mkMembership c (u_id u) false
          (hide && negb (bool_decide (Some (str_uuid (u_id u)) = hide_except)))) <$> us.

(** The channel that [get_or_create_direct_channel] creates in [st], and
    the state that the creation leaves. *)
Definition new_direct_channel `{!Collaborators} (world : World) (st : State) : Channel :=
  mkChannel (uuid4 (st_uuid_draws st)) (w_id world) None.

Definition direct_channel_created `{!Collaborators} (world : World)
    (user_ids : list UUID) (hide : bool) (hide_except : option string) (st : State)
  : State :=
  let c := new_direct_channel world st in
  mkState
    (set_memberships
       (memberships (st_db st)
        ++ direct_rows (c_id c) hide hide_except
             (requested_users world (st_db st) user_ids))
       (set_channels (channels (st_db st) ++ [c]) (st_db st)))
    (st_redis st) (st_sent st) (st_clock st) (S (st_uuid_draws st)).

(** The [is_member] annotation of [get_channels_to_join_forced]. *)
Definition is_member (d : DB) (c u : UUID) : Prop :=
  Exists (λ m, m_channel m = c ∧ m_user m = u ∧ m_volatile m = false) (memberships d).

(** The content of the join event of [enforce_forced_joins]. *)
Definition join_content `{!Collaborators} (world : World) (user : User) : dict :=
  [("membership", JStr "join");
   ("user", serialize_public_user user (dict_get "trait_badges_map" (w_config world)))].

(** Two states with the same users, rooms and channels. *)
Definition same_directory (st st' : State) : Prop :=
  users (st_db st') = users (st_db st)
  ∧ rooms (st_db st') = rooms (st_db st)
  ∧ channels (st_db st') = channels (st_db st).

(** The counter and the stored ids are not negative and leave room for
    [k] more ids below the largest signed 64-bit integer. *)
Definition ids_headroom (k : Z) (st : State) : Prop :=
  0 ≤ default 0 (chat_event_id (st_redis st)) ∧ 0 ≤ highest_id (st_db st)
  ∧ default 0 (chat_event_id (st_redis st)) + k < 2 ^ 63
  ∧ highest_id (st_db st) + k < 2 ^ 63.

#[global] Instance ids_headroom_dec k st : Decision (ids_headroom k st).
Proof. unfold ids_headroom. apply _. Defined.

Section ForcedJoinWords.
Context `{!Collaborators} (world : World) (user : User).

(** Among the candidates [cs] there is one for the channel that the
    permission oracle lets the user join. *)
Definition join_permitted (cs : list (Channel * Room)) (c : UUID) : Prop :=
  Exists (λ cr, c_id cr.1 = c
                ∧ has_permission world user ROOM_CHAT_JOIN (Some cr.2) = true) cs.

#[global] Instance join_permitted_dec cs c : Decision (join_permitted cs c).
Proof. unfold join_permitted. apply _. Defined.

(** The join event of the user in a channel, stored at [id]. *)
Definition join_event (id : Z) (c : UUID) : ChatEvent :=
  mkChatEvent id c "channel.member" (join_content world user) (u_id user) None None.

(** The messages that follow a join event: the event for the group of
    its channel, and a channel list for the user. *)
Definition join_fan_out (d : DB) (e : ChatEvent) (l : list ChannelListEntry)
  : list Message :=
  [GroupSend (GROUP_CHAT (e_channel e)) (serialize_public d e);
   UserBroadcast "chat.channels" l (u_id user) "dummysocket"].

(** The unread mark of the user in a channel. *)
Definition unread_mark (c : UUID) : string * string :=
  ("chat:unread.notify:" +:+ str_uuid c, str_uuid (u_id user)).

(** What a run of the loop of [enforce_forced_joins] over the candidates
    [cs] did, from [st] to [st1], with the events [new] stored on the
    way. *)
Definition forced_joins_done (cs : list (Channel * Room)) (st st1 : State)
    (new : list ChatEvent) : Prop :=
  chat_events (st_db st1) = chat_events (st_db st) ++ new
  ∧ (∀ c,
       (join_permitted cs c → membership_rows (st_db st) c (u_id user) = [] →
        ∃ id, (id ∉ event_ids (st_db st))
              ∧ filter (λ e, e_channel e = c) new = [join_event id c])
       ∧ (¬ (join_permitted cs c ∧ membership_rows (st_db st) c (u_id user) = []) →
          filter (λ e, e_channel e = c) new = [])
       ∧ (join_permitted cs c →
          membership_rows (st_db st1) c (u_id user)
          = match membership_rows (st_db st) c (u_id user) with
            | [] => [mkMembership c (u_id user) false false]
            | m :: _ => [mkMembership (m_channel m) (m_user m) false (m_hidden m)]
            end)
       ∧ (¬ join_permitted cs c →
          membership_rows (st_db st1) c (u_id user)
          = membership_rows (st_db st) c (u_id user)))
  ∧ filter (λ m, m_user m ≠ u_id user) (memberships (st_db st1))
    = filter (λ m, m_user m ≠ u_id user) (memberships (st_db st))
  ∧ (∃ groups, st_sent st1 = st_sent st ++ concat groups
       ∧ Forall2 (λ e g, ∃ l, g = join_fan_out (st_db st) e l) new groups)
  ∧ (∀ km, km ∈ redis_sets (st_redis st1)
           ↔ km ∈ redis_sets (st_redis st)
             ∨ ∃ e, e ∈ new ∧ km = unread_mark (e_channel e)).

End ForcedJoinWords.

(** * Further operations of the service *)

(** ** Mentions *)

(** The classes of [MENTION_RE]: [[0-9a-fA-F]] and the hyphen. *)
Inductive char_class := Hex | Dash.

Definition is_hex (a : ascii) : bool :=
  let n := N_of_ascii a in
  ((48 <=? n) && (n <=? 57) || (97 <=? n) && (n <=? 102)
   || (65 <=? n) && (n <=? 70))%N.

Definition class_matches (c : char_class) (a : ascii) : bool :=
  match c with
  | Hex => is_hex a
  | Dash => Ascii.eqb a "-"
  end.

(** The group of [MENTION_RE]: 8-4-4-4-12 hexadecimal digits. *)
Definition uuid_pattern : list char_class :=
  replicate 8 Hex ++ [Dash] ++ replicate 4 Hex ++ [Dash] ++ replicate 4 Hex
  ++ [Dash] ++ replicate 4 Hex ++ [Dash] ++ replicate 12 Hex.

(** The text that a sequence of classes matches at the start of [s]. *)
Fixpoint match_classes (p : list char_class) (s : string) : option string :=
  match p with
  | [] => Some ""
  | c :: p' =>
      match s with
      | EmptyString => None
      | String a s' =>
          if class_matches c a then String a <$> match_classes p' s' else None
      end
  end.

(** [MENTION_RE.finditer]: the groups of the matches from left to right;
    a match is looked for at every position that no earlier match
    covers, and [skip] counts the characters of the last match that are
    still ahead.  The pattern is ASCII, so that scanning the bytes of a
    UTF-8 text finds the matches of the text. *)
Fixpoint mentions_from (skip : nat) (s : string) : list string :=
  match s with
  | EmptyString => []
  | String a s' =>
      match skip with
      | S k => mentions_from k s'
      | O =>
          if Ascii.eqb a "@" then
            match match_classes uuid_pattern s' with
            | Some m => m :: mentions_from 36 s'
            | None => mentions_from 0 s'
            end
          else mentions_from 0 s'
      end
  end.

Definition extract_mentioned_user_ids (message : string) : gset string :=
  list_to_set (mentions_from 0 message).

(** The text of [uuid.UUID(s)] for a text [s] of the 8-4-4-4-12 form:
    the letters in lower case. *)
Definition lower (a : ascii) : ascii :=
  let n := N_of_ascii a in
  if ((65 <=? n) && (n <=? 90))%N then ascii_of_N (n + 32) else a.

Fixpoint uuid_text (s : string) : string :=
  match s with
  | EmptyString => EmptyString
  | String a s' => String (lower a) (uuid_text s')
  end.

(** The serialiser of the user model with its [include_admin_info]
    argument, as [get_events] calls it. *)
Class Profiles := {
  serialize_public_profile : User → bool → option json → json }.

Section Queries.
Context `{!Collaborators} `{!Profiles} (world : World).

(** ** Channel lookup *)

(** The rows of [Channel.objects.filter(Q(room__isnull=True) |
    Q(room__deleted=False))]. *)
Definition channel_listed (d : DB) (c : Channel) : Prop :=
  c_room c = None
  ∨ Exists (λ r, c_room c = Some (r_id r) ∧ r_deleted r = false) (rooms d).

(** [_get_channel]; the keyword lookups are given as a predicate on the
    rows. *)
Definition _get_channel (kwargs : Channel → Prop) `{!∀ c, Decision (kwargs c)}
  : M Channel :=
  let* d := get_db in
  match filter (λ c, channel_listed d c ∧ kwargs c) (channels d) with
  | [] => raise DoesNotExist
  | [c] => ret c
  | _ => raise MultipleObjectsReturned
  end.

(** [get_channel]: [None] when the lookup finds no row or several. *)
Definition get_channel (kwargs : Channel → Prop) `{!∀ c, Decision (kwargs c)}
  : M (option Channel) :=
  catch (let* c := _get_channel kwargs in ret (Some c))
    (λ e, match e with
          | DoesNotExist | MultipleObjectsReturned => ret None
          | _ => raise e
          end).

(** ** Reads of memberships and events *)

Definition membership_is_volatile (channel : Channel) (uid : UUID) : M bool :=
  let* d := get_db in
  match membership_rows d (c_id channel) uid with
  | [] => ret false
  | [m] => ret (m_volatile m)
  | _ => raise MultipleObjectsReturned
  end.

(** [filter_mentions]; [channel_room] is the room loaded with the channel
    ([channel.room]) and [uids] are the ids as UUID values. *)
Definition filter_mentions (channel : Channel) (channel_room : option Room)
    (uids : list UUID) (include_all_permitted : bool) : M (gset string) :=
  match uids with
  | [] => ret ∅
  | _ =>
      let* d := get_db in
      if include_all_permitted then
        let permitted_users := filter (λ u, u_id u ∈ uids) (users d) in
        ret (list_to_set
               ((λ u, str_uuid (u_id u))
                  <$> filter (λ u, has_permission world u ROOM_CHAT_READ channel_room = true)
                        permitted_users))
      else
        let member_rows := filter (λ m, m_channel m = c_id channel ∧ m_user m ∈ uids)
                             (memberships d) in
        ret (list_to_set ((λ m, str_uuid (m_user m)) <$> member_rows))
  end.

Definition get_highest_nonmember_id_in_channel (channel_id : UUID) : M Z :=
  let* d := get_db in
  ret (or_0 (max_nonmember_id d channel_id)).

Definition get_event (pk : Z) : M ChatEvent := _get_event pk.

(** [e.content.get("type") == "text"] *)
Definition is_text (content : dict) : bool :=
  match dict_get "type" content with
  | Some (JStr s) => bool_decide (s = "text")
  | _ => false
  end.

(** The ids that the loop of [get_events] adds for one event; [None] when
    the body of a text event is no string, which the regular expression
    rejects with a TypeError. *)
Definition event_user_ids (d : DB) (e : ChatEvent) : option (gset string) :=
  let ids : gset string :=
    {[ str_uuid (e_sender e) ]}
    ∪ list_to_set ((λ r, str_uuid r.2) <$> event_reactions d (e_id e)) in
  if is_text (e_content e) then
    match dict_get "body" (e_content e) with
    | None => Some (ids ∪ extract_mentioned_user_ids "")
    | Some (JStr body) => Some (ids ∪ extract_mentioned_user_ids body)
    | Some _ => None
    end
  else Some ids.

(** [order_by("-id")]: the row with the larger id comes first. *)
Definition later_first (a b : ChatEvent) : Prop := e_id b ≤ e_id a.

#[global] Instance later_first_dec a b : Decision (later_first a b).
Proof. unfold later_first. apply _. Defined.

(** The page of [get_events]: the rows below [before_id] of the channel,
    latest first, cut to [min(count, 1000)] rows. *)
Definition events_page (d : DB) (channel : Channel) (before_id count : Z)
    (skip_membership : bool) : list ChatEvent :=
  take (Z.to_nat (Z.min count 1000))
    (merge_sort later_first
       (filter (λ e, (skip_membership = true → e_event_type e ≠ "channel.member")
                     ∧ e_id e < before_id ∧ e_channel e = c_id channel)
          (chat_events d))).

(** [get_events]; the slice [[: min(count, 1000)]] of a queryset is
    rejected by Django when its stop is negative ("Negative indexing is
    not supported."); the exception is given the class that current
    Django versions raise, and the properties below do not depend on
    it. *)
Definition get_events (channel : Channel) (before_id count : Z)
    (skip_membership : bool) (users_known_to_client : option (list string))
    (include_admin_info : bool) (trait_badges_map : option json)
  : M (list PublicEvent * gmap string json) :=
  let* d := get_db in
  if Z.min count 1000 <? 0 then
    raise (ValueError "Negative indexing is not supported.")
  else
    let events := events_page d channel before_id count skip_membership in
    match mapM (event_user_ids d) events with
    | None => raise TypeError
    | Some sets =>
        let user_ids : gset string := ⋃ sets in
        let user_ids : gset string :=
          match users_known_to_client with
          | Some (k :: known) => user_ids ∖ list_to_set (k :: known)
          | _ => user_ids
          end in
        let wanted : gset string := set_map uuid_text user_ids in
        let users : gmap string json :=
          list_to_map
            (reverse
               ((λ u, (str_uuid (u_id u),
                       serialize_public_profile u include_admin_info trait_badges_map))
                  <$> filter (λ u, u_world u = w_id world ∧ str_uuid (u_id u) ∈ wanted)
                        (users d))) in
        ret (serialize_public d <$> reverse events, users)
    end.

End Queries.

Definition demo_profiles : Profiles :=
  {| serialize_public_profile := λ u admin _,
       JDict [("id", JStr (str_uuid (u_id u))); ("admin", JBool admin)] |}.

(** The counter holds a value of at least 1 that no stored id exceeds. *)
Definition counter_in_step (st : State) : Prop :=
  match chat_event_id (st_redis st) with
  | Some c => 1 ≤ c ∧ Forall (λ i, i ≤ c) (event_ids (st_db st))
  | None => False
  end.

#[global] Instance counter_in_step_dec st : Decision (counter_in_step st).
Proof. unfold counter_in_step. destruct (chat_event_id _); apply _. Defined.

(** The body that the call branch of [_store_event] starts from: the
    dict under ["body"], or an empty dict when the key is absent. *)
Definition call_body (content : dict) : option dict :=
  match dict_get "body" content with
  | None => Some []
  | Some (JDict b) => Some b
  | Some _ => None
  end.

(** A call invitation with a body. *)
Definition call_content (body : json) : dict := [("type", JStr "call"); ("body", body)].


(** The events of a channel that count for its unread pointer. *)
Definition nonmember_events (d : DB) (c : UUID) : list ChatEvent :=
  filter (λ e, e_channel e = c ∧ e_event_type e ≠ "channel.member") (chat_events d).

(** Two states with the same counting events in every channel. *)
Definition same_counting_events (st st' : State) : Prop :=
  ∀ c, nonmember_events (st_db st') c = nonmember_events (st_db st) c.

(** ** The rows of a channel list *)

Section ChannelList.
Context `{!Collaborators} (world : World).

(** The filter of [get_channels_for_user] on the memberships. *)
Definition listed_row (user_id : UUID) (is_volatile is_hidden : option bool)
    (m : Membership) : Prop :=
  m_user m = user_id
  ∧ (is_hidden = None ∨ is_hidden = Some (m_hidden m))
  ∧ (is_volatile = None ∨ is_volatile = Some (m_volatile m)).

(** The entries that [get_channels_for_user] builds from one membership. *)
Definition row_entries (d : DB) (m : Membership) : list ChannelListEntry :=
  c ← filter (λ c, c_id c = m_channel m ∧ c_world c = w_id world) (channels d);
  [mkEntry (str_uuid (m_channel m))
     (or_0 (max_nonmember_id d (m_channel m)))
     (match c_room c with
      | Some _ => None
      | None =>
          Some (m' ← filter (λ m', m_channel m' = c_id c) (memberships d);
                u ← filter (λ u, u_id u = m_user m') (users d);
                [serialize_public_user u (dict_get "trait_badges_map" (w_config world))])
      end)].

End ChannelList.

(** A text without the character that starts a mention. *)
Fixpoint no_at (s : string) : Prop :=
  match s with
  | EmptyString => True
  | String a s' => a ≠ "@"%char ∧ no_at s'
  end.

(** The rows that the query of [get_events] selects before it orders and
    cuts them. *)
Definition in_page_range (channel : Channel) (before_id : Z) (skip_membership : bool)
    (e : ChatEvent) : Prop :=
  (skip_membership = true → e_event_type e ≠ "channel.member")
  ∧ e_id e < before_id ∧ e_channel e = c_id channel.

#[global] Instance in_page_range_dec channel before_id skip_membership e :
  Decision (in_page_range channel before_id skip_membership e).
Proof. unfold in_page_range. apply _. Defined.

(** The value of the counter as [INCR] reads it: a missing key counts as
    0. *)
Definition counter_value (st : State) : Z := default 0 (chat_event_id (st_redis st)).

(** * Properties *)

(** ** The event log *)

Lemma max_id_ge ids i : i ∈ ids → ∃ m, max_id ids = Some m ∧ i ≤ m.
Proof.
  induction ids as [|j ids IH]; intros Hin.
  - by apply elem_of_nil in Hin.
  - apply elem_of_cons in Hin as [->|Hin]; simpl.
    + destruct (max_id ids); eexists; split; eauto; lia.
    + destruct (IH Hin) as (m & -> & Hm). eexists; split; eauto. lia.
Qed.

Lemma max_id_snoc ids i :
  max_id (ids ++ [i])
  = Some match max_id ids with None => i | Some m => Z.max m i end.
Proof.
  induction ids as [|j ids IH]; [done|]. cbn. rewrite IH.
  destruct (max_id ids) as [m|]; f_equal; lia.
Qed.

Lemma highest_id_ge d i : i ∈ event_ids d → i ≤ highest_id d.
Proof.
  intros Hin. unfold highest_id.
  destruct (max_id_ge _ _ Hin) as (m & -> & Hm). done.
Qed.

Lemma highest_id_fresh d k : 0 < k → highest_id d + k ∉ event_ids d.
Proof. intros Hk Hin. apply highest_id_ge in Hin. lia. Qed.

Section OrderingFacts.
Context `{!Collaborators} (world : World).

Lemma allocate_event_id_spec st :
  allocate_event_id st
  = if decide (counter_ok st) then (Ok (next_id st), after_allocate st)
    else (Raise ResponseError, st).
Proof.
  unfold allocate_event_id, redis_incr, bind at 1 2, get_redis.
  fold (counter_ok st). destruct (decide (counter_ok st)); [|reflexivity].
  unfold after_allocate, next_id, bind, get_redis, put_redis.
  cbn. destruct (_ <? 2); cbn; reflexivity.
Qed.

Lemma next_id_healed st : next_id (healed st) = highest_id (st_db st) + 2.
Proof. unfold next_id, healed. cbn. lia. Qed.

Lemma body_set_state k v content st :
  snd (body_set k v content st) = st.
Proof.
  unfold body_set. destruct (dict_get "body" content) as [[]|]; reflexivity.
Qed.

Lemma prepare_call_frame ch content st :
  same_but_calls st (snd (prepare_call world ch content st)).
Proof.
  unfold prepare_call.
  destruct (is_call content); [|by repeat split].
  destruct (decide _).
  { rewrite body_set_state. by repeat split. }
  unfold bind, get_db, BBBCall_create, draw_uuid, bind, get_db. cbn.
  destruct (decide _); cbn; [by repeat split|].
  match goal with |- context [body_set ?k ?v ?c ?s] =>
    pose proof (body_set_state k v c s) as Hs; destruct (body_set k v c s) as [[c1|e] s1] end;
    cbn in Hs; subst s1; cbn; [|by repeat split].
  rewrite body_set_state. by repeat split.
Qed.

Lemma prepare_call_plain ch content st :
  is_call content = false → prepare_call world ch content st = (Ok content, st).
Proof. intros Hc. unfold prepare_call. by rewrite Hc. Qed.

Lemma prepare_call_events ch content st o s1 :
  prepare_call world ch content st = (o, s1) →
  chat_events (st_db s1) = chat_events (st_db st) ∧ st_redis s1 = st_redis st.
Proof.
  intros Hp. pose proof (prepare_call_frame ch content st) as Hf.
  rewrite Hp in Hf. destruct Hf as (_ & _ & _ & _ & He & _ & _ & _ & Hr & _). done.
Qed.

Lemma highest_id_events d d' :
  chat_events d' = chat_events d → highest_id d' = highest_id d.
Proof. intros He. unfold highest_id, event_ids. by rewrite He. Qed.

Lemma prepare_call_directory ch content st o s1 :
  prepare_call world ch content st = (o, s1) →
  users (st_db s1) = users (st_db st) ∧ channels (st_db s1) = channels (st_db st).
Proof.
  intros Hp. pose proof (prepare_call_frame ch content st) as Hf.
  rewrite Hp in Hf. destruct Hf as (Hu & _ & Hc & _). done.
Qed.

Lemma counter_ok_healed st :
  counter_ok (healed st) ↔ incr_ok (highest_id (st_db st) + 1).
Proof. done. Qed.

(** One attempt of [create_event], after the increment of the counter
    and the preparation of a call. *)
Lemma create_event_attempt n ch ty content sender replaces _retry st :
  create_event_rec world (S n) ch ty content sender replaces _retry st =
  if decide (counter_ok st) then
    match prepare_call world ch content (after_allocate st) with
    | (Raise e, s1) => (Raise e, s1)
    | (Ok c1, s1) =>
        if decide (next_id st ∈ event_ids (st_db st)) then
          if _retry then (Raise (ValueError "unable to recover in store_event"), s1)
          else create_event_rec world n ch ty c1 sender None true (healed s1)
        else if decide (refs_ok (st_db st) ch sender (next_id st) replaces) then
          let ce := new_event (next_id st) ch ty c1 sender replaces in
          (Ok (serialize_public (st_db (append_event ce s1)) ce), append_event ce s1)
        else (Raise (IntegrityError false), s1)
    end
  else (Raise ResponseError, st).
Proof.
  cbn [create_event_rec]. unfold bind at 1.
  rewrite allocate_event_id_spec.
  destruct (decide (counter_ok st)) as [Hok|Hok]; [|reflexivity].
  unfold bind at 1. unfold _store_event. unfold bind at 1.
  destruct (prepare_call world ch content (after_allocate st)) as [[c1|e] s1] eqn:Hp;
    [|reflexivity].
  pose proof (prepare_call_events _ _ _ _ _ Hp) as [Hev _].
  pose proof (prepare_call_directory _ _ _ _ _ Hp) as [Hus Hcs].
  cbn in Hev, Hus, Hcs.
  assert (event_ids (st_db s1) = event_ids (st_db st)) as Hids
    by (unfold event_ids; by rewrite Hev).
  unfold catch, bind at 1, ChatEvent_create, bind at 1, get_db.
  cbn [e_id e_replaces e_channel e_sender].
  rewrite Hids.
  destruct (decide (next_id st ∈ event_ids (st_db st))) as [Hin|Hin].
  { cbn. destruct _retry; reflexivity. }
  unfold refs_ok, replaces_ok.
  destruct (decide (channel_stored (st_db s1) (c_id ch)
                    ∧ user_stored (st_db s1) (u_id sender))) as [Hfk|Hfk];
    unfold channel_stored, user_stored in Hfk |- *; rewrite Hus, Hcs in Hfk.
  - destruct replaces as [r|]; cbn.
    + destruct (decide (r ∈ event_ids (st_db st) ∨ r = next_id st)) as [Hr|Hr].
      * rewrite decide_True by done. reflexivity.
      * rewrite decide_False by tauto. reflexivity.
    + rewrite decide_True by done. reflexivity.
  - rewrite decide_False by tauto. reflexivity.
Qed.

Lemma create_event_retry_fuel n ch ty content sender replaces st :
  create_event_rec world (S n) ch ty content sender replaces true st
  = create_event_rec world 1 ch ty content sender replaces true st.
Proof. by rewrite !create_event_attempt. Qed.

(** Two levels of recursion are all that [create_event] uses: more fuel
    changes nothing, and the out-of-fuel error does not arise. *)
Lemma create_event_fuel n ch ty content sender replaces _retry st :
  create_event_rec world (S (S n)) ch ty content sender replaces _retry st
  = create_event world ch ty content sender replaces _retry st.
Proof.
  unfold create_event. rewrite !create_event_attempt.
  destruct (prepare_call world ch content (after_allocate st)) as [[c1|e] s1]; [|done].
  destruct (decide _); [|done]. destruct _retry; [done|].
  by rewrite (create_event_retry_fuel n).
Qed.

(** What the single retry does after a collision. *)
Lemma retry_after_heal_stores n ch ty content sender s1 :
  is_call content = false →
  incr_ok (highest_id (st_db s1) + 1) →
  channel_stored (st_db s1) (c_id ch) → user_stored (st_db s1) (u_id sender) →
  let N := highest_id (st_db s1) in
  let ce := new_event (N + 2) ch ty content sender None in
  create_event_rec world (S n) ch ty content sender None true (healed s1)
  = (Ok (serialize_public (st_db (append_event ce (after_allocate (healed s1)))) ce),
     append_event ce (after_allocate (healed s1))).
Proof.
  intros Hc Hincr Hch Hus N ce. rewrite create_event_attempt.
  rewrite decide_True by (by apply counter_ok_healed).
  rewrite prepare_call_plain by done.
  rewrite next_id_healed. cbn [healed with_counter st_db].
  destruct (decide _) as [Hin|_].
  { by apply highest_id_fresh in Hin. }
  rewrite decide_True by done. reflexivity.
Qed.

(** What the single retry does when the channel or the sender is not
    stored: the insert at the new id is refused, and nothing is stored. *)
Lemma retry_after_heal_refused n ch ty content sender s1 :
  is_call content = false →
  incr_ok (highest_id (st_db s1) + 1) →
  ¬ (channel_stored (st_db s1) (c_id ch) ∧ user_stored (st_db s1) (u_id sender)) →
  create_event_rec world (S n) ch ty content sender None true (healed s1)
  = (Raise (IntegrityError false), after_allocate (healed s1)).
Proof.
  intros Hc Hincr Hno. rewrite create_event_attempt.
  rewrite decide_True by (by apply counter_ok_healed).
  rewrite prepare_call_plain by done.
  rewrite next_id_healed. cbn [healed with_counter st_db].
  destruct (decide _) as [Hin|_].
  { by apply highest_id_fresh in Hin. }
  rewrite decide_False; [reflexivity|]. unfold refs_ok. tauto.
Qed.

(** After a collision of the first insert, an event that is not a call
    is stored by the retry, above every stored id. *)
Lemma create_event_collision_stores ch ty content sender replaces st :
  counter_ok st →
  next_id st ∈ event_ids (st_db st) →
  is_call content = false →
  incr_ok (highest_id (st_db st) + 1) →
  channel_stored (st_db st) (c_id ch) → user_stored (st_db st) (u_id sender) →
  ∃ ev st', create_event world ch ty content sender replaces false st = (Ok ev, st')
    ∧ pe_event_id ev = highest_id (st_db st) + 2
    ∧ chat_events (st_db st')
      = chat_events (st_db st)
        ++ [new_event (highest_id (st_db st) + 2) ch ty content sender None].
Proof.
  intros Hok Hin Hc Hincr Hch Hus. unfold create_event.
  rewrite create_event_attempt, decide_True, prepare_call_plain by done.
  rewrite decide_True by done. cbn [negb].
  rewrite retry_after_heal_stores by done.
  eexists _, _. split; [reflexivity|]. split; reflexivity.
Qed.

(** C2: a duplicate id at the first insert makes [create_event] recompute
    the highest stored id, reset the counter and run the whole operation
    once more, without [replaces]; a duplicate id in a call that is itself
    the retry raises "unable to recover in store_event" and retries no
    further.  The retry of an event that is not a call stores it above
    every stored id when its channel and sender are stored, and raises
    the error of the refused insert, storing nothing, when they are
    not. *)
Theorem C2_collision_retried_once ch ty content sender replaces st :
  counter_ok st →
  next_id st ∈ event_ids (st_db st) →
  create_event world ch ty content sender replaces false st
  = match prepare_call world ch content (after_allocate st) with
    | (Raise e, s1) => (Raise e, s1)
    | (Ok c1, s1) => create_event world ch ty c1 sender None true (healed s1)
    end
  ∧ create_event world ch ty content sender replaces true st
    = match prepare_call world ch content (after_allocate st) with
      | (Raise e, s1) => (Raise e, s1)
      | (Ok c1, s1) => (Raise (ValueError "unable to recover in store_event"), s1)
      end
  ∧ (is_call content = false → incr_ok (highest_id (st_db st) + 1) →
     (channel_stored (st_db st) (c_id ch) → user_stored (st_db st) (u_id sender) →
      ∃ ev st', create_event world ch ty content sender replaces false st = (Ok ev, st')
        ∧ pe_event_id ev = highest_id (st_db st) + 2
        ∧ chat_events (st_db st')
          = chat_events (st_db st)
            ++ [new_event (highest_id (st_db st) + 2) ch ty content sender None])
     ∧ (¬ (channel_stored (st_db st) (c_id ch) ∧ user_stored (st_db st) (u_id sender)) →
        ∃ st', create_event world ch ty content sender replaces false st
               = (Raise (IntegrityError false), st')
          ∧ chat_events (st_db st') = chat_events (st_db st))).
Proof.
  intros Hok Hin. unfold create_event. split; [|split].
  - rewrite create_event_attempt, decide_True by done.
    destruct (prepare_call _ _ _ _) as [[c1|e] s1]; [|done].
    rewrite decide_True by done. by rewrite (create_event_retry_fuel 1).
  - rewrite create_event_attempt, decide_True by done.
    destruct (prepare_call _ _ _ _) as [[c1|e] s1]; [|done].
    by rewrite decide_True.
  - intros Hc Hincr. split.
    + intros Hch Hus. by apply create_event_collision_stores.
    + intros Hno.
      rewrite create_event_attempt, decide_True, prepare_call_plain by done.
      rewrite decide_True by done. cbn [negb].
      rewrite retry_after_heal_refused by done. by eexists.
Qed.

(** An event returned after a collision of the first insert was stored
    by the retry. *)
Lemma create_event_collision_returns ch ty content sender replaces st ev st' :
  next_id st ∈ event_ids (st_db st) →
  create_event world ch ty content sender replaces false st = (Ok ev, st') →
  let N := highest_id (st_db st) in
  pe_event_id ev = N + 2 ∧ pe_replaces ev = None
  ∧ ∃ c2, chat_events (st_db st')
          = chat_events (st_db st) ++ [new_event (N + 2) ch ty c2 sender None].
Proof.
  intros Hin Hrun N. unfold create_event in Hrun.
  rewrite create_event_attempt in Hrun.
  destruct (decide (counter_ok st)); [|done].
  destruct (prepare_call world ch content (after_allocate st)) as [[c1|e] s1] eqn:Hp1;
    [|done].
  apply prepare_call_events in Hp1 as [He1 _]. cbn in He1.
  rewrite decide_True in Hrun by done. cbn [negb] in Hrun.
  rewrite create_event_attempt in Hrun.
  destruct (decide (counter_ok (healed s1))); [|done].
  destruct (prepare_call world ch c1 (after_allocate (healed s1))) as [[c2|e] s2] eqn:Hp2;
    [|done].
  apply prepare_call_events in Hp2 as [He2 _]. cbn in He2.
  rewrite next_id_healed in Hrun. cbn [healed with_counter st_db] in Hrun.
  destruct (decide _) as [Hbad|_].
  { by apply highest_id_fresh in Hbad. }
  destruct (decide _); [|done].
  cbn in Hrun. injection Hrun as <- <-.
  rewrite (highest_id_events _ _ He1). fold N. cbn.
  split; [done|]. split; [done|]. exists c2. by rewrite He2, He1.
Qed.

(** With the counter key absent or at 0 and the id 1 free, the event is
    stored at id 1, whatever ids the log holds: the safety block sets the
    counter above them, and the id drawn before it is kept for the
    insert. *)
Lemma cleared_counter_stores_at_1 ch ty content sender st :
  chat_event_id (st_redis st) = None ∨ chat_event_id (st_redis st) = Some 0 →
  1 ∉ event_ids (st_db st) →
  is_call content = false →
  channel_stored (st_db st) (c_id ch) → user_stored (st_db st) (u_id sender) →
  ∃ ev st', create_event world ch ty content sender None false st = (Ok ev, st')
    ∧ pe_event_id ev = 1
    ∧ chat_event_id (st_redis st') = Some (highest_id (st_db st) + 1)
    ∧ chat_events (st_db st')
      = chat_events (st_db st) ++ [new_event 1 ch ty content sender None].
Proof.
  intros Hreset Hfree Hc Hch Hus.
  assert (next_id st = 1) as Hnext by (unfold next_id; by destruct Hreset as [-> | ->]).
  assert (counter_ok st) as Hok
    by (unfold counter_ok, incr_ok; destruct Hreset as [-> | ->]; cbn; lia).
  unfold create_event.
  rewrite create_event_attempt, decide_True, prepare_call_plain by done.
  rewrite Hnext, decide_False, decide_True by done.
  eexists _, _. split; [reflexivity|]. cbn. split; [done|]. split; [|done].
  unfold next_id. by destruct Hreset as [-> | ->].
Qed.

End OrderingFacts.

Lemma C2_witness :
  ∃ ev st',
    create_event (H := demo_collaborators) demo_world lobby "channel.message" (text "hi")
      alice None false demo_behind = (Ok ev, st')
    ∧ pe_event_id ev = 5.
Proof.
  destruct (C2_collision_retried_once (H := demo_collaborators) demo_world lobby
              "channel.message" (text "hi") alice None demo_behind) as (_ & _ & Hok).
  { compute_done. }
  { compute_done. }
  destruct (Hok eq_refl) as [Hstored _]. { compute_done. }
  destruct Hstored as (ev & st' & Hrun & Hid & _); [compute_done|compute_done|].
  exists ev, st'. split; [exact Hrun|]. rewrite Hid. reflexivity.
Defined.

Section ReplacesFacts.
Context `{!Collaborators} (world : World).

(** C10: with a [replaces] reference supplied, an event stored after a
    collision of the first insert carries no [replaces] reference, since
    the retry does not pass it on; an event stored by the first insert
    carries the reference.  In both cases an event that is not a call is
    stored when the counter can be incremented and its channel and sender
    are stored. *)
Theorem C10_retry_drops_replaces ch ty content sender r st :
  (next_id st ∈ event_ids (st_db st) →
     (∀ ev st', create_event world ch ty content sender (Some r) false st = (Ok ev, st') →
        pe_replaces ev = None
        ∧ ∃ ce, chat_events (st_db st') = chat_events (st_db st) ++ [ce]
                ∧ e_id ce = pe_event_id ev ∧ e_replaces ce = None)
     ∧ (is_call content = false → counter_ok st →
        incr_ok (highest_id (st_db st) + 1) →
        channel_stored (st_db st) (c_id ch) → user_stored (st_db st) (u_id sender) →
        ∃ ev st', create_event world ch ty content sender (Some r) false st = (Ok ev, st')))
  ∧ (next_id st ∉ event_ids (st_db st) → r ∈ event_ids (st_db st) →
     (∀ ev st', create_event world ch ty content sender (Some r) false st = (Ok ev, st') →
        pe_replaces ev = Some r
        ∧ ∃ ce, chat_events (st_db st') = chat_events (st_db st) ++ [ce]
                ∧ e_id ce = pe_event_id ev ∧ e_replaces ce = Some r)
     ∧ (is_call content = false → counter_ok st →
        channel_stored (st_db st) (c_id ch) → user_stored (st_db st) (u_id sender) →
        ∃ ev st', create_event world ch ty content sender (Some r) false st = (Ok ev, st'))).
Proof.
  split.
  - intros Hin. split.
    + intros ev st' Hrun.
      destruct (create_event_collision_returns world _ _ _ _ _ _ _ _ Hin Hrun)
        as (Hid & Hrep & c2 & Hlog).
      split; [done|]. eexists. split; [exact Hlog|]. by rewrite Hid.
    + intros Hc Hok Hincr Hch Hus.
      destruct (create_event_collision_stores world ch ty content sender (Some r) st
                  Hok Hin Hc Hincr Hch Hus)
        as (ev & st' & Hrun & _). eauto.
  - intros Hfree Hr. split.
    + intros ev st'. unfold create_event. rewrite create_event_attempt.
      destruct (decide (counter_ok st)); [|done].
      destruct (prepare_call world ch content (after_allocate st)) as [[c1|e] s1] eqn:Hp;
        [|done].
      apply prepare_call_events in Hp as [He _]. cbn in He.
      rewrite decide_False by done.
      destruct (decide _); [|done].
      intros [= <- <-]. cbn. split; [done|].
      eexists. rewrite He. split; [reflexivity|]. done.
    + intros Hc Hok Hch Hus. unfold create_event.
      rewrite create_event_attempt, decide_True, prepare_call_plain by done.
      rewrite decide_False, decide_True; [eauto| |done].
      split; [done|]. by left.
Qed.

End ReplacesFacts.

(** C1 (defect of the code): on the demo store whose log holds the ids 2
    and 3 and whose counter key is absent, [create_event] stores the event
    at id 1, below the highest stored id 3, where the claim promises an id
    above it: the safety block sets the counter to 4, and the id 1 that
    was drawn before it is not drawn again.  The same happens with the
    counter key present and reset to 0. *)
Theorem C1_flushed_counter_reuses_low_id :
  (∃ ev st',
     create_event (H := demo_collaborators) demo_world stage "channel.message"
       (text "hello") bob None false demo_gap = (Ok ev, st')
     ∧ chat_event_id (st_redis demo_gap) = None
     ∧ event_ids (st_db demo_gap) = [2; 3]
     ∧ highest_id (st_db demo_gap) = 3
     ∧ pe_event_id ev = 1
     ∧ ¬ highest_id (st_db demo_gap) < pe_event_id ev
     ∧ event_ids (st_db st') = [2; 3; 1]
     ∧ chat_event_id (st_redis st') = Some 4)
  ∧ ∃ ev st',
      create_event (H := demo_collaborators) demo_world stage "channel.message"
        (text "hello") bob None false (with_counter 0 demo_gap) = (Ok ev, st')
      ∧ pe_event_id ev = 1
      ∧ event_ids (st_db st') = [2; 3; 1]
      ∧ chat_event_id (st_redis st') = Some 4.
Proof.
  split.
  - destruct (cleared_counter_stores_at_1 (H := demo_collaborators) demo_world stage
                "channel.message" (text "hello") bob demo_gap)
      as (ev & st' & Hrun & Hid & Hctr & Hlog);
      [by left|compute_done|reflexivity|compute_done|compute_done|].
    exists ev, st'. split; [exact Hrun|]. do 3 (split; [reflexivity|]).
    split; [exact Hid|]. split; [rewrite Hid; vm_compute; discriminate|].
    split; [|exact Hctr]. unfold event_ids. by rewrite Hlog.
  - destruct (cleared_counter_stores_at_1 (H := demo_collaborators) demo_world stage
                "channel.message" (text "hello") bob (with_counter 0 demo_gap))
      as (ev & st' & Hrun & Hid & Hctr & Hlog);
      [by right|compute_done|reflexivity|compute_done|compute_done|].
    exists ev, st'. split; [exact Hrun|]. split; [exact Hid|].
    split; [|exact Hctr]. unfold event_ids. by rewrite Hlog.
Qed.

Lemma C10_witness :
  (∃ ev st',
     create_event (H := demo_collaborators) demo_world stage "channel.message"
       (text "edit") bob (Some 2) false demo_behind = (Ok ev, st')
     ∧ pe_replaces ev = None)
  ∧ (∃ ev st',
     create_event (H := demo_collaborators) demo_world stage "channel.message"
       (text "edit") bob (Some 2) false demo_state = (Ok ev, st')
     ∧ pe_replaces ev = Some 2).
Proof.
  destruct (C10_retry_drops_replaces (H := demo_collaborators) demo_world stage
              "channel.message" (text "edit") bob 2 demo_behind) as [Hcol _].
  destruct (C10_retry_drops_replaces (H := demo_collaborators) demo_world stage
              "channel.message" (text "edit") bob 2 demo_state) as [_ Hfree].
  split.
  - destruct Hcol as [Hret Hex]. { compute_done. }
    destruct Hex as (ev & st' & Hrun);
      [reflexivity|compute_done|compute_done|compute_done|compute_done|].
    exists ev, st'. split; [exact Hrun|]. by destruct (Hret ev st' Hrun).
  - destruct Hfree as [Hret Hex]. { compute_done. } { compute_done. }
    destruct Hex as (ev & st' & Hrun);
      [reflexivity|compute_done|compute_done|compute_done|].
    exists ev, st'. split; [exact Hrun|]. by destruct (Hret ev st' Hrun).
Defined.

(** ** Memberships *)

Lemma filter_key_nil (ms : list Membership) c u :
  filter (λ m, m_channel m = c ∧ m_user m = u) ms = [] ↔ (c, u) ∉ membership_key <$> ms.
Proof.
  induction ms as [|m ms IH]; [set_solver|].
  rewrite filter_cons, fmap_cons, not_elem_of_cons. unfold membership_key at 1.
  destruct (decide _) as [[Hc Hu]|Hne].
  - subst c u. split; [intros ?; discriminate|]. intros [? _]. done.
  - rewrite IH. split; [|tauto]. intros ?. split; [|done].
    intros [= Hc Hu]. apply Hne. by split.
Qed.

Lemma filter_key_unique (ms : list Membership) c u :
  NoDup (membership_key <$> ms) →
  filter (λ m, m_channel m = c ∧ m_user m = u) ms = []
  ∨ ∃ m, filter (λ m, m_channel m = c ∧ m_user m = u) ms = [m]
         ∧ m_channel m = c ∧ m_user m = u.
Proof.
  induction ms as [|m ms IH]; [by left|].
  rewrite fmap_cons, NoDup_cons. intros [Hm Hnd].
  rewrite filter_cons. destruct (decide _) as [[Hc Hu]|Hne].
  - subst c u. right. exists m. split; [|done]. f_equal. by apply filter_key_nil.
  - by apply IH.
Qed.

Lemma clear_volatile_keys c u ms :
  membership_key <$> clear_volatile c u ms = membership_key <$> ms.
Proof.
  unfold clear_volatile. rewrite <- list_fmap_compose. apply list_fmap_ext.
  intros i m _. cbn. by destruct (decide _).
Qed.

Lemma clear_volatile_rows c u ms :
  filter (λ m, m_channel m = c ∧ m_user m = u) (clear_volatile c u ms)
  = (λ m, mkMembership (m_channel m) (m_user m) false (m_hidden m))
      <$> filter (λ m, m_channel m = c ∧ m_user m = u) ms.
Proof.
  induction ms as [|m ms IH]; [done|].
  unfold clear_volatile in *. cbn [fmap list_fmap].
  destruct (decide (m_channel m = c ∧ m_user m = u)) as [Hk|Hk].
  - rewrite !filter_cons_True by done. cbn [fmap list_fmap]. f_equal. apply IH.
  - rewrite !filter_cons_False by done. apply IH.
Qed.

Section MembershipFacts.
Context `{!Collaborators} (world : World).

Lemma with_db_same st : with_db (st_db st) st = st.
Proof. by destruct st. Qed.

(** The result of [add_channel_user] when the pair has no row. *)
Lemma add_channel_user_new c user v st :
  membership_rows (st_db st) c (u_id user) = [] →
  channel_stored (st_db st) c → user_stored (st_db st) (u_id user) →
  add_channel_user c user v st
  = (Ok true,
     with_db (set_memberships
                (memberships (st_db st) ++ [mkMembership c (u_id user) v false])
                (st_db st)) st).
Proof.
  unfold membership_rows. intros Hrows Hc Hu.
  unfold add_channel_user, atomic, bind at 1, Membership_get_or_create, bind at 1, get_db.
  rewrite Hrows, decide_True by done. reflexivity.
Qed.

(** The result of [add_channel_user] when the pair has no row and the
    channel or the user is not stored: the insert is refused and the
    block is rolled back. *)
Lemma add_channel_user_refused c user v st :
  membership_rows (st_db st) c (u_id user) = [] →
  ¬ (channel_stored (st_db st) c ∧ user_stored (st_db st) (u_id user)) →
  add_channel_user c user v st = (Raise (IntegrityError false), st).
Proof.
  unfold membership_rows. intros Hrows Hno.
  unfold add_channel_user, atomic, bind at 1, Membership_get_or_create, bind at 1, get_db.
  rewrite Hrows, decide_False by done. by destruct st.
Qed.

(** The result of [add_channel_user] when the pair has one row. *)
Lemma add_channel_user_existing c user v st m :
  membership_rows (st_db st) c (u_id user) = [m] →
  add_channel_user c user v st
  = (Ok false,
     if m_volatile m && negb v
     then with_db (set_memberships (clear_volatile (m_channel m) (m_user m)
                                      (memberships (st_db st))) (st_db st)) st
     else st).
Proof.
  unfold membership_rows. intros Hrows.
  unfold add_channel_user, atomic, bind at 1, Membership_get_or_create, bind at 1, get_db.
  rewrite Hrows. cbn. destruct (m_volatile m), v; cbn; try reflexivity.
Qed.

End MembershipFacts.

Section MembershipIdempotence.
Context `{!Collaborators} (world : World).

(** One call of [add_channel_user] on a store with unique memberships. *)
Lemma add_channel_user_spec c user v st :
  unique_memberships (st_db st) →
  channel_stored (st_db st) c → user_stored (st_db st) (u_id user) →
  ∃ created st1,
    add_channel_user c user v st = (Ok created, st1)
    ∧ (created = true ↔ membership_rows (st_db st) c (u_id user) = [])
    ∧ unique_memberships (st_db st1)
    ∧ length (memberships (st_db st1))
      = (if created then S (length (memberships (st_db st)))
         else length (memberships (st_db st)))
    ∧ ∃ m1, membership_rows (st_db st1) c (u_id user) = [m1]
        ∧ m_volatile m1
          = match membership_rows (st_db st) c (u_id user) with
            | [] => v
            | m :: _ => m_volatile m && v
            end.
Proof.
  intros Hu Hcs Hus.
  destruct (filter_key_unique (memberships (st_db st)) c (u_id user) Hu)
    as [Hnil|(m & Hone & Hmc & Hmu)]; fold (membership_rows (st_db st) c (u_id user)) in *.
  - rewrite add_channel_user_new by done. rewrite Hnil.
    eexists _, _. split; [reflexivity|]. split; [done|]. cbn.
    split; [|split].
    + unfold unique_memberships. cbn. rewrite fmap_app. apply NoDup_app.
      split; [done|]. split; [|apply NoDup_singleton].
      intros k Hk. cbn. rewrite list_elem_of_singleton. intros ->.
      unfold membership_rows in Hnil. by apply filter_key_nil in Hnil.
    + by rewrite length_app, Nat.add_1_r.
    + exists (mkMembership c (u_id user) v false). split; [|done].
      unfold membership_rows in *. cbn. rewrite filter_app, Hnil.
      by rewrite filter_cons_True.
  - rewrite (add_channel_user_existing _ _ _ _ m) by done. rewrite Hone.
    eexists _, _. split; [reflexivity|]. split; [done|].
    destruct (m_volatile m) eqn:Hv, v; cbn [andb negb];
      try (split; [done|]; split; [done|]; exists m; by rewrite ?Hv).
    unfold unique_memberships, membership_rows.
    cbn [with_db st_db memberships set_memberships].
    rewrite clear_volatile_keys. split; [done|].
    split; [by unfold clear_volatile; rewrite length_fmap|].
    rewrite Hmc, Hmu, clear_volatile_rows.
    unfold membership_rows in Hone. rewrite Hone. eauto.
Qed.

(** [add_channel_user] writes memberships only. *)
Lemma add_channel_user_directory c user v st :
  users (st_db (add_channel_user c user v st).2) = users (st_db st)
  ∧ channels (st_db (add_channel_user c user v st).2) = channels (st_db st).
Proof.
  unfold add_channel_user, atomic, Membership_get_or_create, bind, get_db.
  destruct (filter _ _) as [|m [|m' l]]; cbn.
  - destruct (decide _); by split.
  - destruct (m_volatile m), v; by split.
  - by split.
Qed.

(** C5: for a stored channel and a stored user, [add_channel_user] keeps
    the rows unique per (channel, user) and reports a creation only when
    the pair had no row; a second call reports none and adds no row; a
    volatile row is cleared by a non-volatile join, and a cleared flag
    stays cleared. *)
Theorem C5_add_channel_user_idempotent c user v1 st :
  unique_memberships (st_db st) →
  channel_stored (st_db st) c → user_stored (st_db st) (u_id user) →
  ∃ created st1,
    add_channel_user c user v1 st = (Ok created, st1)
    ∧ (created = true ↔ membership_rows (st_db st) c (u_id user) = [])
    ∧ unique_memberships (st_db st1)
    ∧ length (memberships (st_db st1))
      = (if created then S (length (memberships (st_db st)))
         else length (memberships (st_db st)))
    ∧ ∃ m1, membership_rows (st_db st1) c (u_id user) = [m1]
        ∧ m_volatile m1
          = match membership_rows (st_db st) c (u_id user) with
            | [] => v1
            | m :: _ => m_volatile m && v1
            end
        ∧ ∀ v2, ∃ st2,
            add_channel_user c user v2 st1 = (Ok false, st2)
            ∧ length (memberships (st_db st2)) = length (memberships (st_db st1))
            ∧ (∃ m2, membership_rows (st_db st2) c (u_id user) = [m2]
                 ∧ m_volatile m2 = m_volatile m1 && v2)
            ∧ (m_volatile m1 = false ∨ v2 = true → st2 = st1).
Proof.
  intros Hu Hcs Hus.
  destruct (add_channel_user_spec c user v1 st Hu Hcs Hus)
    as (created & st1 & Hrun & Hcr & Hu1 & Hlen & m1 & Hrows & Hvol).
  exists created, st1. do 4 (split; [done|]).
  exists m1. do 2 (split; [done|]). intros v2.
  pose proof (add_channel_user_directory c user v1 st) as [Hus1 Hcs1].
  rewrite Hrun in Hus1, Hcs1. cbn [snd] in Hus1, Hcs1.
  destruct (add_channel_user_spec c user v2 st1 Hu1)
    as (created2 & st2 & Hrun2 & Hcr2 & _ & Hlen2 & m2 & Hrows2 & Hvol2);
    [by unfold channel_stored; rewrite Hcs1|by unfold user_stored; rewrite Hus1|].
  assert (created2 = false) as ->.
  { destruct created2; [|done]. destruct Hcr2 as [Hcr2 _].
    specialize (Hcr2 eq_refl). by rewrite Hrows in Hcr2. }
  exists st2. split; [done|]. split; [done|]. rewrite Hrows in Hvol2.
  split; [eauto|]. intros Hsame.
  rewrite (add_channel_user_existing _ _ _ _ m1) in Hrun2 by done.
  injection Hrun2 as <-.
  destruct Hsame as [-> | ->]; [done|]. by rewrite andb_false_r.
Qed.

End MembershipIdempotence.

Lemma C5_witness :
  (∃ st1 st2,
     add_channel_user lobby_id bob false demo_state = (Ok true, st1)
     ∧ add_channel_user lobby_id bob false st1 = (Ok false, st2)
     ∧ st2 = st1)
  ∧ (∃ st1 m1,
     add_channel_user lobby_id alice false demo_state = (Ok false, st1)
     ∧ membership_rows (st_db st1) lobby_id alice_id = [m1]
     ∧ m_volatile m1 = false
     ∧ length (memberships (st_db st1)) = length (memberships (st_db demo_state))).
Proof.
  split.
  - destruct (C5_add_channel_user_idempotent lobby_id bob false demo_state)
      as (created & st1 & Hrun & Hcr & _ & _ & m1 & _ & Hvol & Hagain).
    { unfold unique_memberships. compute_done. }
    { compute_done. }
    { compute_done. }
    destruct (Hagain false) as (st2 & Hrun2 & _ & _ & Hsame).
    assert (created = true) as -> by (apply Hcr; reflexivity).
    exists st1, st2. split; [exact Hrun|]. split; [exact Hrun2|].
    apply Hsame. left. exact Hvol.
  - destruct (C5_add_channel_user_idempotent lobby_id alice false demo_state)
      as (created & st1 & Hrun & Hcr & _ & Hlen & m1 & Hrows & Hvol & _).
    { unfold unique_memberships. compute_done. }
    { compute_done. }
    { compute_done. }
    destruct created.
    { destruct Hcr as [Hcr _]. specialize (Hcr eq_refl). discriminate Hcr. }
    exists st1, m1. split; [exact Hrun|]. split; [exact Hrows|].
    split; [exact Hvol|exact Hlen].
Defined.

(** ** Notifications *)

Lemma count_by_channel_lookup cs k :
  count_by_channel cs !! k = grouped_count k cs.
Proof.
  unfold grouped_count.
  induction cs as [|c cs IH]; [done|]. cbn [count_by_channel foldr].
  fold (count_by_channel cs).
  destruct (decide (str_uuid c = k)) as [<-|Hne].
  - rewrite lookup_insert_eq, filter_cons_True by done. rewrite IH.
    by destruct (filter _ cs).
  - rewrite lookup_insert_ne, filter_cons_False by done. apply IH.
Qed.

Lemma str_uuid_inj u v : str_uuid u = str_uuid v → u = v.
Proof. destruct u, v. cbn. by intros ->. Qed.

Lemma grouped_count_none k cs :
  grouped_count k cs = None ↔ ∀ c, c ∈ cs → str_uuid c ≠ k.
Proof.
  unfold grouped_count, subquery_count. split.
  - intros Hn c Hc Hk.
    assert (c ∈ filter (λ c, str_uuid c = k) cs) as Hin by (by apply list_elem_of_filter).
    destruct (filter _ cs); [by apply elem_of_nil in Hin|done].
  - intros Hall. destruct (filter _ cs) as [|c l] eqn:Hf; [done|].
    assert (c ∈ filter (λ c, str_uuid c = k) cs) as Hin by (rewrite Hf; left).
    apply list_elem_of_filter in Hin as [Hk Hin]. by destruct (Hall c Hin).
Qed.

Lemma grouped_count_snoc k cs c :
  str_uuid c = k →
  grouped_count k (cs ++ [c]) = Some (S (default 0%nat (grouped_count k cs))).
Proof.
  intros Hk. unfold grouped_count. rewrite filter_app, filter_cons_True by done.
  cbn [filter list_filter]. unfold subquery_count.
  destruct (filter _ cs) as [|c' l]; [done|].
  cbn. rewrite length_app. cbn. do 2 f_equal. lia.
Qed.

Lemma event_row_unique (es : list ChatEvent) e :
  NoDup (e_id <$> es) → e ∈ es → filter (λ e', e_id e' = e_id e) es = [e].
Proof.
  induction es as [|e0 es IH]; [by intros _ ?%elem_of_nil|].
  rewrite fmap_cons, NoDup_cons, elem_of_cons. intros [Hfresh Hnd] [->|Hin].
  - rewrite filter_cons_True by done. f_equal.
    destruct (filter _ es) as [|e1 l] eqn:Hf; [done|].
    assert (e1 ∈ filter (λ e', e_id e' = e_id e0) es) as Hin by (rewrite Hf; left).
    apply list_elem_of_filter in Hin as [Hid Hin]. destruct Hfresh.
    rewrite <- Hid. by apply list_elem_of_fmap_2.
  - rewrite filter_cons_False; [by apply IH|].
    intros Hid. destruct Hfresh. rewrite Hid. by apply list_elem_of_fmap_2.
Qed.

Lemma filter_none {A} (P : A → Prop) `{!∀ x, Decision (P x)} (l : list A) :
  (∀ x, x ∈ l → ¬ P x) → filter P l = [].
Proof.
  induction l as [|x l IH]; [done|]. intros Hall.
  rewrite filter_cons_False by (apply Hall; left).
  apply IH. intros y Hy. apply Hall. by right.
Qed.

Lemma filter_all {A} (P : A → Prop) `{!∀ x, Decision (P x)} (l : list A) :
  (∀ x, x ∈ l → P x) → filter P l = l.
Proof.
  induction l as [|x l IH]; [done|]. intros Hall.
  rewrite filter_cons_True by (apply Hall; left).
  f_equal. apply IH. intros y Hy. apply Hall. by right.
Qed.

Section NotificationFacts.
Context `{!Collaborators} (world : World).

Lemma remove_notifications_spec u c x st :
  remove_notifications u c x st
  = (Ok (bool_decide (0 < length (filter (notification_selected (st_db st) u c x)
                                   (notifications (st_db st))))%nat),
     with_db (set_notifications
                (filter (λ n, ¬ notification_selected (st_db st) u c x n)
                   (notifications (st_db st))) (st_db st)) st).
Proof. reflexivity. Qed.

End NotificationFacts.

Section NotificationLifecycle.
Context `{!Collaborators} (world : World).

Lemma notified_channels_counts d u :
  get_notification_counts d u = count_by_channel (notified_channels d u).
Proof. reflexivity. Qed.

(** The rows that the query of [remove_notifications] selects, said
    without the query: the rows of the recipient whose event has an id of
    at most [max_id] and lies in the channel. *)
Lemma notification_selected_iff d u c x n :
  notification_selected d u c x n
  ↔ n_recipient n = u ∧ n_chat_event n ≤ x
    ∧ Exists (λ e, e_id e = n_chat_event n ∧ e_channel e = c) (chat_events d).
Proof.
  unfold notification_selected, notification_channels.
  rewrite list_elem_of_fmap, Exists_exists. split.
  - intros (Hx & (e & -> & [Hid He]%list_elem_of_filter) & Hu).
    split; [done|]. split; [done|]. by exists e.
  - intros (Hu & Hx & e & He & Hid & Hc). split; [done|]. split; [|done].
    exists e. split; [done|]. by apply list_elem_of_filter.
Qed.

(** C6: for a stored recipient, a stored notification raises the count of
    the channel of its event above zero; [remove_notifications] deletes
    the rows of the user whose event lies in the channel and has an id of
    at most [max_id], and no other row, and returns whether there was
    one; a second call returns false and changes nothing; once no row of
    the channel is left, the key is gone. *)
Theorem C6_notification_lifecycle u c e st :
  e ∈ chat_events (st_db st) → e_channel e = c → NoDup (event_ids (st_db st)) →
  user_stored (st_db st) u →
  ∃ st1,
    store_notification (e_id e) [u] st = (Ok tt, st1)
    ∧ get_notification_counts (st_db st1) u !! str_uuid c
      = Some (S (default 0%nat (get_notification_counts (st_db st) u !! str_uuid c)))
    ∧ ∀ max_id,
        let due := λ n, n_recipient n = u ∧ n_chat_event n ≤ max_id
                        ∧ Exists (λ e', e_id e' = n_chat_event n ∧ e_channel e' = c)
                            (chat_events (st_db st1)) in
        ∃ deleted st2,
          remove_notifications u c max_id st1 = (Ok deleted, st2)
          ∧ st2 = with_db (set_notifications
                             (filter (λ n, ¬ due n) (notifications (st_db st1)))
                             (st_db st1)) st1
          ∧ (deleted = true ↔ ∃ n, n ∈ notifications (st_db st1) ∧ due n)
          ∧ (e_id e ≤ max_id → deleted = true)
          ∧ remove_notifications u c max_id st2 = (Ok false, st2)
          ∧ ((∀ n, n ∈ notifications (st_db st1) → n_recipient n = u →
                   Exists (λ e', e_id e' = n_chat_event n ∧ e_channel e' = c)
                     (chat_events (st_db st1)) →
                   n_chat_event n ≤ max_id) →
             get_notification_counts (st_db st2) u !! str_uuid c = None).
Proof.
  intros He Hc Hnd Hus.
  assert (notification_channels (st_db st) (mkNotification (e_id e) u) = [c]) as Hch.
  { unfold notification_channels. cbn [n_chat_event].
    rewrite (event_row_unique _ e) by done. by rewrite <- Hc. }
  assert (store_notification (e_id e) [u] st
          = (Ok tt, with_db (set_notifications
                               (notifications (st_db st) ++ [mkNotification (e_id e) u])
                               (st_db st)) st)) as Hstore.
  { unfold store_notification, bind, get_db. rewrite decide_True; [done|].
    split; [by apply list_elem_of_fmap_2|]. by apply Forall_singleton. }
  eexists. split; [exact Hstore|]. split.
  { rewrite !notified_channels_counts, !count_by_channel_lookup.
    unfold notified_channels at 1.
    cbn [with_db st_db notifications set_notifications fmap list_fmap].
    rewrite filter_app, bind_app. rewrite filter_cons_True by done.
    cbn [filter list_filter mbind list_bind].
    change (notification_channels _ (mkNotification (e_id e) u))
      with (notification_channels (st_db st) (mkNotification (e_id e) u)).
    rewrite Hch. cbn [app].
    by apply grouped_count_snoc. }
  intros max_id due. rewrite remove_notifications_spec.
  match goal with
  | |- context [notification_selected ?d u c max_id] => set (d1 := d)
  end.
  set (sel := notification_selected d1 u c max_id).
  assert (∀ n, sel n ↔ due n) as Hdue by (intros n; apply notification_selected_iff).
  eexists _, _. split; [reflexivity|].
  split; [|split; [|split; [|split]]].
  - f_equal. f_equal. apply list_filter_iff. intros n. by rewrite Hdue.
  - rewrite bool_decide_eq_true. split.
    + intros Hlen. destruct (filter sel (notifications d1)) as [|n l] eqn:Hf;
        [cbn in Hlen; lia|].
      assert (n ∈ filter sel (notifications d1)) as Hin by (rewrite Hf; left).
      apply list_elem_of_filter in Hin as [? ?]. exists n. by rewrite <- Hdue.
    + intros (n & Hn & Hsel%Hdue).
      assert (n ∈ filter sel (notifications d1)) as Hin by (by apply list_elem_of_filter).
      destruct (filter sel (notifications d1)); [by apply elem_of_nil in Hin|cbn; lia].
  - intros Hmax. rewrite bool_decide_eq_true.
    assert (mkNotification (e_id e) u ∈ filter sel (notifications d1)) as Hin.
    { apply list_elem_of_filter. split.
      - unfold sel, notification_selected. cbn [n_chat_event n_recipient].
        split; [done|]. split; [|done].
        change (notification_channels d1 _)
          with (notification_channels (st_db st) (mkNotification (e_id e) u)).
        rewrite Hch. left.
      - unfold d1. cbn. apply elem_of_app. right. left. }
    destruct (filter sel (notifications d1)); [by apply elem_of_nil in Hin|cbn; lia].
  - rewrite remove_notifications_spec.
    cbn [with_db st_db notifications set_notifications].
    change (notification_selected (set_notifications _ d1) u c max_id) with sel.
    rewrite (filter_none sel), (filter_all (λ n, ¬ sel n)); [reflexivity| |].
    + by intros n [? _]%list_elem_of_filter.
    + by intros n [? _]%list_elem_of_filter.
  - intros Hall. rewrite notified_channels_counts, count_by_channel_lookup.
    apply grouped_count_none. intros ch Hch' Hk. apply str_uuid_inj in Hk as ->.
    unfold notified_channels in Hch'. apply list_elem_of_bind in Hch' as (n & Hn & Hin).
    apply list_elem_of_filter in Hin as [Hrec Hin].
    cbn [with_db st_db notifications set_notifications] in Hin.
    apply list_elem_of_filter in Hin as [Hnsel Hin].
    apply Hnsel.
    assert (sel n) as Hs; [|done].
    change (notification_channels (set_notifications _ d1) n)
      with (notification_channels d1 n) in Hn.
    split; [|done].
    apply Hall; [done|done|].
    assert (notification_selected d1 u c (n_chat_event n) n) as Hx by (by split).
    by apply notification_selected_iff in Hx as (_ & _ & ?).
Qed.

End NotificationLifecycle.

Lemma C6_witness :
  ∃ st1 st2,
    store_notification 2 [carol_id] demo_state = (Ok tt, st1)
    ∧ get_notification_counts (st_db st1) carol_id !! str_uuid lobby_id = Some 1%nat
    ∧ remove_notifications carol_id lobby_id 2 st1 = (Ok true, st2)
    ∧ remove_notifications carol_id lobby_id 2 st2 = (Ok false, st2)
    ∧ get_notification_counts (st_db st2) carol_id !! str_uuid lobby_id = None.
Proof.
  destruct (C6_notification_lifecycle carol_id lobby_id
              (mkChatEvent 2 lobby_id "channel.message" (text "two") bob_id None None)
              demo_state) as (st1 & Hstore & Hcount & Hremove).
  { right. left. }
  { reflexivity. }
  { compute_done. }
  { compute_done. }
  destruct (Hremove 2) as (deleted & st2 & Hrun & _ & _ & Hdel & Hagain & Hnone).
  rewrite (Hdel ltac:(reflexivity)) in Hrun.
  exists st1, st2. split; [exact Hstore|]. split; [exact Hcount|].
  split; [exact Hrun|]. split; [exact Hagain|].
  apply Hnone. injection Hstore as <-. intros n Hn _ _. revert n Hn.
  apply Forall_forall. compute_done.
Defined.

(** ** Reactions *)

Lemma reaction_triple r ev x u :
  rx_chat_event r = ev ∧ rx_reaction r = x ∧ rx_sender r = u ↔ r = mkReaction ev x u.
Proof. destruct r. cbn. split; [by intros (-> & -> & ->)|by intros [= -> -> ->]]. Qed.

Lemma reaction_rows_unique d ev x u :
  unique_reactions d →
  reaction_rows d ev x u = [] ∨ reaction_rows d ev x u = [mkReaction ev x u].
Proof.
  unfold unique_reactions, reaction_rows.
  induction (reactions d) as [|r rs IH]; [by left|].
  rewrite NoDup_cons. intros [Hr Hnd].
  destruct (decide (rx_chat_event r = ev ∧ rx_reaction r = x ∧ rx_sender r = u))
    as [Hk|Hk].
  - right. rewrite filter_cons_True by done. apply reaction_triple in Hk as ->.
    f_equal. apply filter_none. intros r' Hr' ->%reaction_triple. done.
  - rewrite filter_cons_False by done. by apply IH.
Qed.

Lemma reaction_rows_nil d ev x u :
  reaction_rows d ev x u = [] ↔ mkReaction ev x u ∉ reactions d.
Proof.
  unfold reaction_rows. split.
  - intros Hnil Hin.
    assert (mkReaction ev x u ∈ filter (λ r, rx_chat_event r = ev ∧ rx_reaction r = x
                                             ∧ rx_sender r = u) (reactions d)) as Hf
      by (by apply list_elem_of_filter).
    rewrite Hnil in Hf. by apply elem_of_nil in Hf.
  - intros Hn. apply filter_none. intros r Hr ->%reaction_triple. done.
Qed.

Section ReactionFacts.
Context `{!Collaborators} (world : World).

Lemma get_event_stored stored st :
  NoDup (event_ids (st_db st)) → stored ∈ chat_events (st_db st) →
  _get_event (e_id stored) st = (Ok stored, st).
Proof.
  intros Hnd Hin. unfold _get_event, bind, get_db.
  by rewrite (event_row_unique _ stored).
Qed.

(** C7: for a stored sender, [add_reaction] leaves exactly one row of
    the triple, also when repeated; [remove_reaction] leaves none and
    raises nothing when there was none; both return the stored event
    serialised with the reactions of the store they leave. *)
Theorem C7_reactions_idempotent event stored reaction user st :
  NoDup (event_ids (st_db st)) → stored ∈ chat_events (st_db st) →
  e_id event = e_id stored → unique_reactions (st_db st) →
  (user_stored (st_db st) (u_id user) →
   ∃ st1,
     add_reaction event reaction user st = (Ok (serialize_public (st_db st1) stored), st1)
     ∧ reaction_rows (st_db st1) (e_id event) reaction (u_id user)
       = [mkReaction (e_id event) reaction (u_id user)]
     ∧ unique_reactions (st_db st1)
     ∧ add_reaction event reaction user st1
       = (Ok (serialize_public (st_db st1) stored), st1))
  ∧ (∃ st2,
     remove_reaction event reaction user st = (Ok (serialize_public (st_db st2) stored), st2)
     ∧ reaction_rows (st_db st2) (e_id event) reaction (u_id user) = []
     ∧ (reaction_rows (st_db st) (e_id event) reaction (u_id user) = [] → st2 = st)
     ∧ remove_reaction event reaction user st2
       = (Ok (serialize_public (st_db st2) stored), st2)).
Proof.
  intros Hnd Hin Hid Hu. rewrite Hid. split.
  - intros Hus.
    destruct (reaction_rows_unique (st_db st) (e_id stored) reaction (u_id user) Hu)
      as [Hnil|Hone].
    + exists (with_reactions (reactions (st_db st)
                               ++ [mkReaction (e_id stored) reaction (u_id user)]) st).
      assert (reaction_rows
                (set_reactions (reactions (st_db st)
                   ++ [mkReaction (e_id stored) reaction (u_id user)]) (st_db st))
                (e_id stored) reaction (u_id user)
              = [mkReaction (e_id stored) reaction (u_id user)]) as Hrows.
      { unfold reaction_rows in *. cbn [reactions set_reactions].
        rewrite filter_app, Hnil. by rewrite filter_cons_True. }
      split; [|split; [exact Hrows|split]].
      * unfold add_reaction, bind at 1, get_db. rewrite Hid.
        unfold reaction_rows in Hnil. rewrite Hnil.
        rewrite decide_True by (split; [by apply list_elem_of_fmap_2|done]).
        unfold bind at 1, put_db. unfold bind at 1.
        rewrite get_event_stored by done. reflexivity.
      * unfold unique_reactions. cbn. apply NoDup_app. split; [done|].
        split; [|apply NoDup_singleton].
        intros r Hr ->%list_elem_of_singleton. by apply reaction_rows_nil in Hnil.
      * unfold add_reaction, bind at 1, get_db. rewrite Hid.
        unfold reaction_rows in Hrows. cbn [with_reactions with_db st_db]. rewrite Hrows.
        unfold bind at 1, ret. unfold bind at 1.
        rewrite get_event_stored by done. reflexivity.
    + exists st. split; [|split; [done|split; [done|]]].
      * unfold add_reaction, bind at 1, get_db. rewrite Hid.
        unfold reaction_rows in Hone. rewrite Hone.
        unfold bind at 1, ret. unfold bind at 1.
        rewrite get_event_stored by done. reflexivity.
      * unfold add_reaction, bind at 1, get_db. rewrite Hid.
        unfold reaction_rows in Hone. rewrite Hone.
        unfold bind at 1, ret. unfold bind at 1.
        rewrite get_event_stored by done. reflexivity.
  - set (keep := filter (λ r, ¬ (rx_chat_event r = e_id stored ∧ rx_reaction r = reaction
                                  ∧ rx_sender r = u_id user)) (reactions (st_db st))).
    assert (filter (λ r, rx_chat_event r = e_id stored ∧ rx_reaction r = reaction
                         ∧ rx_sender r = u_id user) keep = []) as Hgone.
    { apply filter_none. by intros r [? _]%list_elem_of_filter. }
    assert (filter (λ r, ¬ (rx_chat_event r = e_id stored ∧ rx_reaction r = reaction
                            ∧ rx_sender r = u_id user)) keep = keep) as Hkeep.
    { apply filter_all. by intros r [? _]%list_elem_of_filter. }
    exists (with_reactions keep st). split; [|split; [exact Hgone|split]].
    + unfold remove_reaction, bind at 1, get_db. rewrite Hid.
      unfold bind at 1, put_db. unfold bind at 1.
      rewrite get_event_stored by done. reflexivity.
    + intros Hnil. unfold with_reactions, keep.
      rewrite filter_all; [by destruct st as [[] ? ? ? ?]|].
      intros r Hr Hk. unfold reaction_rows in Hnil.
      assert (r ∈ filter (λ r, rx_chat_event r = e_id stored ∧ rx_reaction r = reaction
                               ∧ rx_sender r = u_id user) (reactions (st_db st))) as Hf
        by (by apply list_elem_of_filter).
      rewrite Hnil in Hf. by apply elem_of_nil in Hf.
    + unfold remove_reaction, bind at 1, get_db. rewrite Hid.
      cbn [with_reactions with_db st_db reactions set_reactions].
      rewrite Hkeep.
      unfold bind at 1, put_db. unfold bind at 1.
      rewrite get_event_stored by done. reflexivity.
Qed.

End ReactionFacts.

Lemma C7_witness :
  ∃ ev st1,
    add_reaction (mkChatEvent 2 lobby_id "channel.message" (text "two") bob_id None None)
      "+1" alice demo_state = (Ok ev, st1)
    ∧ pe_reactions ev = [("+1", alice_id)]
    ∧ add_reaction (mkChatEvent 2 lobby_id "channel.message" (text "two") bob_id None None)
        "+1" alice st1 = (Ok ev, st1)
    ∧ reactions (st_db st1) = [mkReaction 2 "+1" alice_id].
Proof.
  destruct (C7_reactions_idempotent
              (mkChatEvent 2 lobby_id "channel.message" (text "two") bob_id None None)
              (mkChatEvent 2 lobby_id "channel.message" (text "two") bob_id None None)
              "+1" alice demo_state) as [Hstored _].
  { compute_done. }
  { right. left. }
  { reflexivity. }
  { unfold unique_reactions. compute_done. }
  destruct Hstored as (st1 & Hadd & _ & _ & Hagain); [compute_done|].
  pose proof (f_equal snd Hadd) as Hst. cbn [snd] in Hst. vm_compute in Hst.
  subst st1. eexists _, _. split; [exact Hadd|].
  split; [reflexivity|]. split; [exact Hagain|]. reflexivity.
Defined.

(** ** Frame rules of the monad *)

Section Frame.
Context (R : State → State → Prop) `{!PreOrder R}.

Lemma respects_ret {A} (a : A) : respects R (ret a).
Proof. intros st. reflexivity. Qed.

Lemma respects_raise {A} e : respects R (raise (A := A) e).
Proof. intros st. reflexivity. Qed.

Lemma respects_bind {A B} (m : M A) (k : A → M B) :
  respects R m → (∀ a, respects R (k a)) → respects R (bind m k).
Proof.
  intros Hm Hk st. unfold bind. specialize (Hm st).
  destruct (m st) as [[a|e] st1]; cbn in *; [|done].
  etrans; [exact Hm|apply Hk].
Qed.

Lemma respects_bind_db {B} (k : DB → M B) :
  (∀ st, R st (snd (k (st_db st) st))) → respects R (bind get_db k).
Proof. intros Hk st. apply Hk. Qed.

Lemma respects_catch {A} (m : M A) h :
  respects R m → (∀ e, respects R (h e)) → respects R (catch m h).
Proof.
  intros Hm Hh st. unfold catch. specialize (Hm st).
  destruct (m st) as [[a|e] st1]; cbn in *; [done|].
  etrans; [exact Hm|apply Hh].
Qed.

Lemma respects_atomic {A} (m : M A) :
  (∀ st st', R st st' → R st (rolled_back st st')) →
  respects R m → respects R (atomic m).
Proof.
  intros Hroll Hm st. unfold atomic. specialize (Hm st).
  destruct (m st) as [[a|e] st1]; cbn in *; [done|]. by apply Hroll.
Qed.

Lemma respects_for_each {A} (l : list A) body :
  (∀ x, respects R (body x)) → respects R (for_each l body).
Proof.
  intros Hb. induction l as [|x l IH]; [apply respects_ret|].
  cbn. apply respects_bind; [apply Hb|done].
Qed.

Lemma respects_discard {A} (m : M A) : respects R m → respects R (discard m).
Proof. intros Hm. apply respects_bind; [done|]. intros. apply respects_ret. Qed.

End Frame.

(** ** The event log is only appended to *)

Lemma events_extended_preorder : PreOrder events_extended.
Proof.
  split.
  - intros st. exists []. by rewrite app_nil_r.
  - intros st1 st2 st3 [n1 H1] [n2 H2]. exists (n1 ++ n2).
    by rewrite H2, H1, app_assoc.
Qed.

#[global] Existing Instance events_extended_preorder.

Lemma events_extended_same st st' :
  chat_events (st_db st') = chat_events (st_db st) → events_extended st st'.
Proof. intros He. exists []. by rewrite app_nil_r. Qed.

Lemma events_extended_rollback st st' :
  events_extended st st' → events_extended st (rolled_back st st').
Proof. intros _. by apply events_extended_same. Qed.

Section AppendOnly.
Context `{!Collaborators} (world : World).

Lemma create_event_rec_extends n ch ty content sender replaces _retry :
  respects events_extended (create_event_rec world n ch ty content sender replaces _retry).
Proof.
  revert content replaces _retry.
  induction n as [|n IH]; intros content replaces _retry st; [reflexivity|].
  rewrite create_event_attempt.
  destruct (decide (counter_ok st)); [|reflexivity].
  destruct (prepare_call world ch content (after_allocate st)) as [[c1|e] s1] eqn:Hp;
    apply prepare_call_events in Hp as [He _]; cbn in He.
  - destruct (decide _).
    + destruct _retry; [by apply events_extended_same|].
      etrans; [|apply IH]. by apply events_extended_same.
    + destruct (decide _); [|by apply events_extended_same].
      unfold events_extended. cbn. rewrite He. by eexists.
  - by apply events_extended_same.
Qed.

Lemma add_channel_user_extends c user v :
  respects events_extended (add_channel_user c user v).
Proof.
  apply (respects_atomic events_extended); [apply events_extended_rollback|].
  intros st. unfold Membership_get_or_create, Membership_save_volatile, bind, get_db.
  destruct (filter _ _) as [|m [|m' l]]; cbn; try by apply events_extended_same.
  - by destruct (decide _); apply events_extended_same.
  - by destruct (m_volatile m), v; apply events_extended_same.
Qed.

Lemma get_or_create_direct_channel_extends ids hide hide_except :
  respects events_extended (get_or_create_direct_channel world ids hide hide_except).
Proof.
  apply (respects_atomic events_extended); [apply events_extended_rollback|].
  apply (respects_bind_db events_extended). intros st. cbv beta zeta.
  destruct (not_eligible _ _); [reflexivity|].
  destruct (direct_channel_matches world (st_db st) ids) as [|c [|c' l]];
    [|reflexivity|reflexivity].
  apply (respects_bind events_extended).
  - unfold respects. intros s. unfold Channel_create, bind, draw_uuid, get_db. cbn.
    destruct (decide _); by apply events_extended_same.
  - intros c. apply (respects_bind events_extended); [|intros; apply (respects_ret events_extended)].
    apply (respects_for_each events_extended). unfold respects. intros u s.
    unfold Membership_create, bind, get_db. cbn.
    destruct (decide _); by apply events_extended_same.
Qed.

Lemma get_event_state pk st : snd (_get_event pk st) = st.
Proof.
  unfold _get_event, bind, get_db. by destruct (filter _ _) as [|e [|e' l]].
Qed.

Lemma add_reaction_extends event reaction user :
  respects events_extended (add_reaction event reaction user).
Proof.
  intros st. unfold add_reaction, bind at 1, get_db. unfold bind at 1.
  destruct (filter _ _) as [|r [|r' l]]; cbn; [| |by apply events_extended_same].
  - destruct (decide _); cbn; [|by apply events_extended_same]. unfold bind at 1.
    match goal with |- context [_get_event ?pk ?s] =>
      pose proof (get_event_state pk s) as Hs; destruct (_get_event pk s) as [[e|x] s1] end;
      cbn in Hs; subst s1; by apply events_extended_same.
  - unfold bind at 1.
    match goal with |- context [_get_event ?pk ?s] =>
      pose proof (get_event_state pk s) as Hs; destruct (_get_event pk s) as [[e|x] s1] end;
      cbn in Hs; subst s1; by apply events_extended_same.
Qed.

Lemma remove_reaction_extends event reaction user :
  respects events_extended (remove_reaction event reaction user).
Proof.
  intros st. unfold remove_reaction, bind at 1, get_db. unfold bind at 1, put_db.
  unfold bind at 1.
  match goal with |- context [_get_event ?pk ?s] =>
    pose proof (get_event_state pk s) as Hs; destruct (_get_event pk s) as [[e|x] s1] end;
    cbn in Hs; subst s1; by apply events_extended_same.
Qed.

Lemma redis_sadd_state key member st :
  st_db (snd (redis_sadd key member st)) = st_db st.
Proof. unfold redis_sadd, bind, get_redis. cbn. by destruct (decide _). Qed.

Lemma force_join_extends user cr :
  respects events_extended (force_join world user cr).
Proof.
  destruct cr as [channel room]. unfold force_join.
  destruct (negb _); [apply (respects_ret events_extended)|].
  apply (respects_bind events_extended); [apply add_channel_user_extends|].
  intros [|]; [|apply (respects_ret events_extended)].
  apply (respects_bind events_extended); [apply create_event_rec_extends|]. intros ev.
  apply (respects_bind events_extended); [by unfold respects; intros s; apply events_extended_same|]. intros _.
  apply (respects_bind events_extended); [by unfold respects; intros s; apply events_extended_same|]. intros _.
  unfold respects. intros s. apply events_extended_same. by rewrite redis_sadd_state.
Qed.

Lemma enforce_forced_joins_extends user :
  respects events_extended (enforce_forced_joins world user).
Proof.
  unfold enforce_forced_joins. destruct (negb _); [apply (respects_ret events_extended)|].
  apply (respects_bind_db events_extended). intros st. cbv beta zeta.
  destruct (get_channels_to_join_forced world (st_db st) user) as [|cr l] eqn:Hc;
    [reflexivity|].
  apply (respects_for_each events_extended). apply force_join_extends.
Qed.

End AppendOnly.

Section EditFacts.
Context `{!Collaborators} (world : World).

Lemma edited_row_frame id new_content t e :
  let e' := edited_row id new_content t e in
  e_id e' = e_id e ∧ e_channel e' = e_channel e ∧ e_event_type e' = e_event_type e
  ∧ e_sender e' = e_sender e ∧ e_replaces e' = e_replaces e
  ∧ (e_id e ≠ id → e' = e)
  ∧ (e_id e = id → e_content e' = new_content ∧ e_edited e' = Some t).
Proof.
  unfold edited_row. destruct (decide _); cbn; repeat split; try done.
Qed.

(** C9: [update_event] rewrites the content and the edit time of the
    stored row of the event and nothing else of it, leaves every other
    row as it is, and appends one audit entry that holds the old and the
    new serialised form; every other writing operation of the service only
    appends to the stored events. *)
Theorem C9_update_event_frame :
  (∀ event new_content by_user st,
     e_id event ∈ event_ids (st_db st) →
     let event' := mkChatEvent (e_id event) (e_channel event) (e_event_type event)
                     new_content (e_sender event) (e_replaces event)
                     (Some (st_clock st)) in
     ∃ st',
       update_event world event new_content by_user st = (Ok event', st')
       ∧ chat_events (st_db st')
         = edited_row (e_id event) new_content (st_clock st) <$> chat_events (st_db st)
       ∧ (∀ e, let e' := edited_row (e_id event) new_content (st_clock st) e in
               e_id e' = e_id e ∧ e_channel e' = e_channel e
               ∧ e_event_type e' = e_event_type e ∧ e_sender e' = e_sender e
               ∧ e_replaces e' = e_replaces e
               ∧ (e_id e ≠ e_id event → e' = e)
               ∧ (e_id e = e_id event →
                  e_content e' = new_content ∧ e_edited e' = Some (st_clock st)))
       ∧ audit_log (st_db st')
         = audit_log (st_db st)
           ++ [mkAuditLog (w_id world) (u_id by_user) "chat.event.updated" (e_id event)
                 false (serialize_public (st_db st) event)
                 (serialize_public (st_db st') event')]
       ∧ users (st_db st') = users (st_db st)
       ∧ rooms (st_db st') = rooms (st_db st)
       ∧ channels (st_db st') = channels (st_db st)
       ∧ memberships (st_db st') = memberships (st_db st)
       ∧ reactions (st_db st') = reactions (st_db st)
       ∧ notifications (st_db st') = notifications (st_db st)
       ∧ bbb_calls (st_db st') = bbb_calls (st_db st)
       ∧ st_redis st' = st_redis st ∧ st_sent st' = st_sent st)
  ∧ (∀ call st,
       (∀ event new_content by_user, call ≠ Call_update_event event new_content by_user) →
       events_extended st (snd (run_call world call st))).
Proof.
  split.
  - intros event new_content by_user st Hin event'.
    unfold update_event, atomic, bind at 1, get_db.
    unfold bind at 1, now. unfold bind at 1, ChatEvent_save_content_edited.
    unfold bind at 1, get_db. cbn [e_id]. rewrite decide_True by done.
    eexists. split; [reflexivity|]. cbn.
    split; [reflexivity|]. split; [intros e; apply edited_row_frame|].
    repeat split.
  - intros call st Hcall. destruct call; cbn [run_call].
    + apply (respects_discard events_extended), create_event_rec_extends.
    + by destruct (Hcall event new_content by_user).
    + apply (respects_discard events_extended), add_channel_user_extends.
    + by apply events_extended_same.
    + by apply events_extended_same.
    + by apply events_extended_same.
    + apply (respects_discard events_extended), get_or_create_direct_channel_extends.
    + apply (respects_discard events_extended), add_reaction_extends.
    + apply (respects_discard events_extended), remove_reaction_extends.
    + unfold store_notification, bind, get_db. destruct user_ids; [reflexivity|].
      by destruct (decide _); apply events_extended_same.
    + by apply events_extended_same.
    + apply enforce_forced_joins_extends.
Qed.

End EditFacts.

Lemma C9_witness :
  ∃ ev st',
    update_event demo_world
      (mkChatEvent 2 lobby_id "channel.message" (text "two") bob_id None None)
      (text "two, edited") bob demo_state = (Ok ev, st')
    ∧ chat_events (st_db st')
      = [mkChatEvent 1 lobby_id "channel.message" (text "one") alice_id None None;
         mkChatEvent 2 lobby_id "channel.message" (text "two, edited") bob_id None (Some 1000);
         mkChatEvent 3 stage_id "channel.message" (text "three") alice_id (Some 1) None]
    ∧ length (audit_log (st_db st')) = 1%nat.
Proof.
  destruct (C9_update_event_frame (H := demo_collaborators) demo_world) as [Hedit _].
  destruct (Hedit (mkChatEvent 2 lobby_id "channel.message" (text "two") bob_id None None)
              (text "two, edited") bob demo_state) as (st' & Hrun & Hlog & _ & Haudit & _).
  { compute_done. }
  eexists _, st'. split; [exact Hrun|]. split; [rewrite Hlog; reflexivity|].
  rewrite Haudit. reflexivity.
Defined.

(** ** Direct channels: validation *)

Lemma NoDup_length_lt {A} (l k : list A) x :
  NoDup l → (∀ y, y ∈ l → y ∈ k) → x ∈ k → x ∉ l → (length l < length k)%nat.
Proof.
  intros Hnd Hsub Hx Hnx.
  assert (x :: l ⊆+ k) as Hle.
  { apply NoDup_submseteq; [by apply NoDup_cons|].
    intros y [->|Hy]%elem_of_cons; auto. }
  apply submseteq_length in Hle. cbn in Hle. lia.
Qed.

Section DirectChannelValidation.
Context `{!Collaborators} (world : World).

Lemma requested_users_NoDup d ids :
  NoDup (u_id <$> users d) → NoDup (u_id <$> requested_users world d ids).
Proof.
  intros Hnd. eapply sublist_NoDup; [exact Hnd|].
  apply fmap_sublist, sublist_filter.
Qed.

Lemma requested_users_missing d ids id :
  NoDup (u_id <$> users d) → id ∈ ids →
  (∀ u, u ∈ users d → u_world u = w_id world → u_id u ≠ id) →
  (length (requested_users world d ids) < length ids)%nat.
Proof.
  intros Hnd Hid Hmiss. rewrite <- (length_fmap u_id).
  apply (NoDup_length_lt _ _ id); [by apply requested_users_NoDup| |done|].
  - intros y (u & -> & Hu)%list_elem_of_fmap.
    by apply list_elem_of_filter in Hu as [[_ ?] _].
  - intros (u & -> & Hu)%list_elem_of_fmap.
    apply list_elem_of_filter in Hu as [[Hw _] Hu]. by apply (Hmiss u).
Qed.

Lemma not_eligible_true (users : list User) ids :
  length users ≠ length ids
  ∨ (length users < 2)%nat
  ∨ (∃ u v, u ∈ users ∧ v ∈ users ∧ u_id v ≠ u_id u ∧ u_id v ∈ u_blocked_users u)
  ∨ (∃ u, u ∈ users ∧ (u_deleted u = true ∨ u_type u = KIOSK ∨ u_type u = ANONYMOUS)) →
  not_eligible users ids = true.
Proof.
  unfold not_eligible. intros [Hlen|[Hlen|[(u & v & Hu & Hv & Hne & Hb)|(u & Hu & Hbad)]]].
  - by rewrite bool_decide_eq_false_2.
  - rewrite (bool_decide_eq_true_2 (length users < 2)%nat) by done.
    by rewrite orb_true_r.
  - apply orb_true_intro. right. apply Is_true_true, existb_True, Exists_exists.
    exists u. split; [done|]. apply Is_true_true.
    apply orb_true_intro. left. apply orb_true_intro. left.
    apply Is_true_true, existb_True, Exists_exists. exists v.
    split; [by apply list_elem_of_filter|]. by apply bool_decide_pack.
  - apply orb_true_intro. right. apply Is_true_true, existb_True, Exists_exists.
    exists u. split; [done|]. apply Is_true_true.
    destruct Hbad as [->|Hty]; [by rewrite orb_true_r|].
    apply orb_true_intro. right. by apply bool_decide_eq_true_2.
Qed.

(** C4: [get_or_create_direct_channel] returns [(None, False, [])],
    raising nothing and writing nothing, when a requested id has no user
    in the world, when fewer than two users are loaded, when a loaded user
    has blocked another loaded user, or when a loaded user is deleted or a
    kiosk or anonymous account. *)
Theorem C4_direct_channel_rejections user_ids hide hide_except st :
  NoDup (u_id <$> users (st_db st)) →
  (∃ id, id ∈ user_ids
         ∧ ∀ u, u ∈ users (st_db st) → u_world u = w_id world → u_id u ≠ id)
  ∨ (length (requested_users world (st_db st) user_ids) < 2)%nat
  ∨ (∃ u v, u ∈ requested_users world (st_db st) user_ids
            ∧ v ∈ requested_users world (st_db st) user_ids
            ∧ u_id v ≠ u_id u ∧ u_id v ∈ u_blocked_users u)
  ∨ (∃ u, u ∈ requested_users world (st_db st) user_ids
          ∧ (u_deleted u = true ∨ u_type u = KIOSK ∨ u_type u = ANONYMOUS)) →
  get_or_create_direct_channel world user_ids hide hide_except st
  = (Ok (None, false, []), st).
Proof.
  intros Hnd Hwhy.
  unfold get_or_create_direct_channel, atomic, bind at 1, get_db.
  fold (requested_users world (st_db st) user_ids).
  rewrite not_eligible_true; [reflexivity|].
  destruct Hwhy as [(id & Hid & Hmiss)|Hwhy]; [|by right].
  left. pose proof (requested_users_missing _ _ _ Hnd Hid Hmiss). lia.
Qed.

End DirectChannelValidation.

Lemma C4_witness :
  get_or_create_direct_channel (H := demo_collaborators) demo_world
    [dave_id; bob_id] true None demo_state = (Ok (None, false, []), demo_state)
  ∧ get_or_create_direct_channel (H := demo_collaborators) demo_world
      [bob_id; dave_id] true None demo_state = (Ok (None, false, []), demo_state).
Proof.
  split.
  - apply (C4_direct_channel_rejections (H := demo_collaborators)); [compute_done|].
    right. right. left. exists dave, bob.
    split; [compute; do 1 right; left|]. split; [compute; left|].
    split; [discriminate|]. compute. left.
  - apply (C4_direct_channel_rejections (H := demo_collaborators)); [compute_done|].
    right. right. left. exists dave, bob.
    split; [compute; do 1 right; left|]. split; [compute; left|].
    split; [discriminate|]. compute. left.
Defined.

(** ** Direct channels: exact match *)

Lemma subquery_count_None {A} (l : list A) : subquery_count l = None ↔ l = [].
Proof. by destruct l. Qed.

Lemma subquery_count_Some {A} (l : list A) n :
  subquery_count l = Some n ↔ length l = n ∧ l ≠ [].
Proof.
  destruct l; cbn.
  - split; [done|]. by intros [_ ?].
  - split; [by intros [= <-]|by intros [<- _]].
Qed.

Lemma same_channel_users_NoDup (ms : list Membership) c (Q : Membership → Prop)
    `{!∀ m, Decision (Q m)} :
  NoDup (membership_key <$> ms) →
  NoDup (m_user <$> filter (λ m, m_channel m = c ∧ Q m) ms).
Proof.
  intros Hnd.
  apply (NoDup_fmap_1 (λ u, (c, u))). rewrite <- list_fmap_compose.
  erewrite list_fmap_ext.
  - eapply sublist_NoDup; [exact Hnd|]. apply fmap_sublist, sublist_filter.
  - intros i m Hm. apply list_elem_of_lookup_2, list_elem_of_filter in Hm as [[<- _] _].
    reflexivity.
Qed.

Section DirectChannelMatch.
Context `{!Collaborators} (world : World).

Lemma eligible_lengths (us : list User) ids :
  not_eligible us ids = false → length us = length ids ∧ (2 ≤ length us)%nat.
Proof.
  unfold not_eligible. intros Hel.
  apply orb_false_elim in Hel as [Hel _]. apply orb_false_elim in Hel as [Hl H2].
  apply negb_false_iff, bool_decide_eq_true in Hl.
  apply bool_decide_eq_false in H2. lia.
Qed.

Lemma requested_ids_Permutation d ids :
  NoDup (u_id <$> users d) →
  not_eligible (requested_users world d ids) ids = false →
  u_id <$> requested_users world d ids ≡ₚ ids.
Proof.
  intros Hnd [Hlen _]%eligible_lengths.
  apply submseteq_length_Permutation; [|by rewrite length_fmap, Hlen].
  apply NoDup_submseteq; [by apply requested_users_NoDup|].
  intros y (u & -> & Hu)%list_elem_of_fmap.
  by apply list_elem_of_filter in Hu as [[_ ?] _].
Qed.

(** A channel that the lookup selects has exactly the requested members. *)
Lemma direct_channel_match_exact d ids c :
  unique_memberships d → NoDup ids →
  c ∈ direct_channel_matches world d ids →
  c ∈ channels d ∧ c_room c = None ∧ c_world c = w_id world
  ∧ ∀ u, u ∈ channel_member_ids d (c_id c) ↔ u ∈ ids.
Proof.
  intros Hu Hids Hc. apply list_elem_of_filter in Hc as [(Hmis & Hmat & Hroom & Hw) Hc].
  do 3 (split; [done|]).
  apply subquery_count_None in Hmis. apply subquery_count_Some in Hmat as [Hlen _].
  assert (m_user <$> filter (λ m, m_channel m = c_id c ∧ m_user m ∈ ids) (memberships d)
          ≡ₚ ids) as Hperm.
  { apply submseteq_length_Permutation; [|by rewrite length_fmap, Hlen].
    apply NoDup_submseteq; [by apply same_channel_users_NoDup|].
    intros y (m & -> & Hm)%list_elem_of_fmap.
    by apply list_elem_of_filter in Hm as [[_ ?] _]. }
  intros u. unfold channel_member_ids. split.
  - intros (m & -> & Hm)%list_elem_of_fmap. apply list_elem_of_filter in Hm as [Hch Hm].
    destruct (decide (m_user m ∈ ids)) as [|Hn]; [done|].
    assert (m ∈ filter (λ m, m_channel m = c_id c ∧ m_user m ∉ ids) (memberships d)) as Hin
      by (by apply list_elem_of_filter).
    rewrite Hmis in Hin. by apply elem_of_nil in Hin.
  - intros Hin. rewrite <- Hperm in Hin.
    apply list_elem_of_fmap in Hin as (m & -> & Hm).
    apply list_elem_of_filter in Hm as [[Hch _] Hm].
    apply list_elem_of_fmap. exists m. split; [done|]. by apply list_elem_of_filter.
Qed.

(** The loop that creates the membership rows of a new channel. *)
Lemma for_each_Membership_create c hide hide_except us st :
  NoDup (u_id <$> us) →
  (∀ m, m ∈ memberships (st_db st) → m_channel m = c → m_user m ∉ u_id <$> us) →
  for_each us
    (λ u, Membership_create
            (mkMembership c (u_id u) false
               (hide && negb (bool_decide (Some (str_uuid (u_id u)) = hide_except)))))
    st
  = (Ok tt,
     with_db (set_memberships
                (memberships (st_db st) ++ direct_rows c hide hide_except us)
                (st_db st)) st).
Proof.
  revert st. induction us as [|u us IH]; intros st Hnd Hfree.
  - cbn. unfold ret, direct_rows. cbn. rewrite app_nil_r.
    by destruct st as [[] ? ? ? ?].
  - rewrite fmap_cons, NoDup_cons in Hnd. destruct Hnd as [Hu Hnd].
    cbn [for_each]. unfold bind at 1, Membership_create at 1, bind at 1, get_db.
    cbn [m_channel m_user].
    rewrite decide_False.
    2:{ intros (m & Hm & Hch & Hmu)%Exists_exists.
        apply (Hfree m Hm Hch). rewrite Hmu, fmap_cons. left. }
    unfold put_db. rewrite IH; [|done|].
    + cbn. unfold direct_rows. cbn [fmap list_fmap].
      by rewrite <- app_assoc.
    + cbn. intros m [Hm|Hm]%elem_of_app Hch.
      * specialize (Hfree m Hm Hch). rewrite fmap_cons in Hfree.
        by apply not_elem_of_cons in Hfree as [_ ?].
      * apply list_elem_of_singleton in Hm as ->. done.
Qed.

Lemma get_or_create_found ids hide hide_except st c :
  not_eligible (requested_users world (st_db st) ids) ids = false →
  direct_channel_matches world (st_db st) ids = [c] →
  get_or_create_direct_channel world ids hide hide_except st
  = (Ok (Some c, false, requested_users world (st_db st) ids), st).
Proof.
  intros Hel Hm. unfold get_or_create_direct_channel, atomic, bind at 1, get_db.
  fold (requested_users world (st_db st) ids). by rewrite Hel, Hm.
Qed.

Lemma get_or_create_creates ids hide hide_except st :
  NoDup (u_id <$> users (st_db st)) →
  memberships_have_channels (st_db st) →
  not_eligible (requested_users world (st_db st) ids) ids = false →
  direct_channel_matches world (st_db st) ids = [] →
  uuid4 (st_uuid_draws st) ∉ c_id <$> channels (st_db st) →
  get_or_create_direct_channel world ids hide hide_except st
  = (Ok (Some (new_direct_channel world st), true,
         requested_users world (st_db st) ids),
     direct_channel_created world ids hide hide_except st).
Proof.
  intros Hpk Hfk Hel Hm Hfresh.
  unfold get_or_create_direct_channel, atomic, bind at 1, get_db.
  fold (requested_users world (st_db st) ids). rewrite Hel, Hm.
  unfold bind at 1, Channel_create, bind at 1, draw_uuid. unfold bind at 1, get_db.
  cbn [st_db]. rewrite decide_False by done.
  unfold bind at 1, put_db. unfold ret at 1. unfold bind at 1. cbn [c_id].
  rewrite for_each_Membership_create.
  - reflexivity.
  - by apply requested_users_NoDup.
  - cbn. intros m Hmem Hch. destruct Hfresh. rewrite <- Hch.
    unfold memberships_have_channels in Hfk. rewrite Forall_forall in Hfk. by apply Hfk.
Qed.

Lemma direct_rows_channel c hide hide_except us m :
  m ∈ direct_rows c hide hide_except us → m_channel m = c ∧ m_user m ∈ u_id <$> us.
Proof.
  intros (u & -> & Hu)%list_elem_of_fmap. split; [done|].
  cbn. by apply list_elem_of_fmap_2.
Qed.

Lemma direct_rows_users c hide hide_except us :
  m_user <$> direct_rows c hide hide_except us = u_id <$> us.
Proof. unfold direct_rows. rewrite <- list_fmap_compose. by apply list_fmap_ext. Qed.

Section AfterCreation.
Context (ids : list UUID) (hide : bool) (hide_except : option string) (st : State).
Context (Hpk : NoDup (u_id <$> users (st_db st))).
Context (Hfk : memberships_have_channels (st_db st)).
Context (Hel : not_eligible (requested_users world (st_db st) ids) ids = false).
Context (Hfresh : uuid4 (st_uuid_draws st) ∉ c_id <$> channels (st_db st)).

Local Abbreviation c := (new_direct_channel world st).
Local Abbreviation st1 := (direct_channel_created world ids hide hide_except st).

Lemma no_old_rows_of_new_channel m :
  m ∈ memberships (st_db st) → m_channel m ≠ c_id c.
Proof.
  intros Hm Hch. destruct Hfresh. cbn in Hch. rewrite <- Hch.
  unfold memberships_have_channels in Hfk. rewrite Forall_forall in Hfk. by apply Hfk.
Qed.

Lemma new_channel_members :
  channel_member_ids (st_db st1) (c_id c) = u_id <$> requested_users world (st_db st) ids.
Proof.
  unfold channel_member_ids, direct_channel_created.
  cbn [st_db memberships set_memberships]. fold c. rewrite filter_app.
  rewrite (filter_none _ (memberships (st_db st)));
    [|by intros m Hm; apply no_old_rows_of_new_channel].
  rewrite filter_all; [apply direct_rows_users|].
  by intros m [? _]%direct_rows_channel.
Qed.

Lemma old_channel_counts c' :
  c' ∈ channels (st_db st) →
  mcount_match (st_db st1) ids c' = mcount_match (st_db st) ids c'
  ∧ mcount_mismatch (st_db st1) ids c' = mcount_mismatch (st_db st) ids c'.
Proof.
  intros Hc'. assert (c_id c' ≠ c_id c) as Hne.
  { intros Heq. destruct Hfresh. cbn in Heq. rewrite <- Heq. by apply list_elem_of_fmap_2. }
  unfold mcount_match, mcount_mismatch, direct_channel_created.
  cbn [st_db memberships set_memberships]. fold c. rewrite !filter_app.
  rewrite !(filter_none _ (direct_rows _ _ _ _)), !app_nil_r; [done| |].
  - intros m [Hch _]%direct_rows_channel [Hch' _]. congruence.
  - intros m [Hch _]%direct_rows_channel [Hch' _]. congruence.
Qed.

Lemma new_channel_matches :
  direct_channel_matches world (st_db st) ids = [] →
  direct_channel_matches world (st_db st1) ids = [c].
Proof.
  intros Hnone. unfold direct_channel_matches at 1.
  replace (channels (st_db st1)) with (channels (st_db st) ++ [c]) by reflexivity.
  rewrite filter_app. rewrite filter_none.
  2:{ intros c' Hc' (Hmis & Hmat & Hroom & Hw).
      destruct (old_channel_counts c' Hc') as [Hm1 Hm2]. rewrite Hm1 in Hmat.
      rewrite Hm2 in Hmis.
      assert (c' ∈ direct_channel_matches world (st_db st) ids) as Hin
        by (by apply list_elem_of_filter).
      rewrite Hnone in Hin. by apply elem_of_nil in Hin. }
  rewrite filter_cons_True; [done|].
  pose proof (requested_ids_Permutation _ _ Hpk Hel) as Hperm.
  destruct (eligible_lengths _ _ Hel) as [Hlen H2].
  split; [|split; [|done]].
  - unfold mcount_mismatch, direct_channel_created.
    cbn [st_db memberships set_memberships]. fold c.
    apply subquery_count_None. rewrite filter_app.
    rewrite !filter_none; [done| |].
    + intros m [_ Hu]%direct_rows_channel [_ Hn]. apply Hn. by rewrite <- Hperm.
    + intros m Hm [Hch _]. by apply (no_old_rows_of_new_channel m).
  - unfold mcount_match, direct_channel_created.
    cbn [st_db memberships set_memberships]. fold c.
    apply subquery_count_Some. rewrite filter_app.
    rewrite (filter_none _ (memberships (st_db st))).
    2:{ intros m Hm [Hch _]. by apply (no_old_rows_of_new_channel m). }
    rewrite filter_all.
    2:{ intros m [Hch Hu]%direct_rows_channel. split; [done|]. by rewrite <- Hperm. }
    cbn [app]. unfold direct_rows. rewrite length_fmap. split; [done|].
    intros Hnil%(f_equal length). rewrite length_fmap in Hnil. cbn in Hnil. lia.
Qed.

End AfterCreation.

End DirectChannelMatch.

Section DirectChannelDedup.
Context `{!Collaborators} (world : World).

(** C3: for a request that passes the validation, the lookup selects only
    room-less channels of the world whose members are exactly the
    requested users; the call returns the one that exists or creates one,
    a second call returns the same channel and writes nothing, and a
    channel that lacks a requested user is never the one returned. *)
Theorem C3_direct_channel_dedup user_ids hide hide_except st :
  NoDup (u_id <$> users (st_db st)) →
  unique_memberships (st_db st) →
  memberships_have_channels (st_db st) →
  not_eligible (requested_users world (st_db st) user_ids) user_ids = false →
  (length (direct_channel_matches world (st_db st) user_ids) ≤ 1)%nat →
  uuid4 (st_uuid_draws st) ∉ c_id <$> channels (st_db st) →
  ∃ c created st1,
    get_or_create_direct_channel world user_ids hide hide_except st
    = (Ok (Some c, created, requested_users world (st_db st) user_ids), st1)
    ∧ (created = true ↔ direct_channel_matches world (st_db st) user_ids = [])
    ∧ (if created
       then (c_id c ∉ c_id <$> channels (st_db st))
            ∧ channels (st_db st1) = channels (st_db st) ++ [c]
       else st1 = st)
    ∧ c_room c = None ∧ c_world c = w_id world
    ∧ (∀ u, u ∈ channel_member_ids (st_db st1) (c_id c) ↔ u ∈ user_ids)
    ∧ direct_channel_matches world (st_db st1) user_ids = [c]
    ∧ (∀ hide' hide_except',
         get_or_create_direct_channel world user_ids hide' hide_except' st1
         = (Ok (Some c, false, requested_users world (st_db st) user_ids), st1))
    ∧ (∀ c0, c0 ∈ channels (st_db st) →
         (∃ u, u ∈ user_ids ∧ u ∉ channel_member_ids (st_db st) (c_id c0)) →
         (c0 ∉ direct_channel_matches world (st_db st) user_ids) ∧ c ≠ c0).
Proof.
  intros Hpk Hum Hfk Hel Hone Hfresh.
  pose proof (requested_ids_Permutation world _ _ Hpk Hel) as Hperm.
  assert (NoDup user_ids) as Hids.
  { rewrite <- Hperm. by apply requested_users_NoDup. }
  assert (∀ c0, c0 ∈ channels (st_db st) →
            (∃ u, u ∈ user_ids ∧ u ∉ channel_member_ids (st_db st) (c_id c0)) →
            c0 ∉ direct_channel_matches world (st_db st) user_ids) as Hlacks.
  { intros c0 _ (u & Hu & Hnu) Hc0.
    apply direct_channel_match_exact in Hc0 as (_ & _ & _ & Hex); [|done..].
    by apply Hnu, Hex. }
  destruct (direct_channel_matches world (st_db st) user_ids) as [|c [|c' l]] eqn:Hm.
  - exists (new_direct_channel world st), true,
      (direct_channel_created world user_ids hide hide_except st).
    split; [by apply get_or_create_creates|]. split; [done|].
    split; [done|]. split; [done|]. split; [done|].
    split; [|split; [by apply new_channel_matches|split]].
    + intros u. rewrite new_channel_members by done. by rewrite Hperm.
    + intros hide' hide_except'.
      change (requested_users world (st_db st) user_ids)
        with (requested_users world
                (st_db (direct_channel_created world user_ids hide hide_except st))
                user_ids).
      apply get_or_create_found; [exact Hel|by apply new_channel_matches].
    + intros c0 Hc0 Hu. split; [by apply Hlacks|]. intros <-.
      apply Hfresh. by apply (list_elem_of_fmap_2 c_id) in Hc0.
  - assert (c ∈ direct_channel_matches world (st_db st) user_ids) as Hc
      by (rewrite Hm; left).
    apply direct_channel_match_exact in Hc as (Hc & Hroom & Hw & Hex); [|done..].
    exists c, false, st. split; [by apply get_or_create_found|].
    split; [done|]. do 4 (split; [done|]). split; [done|]. split.
    + intros hide' hide_except'. by apply get_or_create_found.
    + intros c0 Hc0 Hu. split; [by apply Hlacks|]. intros <-.
      destruct Hu as (u & Hu & Hnu). by apply Hnu, Hex.
  - cbn in Hone. lia.
Qed.

End DirectChannelDedup.

Lemma C3_witness :
  ∃ c st1 c' st2,
    get_or_create_direct_channel (H := demo_collaborators) demo_world
      [alice_id; bob_id] true None demo_state = (Ok (Some c, true, [alice; bob]), st1)
    ∧ get_or_create_direct_channel (H := demo_collaborators) demo_world
        [alice_id; bob_id] true None st1 = (Ok (Some c, false, [alice; bob]), st1)
    ∧ get_or_create_direct_channel (H := demo_collaborators) demo_world
        [alice_id; bob_id; carol_id] true None st1
      = (Ok (Some c', true, [alice; bob; carol]), st2)
    ∧ c' ≠ c.
Proof.
  destruct (C3_direct_channel_dedup (H := demo_collaborators) demo_world
              [alice_id; bob_id] true None demo_state)
    as (c & created & st1 & Hrun & Hcr & Hnew & _ & _ & _ & _ & Hagain & _);
    [compute_done|unfold unique_memberships; compute_done|
     unfold memberships_have_channels; compute_done|reflexivity|compute_done|compute_done|].
  assert (created = true) as -> by (apply Hcr; reflexivity).
  pose proof (f_equal snd Hrun) as Hst. cbn [snd] in Hst. vm_compute in Hst.
  pose proof (f_equal fst Hrun) as Hc. cbn [fst] in Hc. vm_compute in Hc.
  injection Hc as Hc. subst c st1.
  destruct (C3_direct_channel_dedup (H := demo_collaborators) demo_world
              [alice_id; bob_id; carol_id] true None
              (direct_channel_created (H := demo_collaborators) demo_world
                 [alice_id; bob_id] true None demo_state))
    as (c' & created' & st2 & Hrun' & Hcr' & _ & _ & _ & _ & _ & _ & Hsuper);
    [compute_done|unfold unique_memberships; compute_done|
     unfold memberships_have_channels; compute_done|reflexivity|compute_done|compute_done|].
  assert (created' = true) as -> by (apply Hcr'; reflexivity).
  eexists _, _, c', st2. split; [exact Hrun|]. split; [apply Hagain|].
  split; [exact Hrun'|].
  apply (Hsuper (new_direct_channel (H := demo_collaborators) demo_world demo_state)).
  - do 2 right. left.
  - exists carol_id. split; [compute_done|compute_done].
Defined.

(** ** Forced joins *)

Lemma highest_id_append d e :
  0 ≤ highest_id d → 0 ≤ e_id e →
  highest_id (set_chat_events (chat_events d ++ [e]) d) = Z.max (highest_id d) (e_id e).
Proof.
  unfold highest_id, event_ids, set_chat_events. cbn [chat_events].
  rewrite fmap_app. cbn [fmap list_fmap]. rewrite max_id_snoc.
  destruct (max_id _); cbn; lia.
Qed.

Lemma ids_headroom_le k k' st : ids_headroom k st → k' ≤ k → ids_headroom k' st.
Proof. unfold ids_headroom. lia. Qed.

Section ForcedJoinFacts.
Context `{!Collaborators} (world : World).

Lemma channels_to_join_forced_spec d user c r :
  (c, r) ∈ get_channels_to_join_forced world d user
  ↔ (c ∈ channels d ∧ c_world c = w_id world ∧ ¬ is_member d (c_id c) (u_id user)
     ∧ r ∈ rooms d ∧ c_room c = Some (r_id r) ∧ r_force_join r = true).
Proof.
  unfold get_channels_to_join_forced. rewrite list_elem_of_bind. split.
  - intros (c' & Hr & Hc'). apply list_elem_of_filter in Hc' as [[Hw Hn] Hc'].
    apply list_elem_of_bind in Hr as (r' & Hcr & Hr').
    apply list_elem_of_singleton in Hcr as [= -> ->].
    apply list_elem_of_filter in Hr' as [[Hroom Hf] Hr']. done.
  - intros (Hc & Hw & Hn & Hr & Hroom & Hf). exists c. split.
    + apply list_elem_of_bind. exists r. split; [by apply list_elem_of_singleton|].
      by apply list_elem_of_filter.
    + by apply list_elem_of_filter.
Qed.

(** A plain event without [replaces] of a stored sender in a stored
    channel is stored, at an id that the log does not hold, when there is
    room for two more ids. *)
Lemma create_event_plain_stores ch ty content sender k st :
  is_call content = false → ids_headroom k st → 2 ≤ k →
  channel_stored (st_db st) (c_id ch) → user_stored (st_db st) (u_id sender) →
  ∃ id v, (id ∉ event_ids (st_db st))
    ∧ create_event world ch ty content sender None false st
      = (Ok (serialize_public
               (st_db (append_event (new_event id ch ty content sender None) st))
               (new_event id ch ty content sender None)),
         append_event (new_event id ch ty content sender None) (with_counter v st))
    ∧ ids_headroom (k - 2)
        (append_event (new_event id ch ty content sender None) (with_counter v st)).
Proof.
  intros Hc (Hc0 & Hh0 & Hck & Hhk) Hk Hch Hus.
  assert (counter_ok st) as Hok by (unfold counter_ok, incr_ok; lia).
  assert (incr_ok (highest_id (st_db st) + 1)) as Hincr by (unfold incr_ok; lia).
  assert (0 ≤ next_id st ∧ next_id st = default 0 (chat_event_id (st_redis st)) + 1)
    as [Hn0 Hn] by (unfold next_id; destruct (chat_event_id (st_redis st)); cbn in *; lia).
  unfold create_event.
  rewrite create_event_attempt, decide_True, prepare_call_plain by done.
  destruct (decide (next_id st ∈ event_ids (st_db st))) as [Hin|Hfree].
  - cbn [negb]. rewrite retry_after_heal_stores by done.
    exists (highest_id (st_db st) + 2).
    exists (if next_id (healed (after_allocate st)) <? 2
            then highest_id (st_db st) + 1 else next_id (healed (after_allocate st))).
    split; [by apply highest_id_fresh|]. split; [reflexivity|].
    apply highest_id_ge in Hin.
    unfold ids_headroom, append_event, with_counter, with_db.
    cbn [st_db st_redis chat_event_id default from_option id]. rewrite highest_id_append by (cbn; lia).
    cbn [e_id new_event]. rewrite next_id_healed. cbn [after_allocate with_counter st_db].
    destruct (_ <? 2) eqn:Hlt; [apply Z.ltb_lt in Hlt|apply Z.ltb_ge in Hlt]; lia.
  - rewrite decide_True by (by split). exists (next_id st).
    exists (if next_id st <? 2 then highest_id (st_db st) + 1 else next_id st).
    split; [done|]. split; [reflexivity|].
    unfold ids_headroom, append_event, with_counter, with_db.
    cbn [st_db st_redis chat_event_id default from_option id]. rewrite highest_id_append by (cbn; lia).
    cbn [e_id new_event].
    destruct (_ <? 2) eqn:Hlt; [apply Z.ltb_lt in Hlt|apply Z.ltb_ge in Hlt]; lia.
Qed.

Lemma join_content_plain user : is_call (join_content world user) = false.
Proof. reflexivity. Qed.

Lemma force_join_denied user c r st :
  has_permission world user ROOM_CHAT_JOIN (Some r) = false →
  force_join world user (c, r) st = (Ok tt, st).
Proof. intros Hp. unfold force_join. by rewrite Hp. Qed.

Lemma force_join_member user c r st m :
  has_permission world user ROOM_CHAT_JOIN (Some r) = true →
  membership_rows (st_db st) (c_id c) (u_id user) = [m] →
  force_join world user (c, r) st
  = (Ok tt,
     if m_volatile m
     then with_db (set_memberships (clear_volatile (m_channel m) (m_user m)
                                      (memberships (st_db st))) (st_db st)) st
     else st).
Proof.
  intros Hp Hrows. unfold force_join. rewrite Hp. cbn [negb]. unfold bind at 1.
  rewrite (add_channel_user_existing _ _ _ _ m) by done.
  by destruct (m_volatile m).
Qed.

Lemma force_join_new user c r k st :
  has_permission world user ROOM_CHAT_JOIN (Some r) = true →
  membership_rows (st_db st) (c_id c) (u_id user) = [] →
  channel_stored (st_db st) (c_id c) → user_stored (st_db st) (u_id user) →
  ids_headroom k st → 2 ≤ k →
  ∃ id st',
    force_join world user (c, r) st = (Ok tt, st')
    ∧ (id ∉ event_ids (st_db st))
    ∧ memberships (st_db st')
      = memberships (st_db st) ++ [mkMembership (c_id c) (u_id user) false false]
    ∧ chat_events (st_db st')
      = chat_events (st_db st) ++ [join_event world user id (c_id c)]
    ∧ st_sent st'
      = st_sent st
        ++ join_fan_out user (st_db st) (join_event world user id (c_id c))
             (get_channels_for_user world (st_db st') (u_id user) (Some false) (Some false))
    ∧ (∀ km, km ∈ redis_sets (st_redis st')
             ↔ km ∈ redis_sets (st_redis st) ∨ km = unread_mark user (c_id c))
    ∧ same_directory st st'
    ∧ reactions (st_db st') = reactions (st_db st)
    ∧ ids_headroom (k - 2) st'.
Proof.
  intros Hp Hrows Hcs Hus Hroom Hk. unfold force_join. rewrite Hp. cbn [negb].
  unfold bind at 1.
  rewrite add_channel_user_new by done. cbv beta iota.
  fold (join_content world user).
  set (st_a := with_db _ st).
  destruct (create_event_plain_stores c "channel.member" (join_content world user)
              user k st_a (join_content_plain user))
    as (id & v & Hid & Hrun & Hroom'); [done|done|done|done|].
  exists id. unfold bind at 1. rewrite Hrun.
  unfold bind at 1, send at 1. unfold bind at 1, broadcast_channel_list, bind at 1, get_db.
  unfold send at 1. unfold redis_sadd, bind at 1, get_redis.
  assert (∀ sets,
            ids_headroom (k - 2)
              (mkState (st_db (append_event
                                 (new_event id c "channel.member" (join_content world user)
                                    user None) (with_counter v st_a)))
                 (mkRedis (Some v) sets)
                 (st_sent st ++ join_fan_out user (st_db st)
                    (join_event world user id (c_id c))
                    (get_channels_for_user world
                       (st_db (append_event
                                 (new_event id c "channel.member"
                                    (join_content world user) user None)
                                 (with_counter v st_a)))
                       (u_id user) (Some false) (Some false)))
                 (st_clock st) (st_uuid_draws st))) as Hroom2 by (intros; exact Hroom').
  subst st_a.
  cbn [st_redis st_db with_db with_counter append_event redis_sets chat_event_id].
  destruct (decide _) as [Hin|Hin].
  - eexists. split; [reflexivity|]. cbn. split; [done|]. split; [done|].
    split; [done|]. split; [by rewrite <- app_assoc|]. split.
    { intros km. split; [by left|]. by intros [?| ->]. }
    split; [done|]. split; [done|].
    apply (ids_headroom_le _ _ _ (Hroom2 (redis_sets (st_redis st)))). lia.
  - eexists. split; [reflexivity|]. cbn. split; [done|]. split; [done|].
    split; [done|]. split; [by rewrite <- app_assoc|]. split.
    { intros km. rewrite elem_of_app, list_elem_of_singleton. done. }
    split; [done|]. split; [done|].
    apply (ids_headroom_le _ _ _
             (Hroom2 (redis_sets (st_redis st)
                      ++ [("chat:unread.notify:" +:+ str_uuid (c_id c),
                           str_uuid (u_id user))]))). lia.
Qed.

Lemma is_member_clear_volatile (ms : list Membership) c0 u0 c u :
  Exists (λ m, m_channel m = c ∧ m_user m = u ∧ m_volatile m = false) ms →
  Exists (λ m, m_channel m = c ∧ m_user m = u ∧ m_volatile m = false)
    (clear_volatile c0 u0 ms).
Proof.
  rewrite !Exists_exists. intros (m & Hm & Hc & Hu & Hv).
  eexists. split; [by apply list_elem_of_fmap_2|].
  cbn. by destruct (decide _).
Qed.

Lemma is_member_cleared (ms : list Membership) m c u :
  m ∈ ms → m_channel m = c → m_user m = u →
  Exists (λ m, m_channel m = c ∧ m_user m = u ∧ m_volatile m = false)
    (clear_volatile c u ms).
Proof.
  intros Hm Hc Hu. rewrite Exists_exists.
  eexists. split; [by apply list_elem_of_fmap_2|].
  cbn. by rewrite decide_True.
Qed.

End ForcedJoinFacts.

(** Rows of one pair under the writes of the loop. *)
Lemma clear_volatile_rows_other c u c' u' ms :
  (c', u') ≠ (c, u) →
  filter (λ m, m_channel m = c' ∧ m_user m = u') (clear_volatile c u ms)
  = filter (λ m, m_channel m = c' ∧ m_user m = u') ms.
Proof.
  intros Hne. induction ms as [|m ms IH]; [done|].
  unfold clear_volatile in *. cbn [fmap list_fmap].
  destruct (decide (m_channel m = c ∧ m_user m = u)) as [[Hc Hu]|Hk].
  - rewrite !filter_cons_False; [done| |]; cbn; intros [? ?]; apply Hne; congruence.
  - destruct (decide (m_channel m = c' ∧ m_user m = u')).
    + rewrite !filter_cons_True by done. by rewrite IH.
    + rewrite !filter_cons_False by done. done.
Qed.

Lemma clear_volatile_others c u ms :
  filter (λ m, m_user m ≠ u) (clear_volatile c u ms) = filter (λ m, m_user m ≠ u) ms.
Proof.
  induction ms as [|m ms IH]; [done|].
  unfold clear_volatile in *. cbn [fmap list_fmap].
  destruct (decide (m_channel m = c ∧ m_user m = u)) as [[Hc Hu]|Hk].
  - rewrite !filter_cons_False; [done| |]; cbn; tauto.
  - destruct (decide (m_user m ≠ u)).
    + rewrite !filter_cons_True by done. by rewrite IH.
    + rewrite !filter_cons_False by done. done.
Qed.

Lemma is_member_rows d c u :
  is_member d c u ↔ Exists (λ m, m_volatile m = false) (membership_rows d c u).
Proof.
  unfold is_member, membership_rows. rewrite !Exists_exists. split.
  - intros (m & Hm & Hc & Hu & Hv). exists m. split; [|done]. by apply list_elem_of_filter.
  - intros (m & [[Hc Hu] Hm]%list_elem_of_filter & Hv). by exists m.
Qed.

Section ForcedJoinRuns.
Context `{!Collaborators} (world : World) (user : User).

Lemma join_permitted_one c r c' :
  join_permitted world user [(c, r)] c'
  ↔ c_id c = c' ∧ has_permission world user ROOM_CHAT_JOIN (Some r) = true.
Proof.
  unfold join_permitted. rewrite Exists_cons, Exists_nil. cbn. tauto.
Qed.

Lemma join_permitted_app l1 l2 c :
  join_permitted world user (l1 ++ l2) c
  ↔ join_permitted world user l1 c ∨ join_permitted world user l2 c.
Proof. unfold join_permitted. apply Exists_app. Qed.

(** One turn of the loop, said as a run over one candidate. *)
Lemma force_join_done c r k st :
  unique_memberships (st_db st) →
  channel_stored (st_db st) (c_id c) → user_stored (st_db st) (u_id user) →
  ids_headroom k st → 2 ≤ k →
  ∃ st' new,
    force_join world user (c, r) st = (Ok tt, st')
    ∧ same_directory st st'
    ∧ reactions (st_db st') = reactions (st_db st)
    ∧ unique_memberships (st_db st')
    ∧ ids_headroom (k - 2) st'
    ∧ forced_joins_done world user [(c, r)] st st' new.
Proof.
  intros Hu Hcs Hus Hroom Hk.
  destruct (has_permission world user ROOM_CHAT_JOIN (Some r)) eqn:Hp.
  2:{ exists st, []. rewrite force_join_denied by done.
      split; [done|]. split; [done|]. split; [done|]. split; [done|].
      split; [apply (ids_headroom_le _ _ _ Hroom); lia|].
      assert (∀ c', ¬ join_permitted world user [(c, r)] c') as Hno.
      { intros c'. rewrite join_permitted_one. intros [_ ?]. congruence. }
      split; [by rewrite app_nil_r|]. split.
      { intros c'. split; [by intros ?%Hno|]. split; [done|]. split; [by intros ?%Hno|done]. }
      split; [done|]. split.
      { exists []. split; [by rewrite app_nil_r|constructor]. }
      intros km. split; [by left|]. intros [?|(e & ?%elem_of_nil & _)]; done. }
  destruct (filter_key_unique (memberships (st_db st)) (c_id c) (u_id user) Hu)
    as [Hnil|(m & Hone & Hmc & Hmu)];
    fold (membership_rows (st_db st) (c_id c) (u_id user)) in *.
  - destruct (force_join_new world user c r k st Hp Hnil Hcs Hus Hroom Hk)
      as (id & st' & Hrun & Hid & Hms & Hev & Hsent & Hmarks & Hdir & Hrx & Hroom').
    exists st', [join_event world user id (c_id c)].
    split; [done|]. split; [done|]. split; [done|]. split.
    { unfold unique_memberships. rewrite Hms, fmap_app. apply NoDup_app. split; [done|].
      split; [|apply NoDup_singleton].
      intros key Hkey ->%list_elem_of_singleton. by apply filter_key_nil in Hnil. }
    split; [done|]. split; [done|]. split.
    { intros c'. rewrite join_permitted_one. unfold membership_rows. rewrite Hms, filter_app.
      destruct (decide (c_id c = c')) as [<-|Hne].
      - unfold membership_rows in Hnil. rewrite Hnil.
        rewrite (filter_cons_True _ (mkMembership _ _ _ _)) by done.
        rewrite filter_cons_True by done. cbn [filter list_filter app].
        split; [intros _ _; by exists id|]. split; [tauto|]. split; [done|tauto].
      - rewrite (filter_cons_False _ (mkMembership _ _ _ _)) by (cbn; tauto).
        rewrite filter_cons_False by done. cbn [filter list_filter]. rewrite app_nil_r.
        split; [tauto|]. split; [done|]. split; [tauto|done]. }
    split.
    { rewrite Hms, filter_app, filter_cons_False by (cbn; tauto). by rewrite app_nil_r. }
    split.
    { eexists [_]. cbn [concat]. rewrite app_nil_r. split; [exact Hsent|].
      constructor; [by eexists|constructor]. }
    intros km. rewrite Hmarks. split.
    + intros [? | ->]; [by left|]. right. eexists. split; [left|done].
    + intros [?|(e & ->%list_elem_of_singleton & ->)]; [by left|by right].
  - rewrite (force_join_member world user c r st m Hp Hone).
    assert (m ∈ memberships (st_db st)) as Hm.
    { eapply (list_elem_of_filter (λ m, m_channel m = c_id c ∧ m_user m = u_id user)).
      unfold membership_rows in Hone. rewrite Hone. left. }
    set (st' := if m_volatile m then _ else st).
    assert (memberships (st_db st')
            = clear_volatile (c_id c) (u_id user) (memberships (st_db st))) as Hms.
    { unfold st'. destruct (m_volatile m) eqn:Hv; [by rewrite Hmc, Hmu|].
      unfold clear_volatile. symmetry. erewrite list_fmap_ext; [apply list_fmap_id|].
      intros i x Hx. cbn. destruct (decide _) as [[Hxc Hxu]|]; [|done].
      assert (x ∈ [m]) as ->%list_elem_of_singleton.
      { unfold membership_rows in Hone. rewrite <- Hone. apply list_elem_of_filter.
        split; [done|]. by eapply list_elem_of_lookup_2. }
      destruct m. cbn in *. by subst. }
    assert (chat_events (st_db st') = chat_events (st_db st)
            ∧ st_sent st' = st_sent st ∧ st_redis st' = st_redis st
            ∧ same_directory st st' ∧ reactions (st_db st') = reactions (st_db st))
      as (Hev & Hsent & Hredis & Hdir & Hrx)
      by (unfold st'; destruct (m_volatile m); by repeat split).
    exists st', []. split; [done|]. split; [done|]. split; [done|]. split.
    { unfold unique_memberships. by rewrite Hms, clear_volatile_keys. }
    split.
    { apply (ids_headroom_le k); [|lia]. unfold ids_headroom, highest_id, event_ids.
      by rewrite Hev, Hredis. }
    split; [by rewrite app_nil_r|]. split.
    { intros c'. rewrite join_permitted_one. unfold membership_rows. rewrite Hms.
      destruct (decide (c_id c = c')) as [<-|Hne].
      - rewrite clear_volatile_rows. unfold membership_rows in Hone. rewrite Hone.
        split; [done|]. split; [done|]. split; [done|tauto].
      - rewrite clear_volatile_rows_other by congruence.
        split; [tauto|]. split; [done|]. split; [tauto|done]. }
    split; [by rewrite Hms, clear_volatile_others|]. split.
    { exists []. split; [by rewrite Hsent, app_nil_r|constructor]. }
    intros km. rewrite Hredis. split; [by left|].
    intros [?|(e & ?%elem_of_nil & _)]; done.
Qed.

(** Two runs in a row are a run over the two lists of candidates. *)
Lemma forced_joins_done_app l1 l2 st st' st1 new1 new2 :
  unique_memberships (st_db st) →
  reactions (st_db st') = reactions (st_db st) →
  forced_joins_done world user l1 st st' new1 →
  forced_joins_done world user l2 st' st1 new2 →
  forced_joins_done world user (l1 ++ l2) st st1 (new1 ++ new2).
Proof.
  intros Hu Hrx (Hev1 & Hch1 & Hoth1 & (g1 & Hs1 & Hf1) & Hm1)
    (Hev2 & Hch2 & Hoth2 & (g2 & Hs2 & Hf2) & Hm2).
  split; [by rewrite Hev2, Hev1, app_assoc|]. split.
  { intros c. destruct (Hch1 c) as (A1 & B1 & C1 & D1).
    destruct (Hch2 c) as (A2 & B2 & C2 & D2). clear Hch1 Hch2.
    rewrite join_permitted_app, filter_app.
    destruct (filter_key_unique (memberships (st_db st)) c (u_id user) Hu)
      as [Hnil|(m & Hone & _)]; fold (membership_rows (st_db st) c (u_id user)) in *.
    - rewrite Hnil in *.
      destruct (decide (join_permitted world user l1 c)) as [P1|P1].
      + destruct (A1 P1 eq_refl) as (id & Hid & Hn1). specialize (C1 P1).
        assert (filter (λ e, e_channel e = c) new2 = []) as Hn2
          by (apply B2; rewrite C1; by intros [_ ?]).
        rewrite Hn1, Hn2. split; [intros _ _; by exists id|].
        split; [intros Hno; destruct Hno; split; [by left|done]|].
        split; [|intros Hno; destruct Hno; by left].
        intros _. destruct (decide (join_permitted world user l2 c)) as [P2|P2].
        * by rewrite (C2 P2), C1.
        * by rewrite (D2 P2), C1.
      + specialize (D1 P1). rewrite B1 by tauto. cbn [app].
        destruct (decide (join_permitted world user l2 c)) as [P2|P2].
        * destruct (A2 P2) as (id & Hid & Hn2); [by rewrite D1|].
          split.
          { intros _ _. exists id. split; [|done]. intros Hin. apply Hid.
            unfold event_ids. rewrite Hev1, fmap_app. apply elem_of_app. by left. }
          split; [intros Hno; destruct Hno; split; [by right|done]|].
          split; [|tauto]. intros _. by rewrite (C2 P2), D1.
        * rewrite B2 by tauto. split; [tauto|]. split; [done|]. split; [tauto|].
          intros _. by rewrite (D2 P2), D1.
    - rewrite Hone in *. rewrite B1 by (by intros [_ ?]).
      assert (membership_rows (st_db st') c (u_id user) ≠ []) as Hne.
      { destruct (decide (join_permitted world user l1 c)) as [P1|P1].
        - by rewrite (C1 P1).
        - by rewrite (D1 P1). }
      rewrite B2 by tauto. split; [by intros _ ?|]. split; [done|]. split.
      + intros Hany. destruct (decide (join_permitted world user l1 c)) as [P1|P1],
          (decide (join_permitted world user l2 c)) as [P2|P2].
        * by rewrite (C2 P2), (C1 P1).
        * by rewrite (D2 P2), (C1 P1).
        * by rewrite (C2 P2), (D1 P1).
        * by destruct Hany.
      + intros Hno. rewrite D2, D1 by tauto. done. }
  split; [by rewrite Hoth2, Hoth1|]. split.
  { exists (g1 ++ g2). rewrite concat_app, app_assoc, <- Hs1. split; [done|].
    apply Forall2_app; [done|].
    eapply Forall2_impl; [exact Hf2|]. intros e g (l & ->). exists l.
    unfold join_fan_out, serialize_public, event_reactions. by rewrite Hrx. }
  intros km. rewrite Hm2, Hm1. split.
  - intros [[?|(e & He & ->)]|(e & He & ->)]; [by left| |];
      right; exists e; (split; [|done]); apply elem_of_app; [by left|by right].
  - intros [?|(e & [He|He]%elem_of_app & ->)]; [by left; left| |].
    + left. right. by exists e.
    + right. by exists e.
Qed.

(** The loop of [enforce_forced_joins] over stored channels. *)
Lemma for_each_force_join cs st :
  unique_memberships (st_db st) →
  user_stored (st_db st) (u_id user) →
  Forall (λ cr, channel_stored (st_db st) (c_id cr.1)) cs →
  ids_headroom (2 * Z.of_nat (length cs)) st →
  ∃ st1 new,
    for_each cs (force_join world user) st = (Ok tt, st1)
    ∧ same_directory st st1
    ∧ reactions (st_db st1) = reactions (st_db st)
    ∧ unique_memberships (st_db st1)
    ∧ forced_joins_done world user cs st st1 new.
Proof.
  revert st. induction cs as [|[c r] cs IH]; intros st Hu Hus Hcs Hroom.
  - exists st, []. split; [done|]. split; [done|]. split; [done|]. split; [done|].
    assert (∀ c', ¬ join_permitted world user [] c') as Hno
      by (intros c'; unfold join_permitted; rewrite Exists_nil; tauto).
    split; [by rewrite app_nil_r|]. split.
    { intros c'. split; [by intros ?%Hno|]. split; [done|].
      split; [by intros ?%Hno|done]. }
    split; [done|]. split.
    { exists []. split; [by rewrite app_nil_r|constructor]. }
    intros km. split; [by left|]. intros [?|(e & ?%elem_of_nil & _)]; done.
  - apply Forall_cons in Hcs as [Hc Hcs]. cbn [fst] in Hc.
    destruct (force_join_done c r (2 * Z.of_nat (length ((c, r) :: cs))) st Hu Hc Hus Hroom)
      as (st' & new1 & Hrun & Hdir & Hrx & Hu' & Hroom' & Hdone1);
      [cbn [length]; lia|].
    destruct Hdir as (Hdu & Hdr & Hdc).
    destruct (IH st' Hu') as (st1 & new2 & Hrun1 & Hdir1 & Hrx1 & Hu1 & Hdone2).
    { unfold user_stored. by rewrite Hdu. }
    { eapply Forall_impl; [exact Hcs|]. intros cr. unfold channel_stored. by rewrite Hdc. }
    { apply (ids_headroom_le _ _ _ Hroom'). cbn [length]. lia. }
    exists st1, (new1 ++ new2). cbn [for_each]. unfold bind. rewrite Hrun.
    split; [done|]. split.
    { destruct Hdir1 as (? & ? & ?). repeat split; congruence. }
    split; [congruence|]. split; [done|].
    by apply (forced_joins_done_app [(c, r)] cs st st' st1).
Qed.

Lemma for_each_denied cs st :
  (∀ c r, (c, r) ∈ cs → has_permission world user ROOM_CHAT_JOIN (Some r) = false) →
  for_each cs (force_join world user) st = (Ok tt, st).
Proof.
  induction cs as [|[c r] cs IH]; intros Hden; [done|].
  cbn [for_each]. unfold bind. rewrite force_join_denied by (apply (Hden c); left).
  apply IH. intros c' r' Hin. apply (Hden c'). by right.
Qed.

Lemma enforce_forced_joins_unfold st :
  truthy (dict_get "display_name" (u_profile user)) = true →
  enforce_forced_joins world user st
  = for_each (get_channels_to_join_forced world (st_db st) user) (force_join world user) st.
Proof.
  intros Hn. unfold enforce_forced_joins. rewrite Hn. cbn [negb].
  unfold bind, get_db. by destruct (get_channels_to_join_forced _ _ _).
Qed.

End ForcedJoinRuns.

Section ForcedJoinIdempotence.
Context `{!Collaborators} (world : World).

(** C8: [enforce_forced_joins] does nothing for a user without a display
    name.  Otherwise it visits the channels of force-join rooms of the
    world where the user has no non-volatile membership, and for a stored
    user it returns after these changes and no other: in a channel that
    has a candidate which the permission oracle lets the user join, the
    membership of the user is created, or kept and made non-volatile; a
    created membership comes with one "channel.member" event of the user
    in that channel, which is sent to the group of the channel, followed
    by a channel list for the user, and with the unread mark of the user
    in that channel; the memberships of the user in all other channels,
    the memberships of other users, and the events of the channels
    without a created membership stay as they are.  A second run changes
    nothing. *)
Theorem C8_forced_joins_idempotent user st :
  let cs := get_channels_to_join_forced world (st_db st) user in
  unique_memberships (st_db st) → user_stored (st_db st) (u_id user) →
  ids_headroom (2 * Z.of_nat (length cs)) st →
  (truthy (dict_get "display_name" (u_profile user)) = false →
   enforce_forced_joins world user st = (Ok tt, st))
  ∧ (∀ c r, (c, r) ∈ cs
            ↔ (c ∈ channels (st_db st) ∧ c_world c = w_id world
               ∧ ¬ is_member (st_db st) (c_id c) (u_id user)
               ∧ r ∈ rooms (st_db st) ∧ c_room c = Some (r_id r)
               ∧ r_force_join r = true))
  ∧ ∃ st1 new,
      enforce_forced_joins world user st = (Ok tt, st1)
      ∧ unique_memberships (st_db st1)
      ∧ enforce_forced_joins world user st1 = (Ok tt, st1)
      ∧ (truthy (dict_get "display_name" (u_profile user)) = true →
         chat_events (st_db st1) = chat_events (st_db st) ++ new
         ∧ (∀ c,
              (join_permitted world user cs c →
               membership_rows (st_db st) c (u_id user) = [] →
               ∃ id, (id ∉ event_ids (st_db st))
                     ∧ filter (λ e, e_channel e = c) new = [join_event world user id c])
              ∧ (¬ (join_permitted world user cs c
                    ∧ membership_rows (st_db st) c (u_id user) = []) →
                 filter (λ e, e_channel e = c) new = [])
              ∧ (join_permitted world user cs c →
                 membership_rows (st_db st1) c (u_id user)
                 = match membership_rows (st_db st) c (u_id user) with
                   | [] => [mkMembership c (u_id user) false false]
                   | m :: _ =>
                       [mkMembership (m_channel m) (m_user m) false (m_hidden m)]
                   end)
              ∧ (¬ join_permitted world user cs c →
                 membership_rows (st_db st1) c (u_id user)
                 = membership_rows (st_db st) c (u_id user)))
         ∧ filter (λ m, m_user m ≠ u_id user) (memberships (st_db st1))
           = filter (λ m, m_user m ≠ u_id user) (memberships (st_db st))
         ∧ (∃ groups, st_sent st1 = st_sent st ++ concat groups
              ∧ Forall2 (λ e g, ∃ l, g = join_fan_out user (st_db st) e l) new groups)
         ∧ (∀ km, km ∈ redis_sets (st_redis st1)
                  ↔ km ∈ redis_sets (st_redis st)
                    ∨ ∃ e, e ∈ new ∧ km = unread_mark user (e_channel e))).
Proof.
  intros cs Hu Hus Hroom. split; [|split].
  - intros Hn. unfold enforce_forced_joins. by rewrite Hn.
  - intros c r. apply channels_to_join_forced_spec.
  - destruct (truthy (dict_get "display_name" (u_profile user))) eqn:Hn.
    2:{ exists st, []. unfold enforce_forced_joins. rewrite Hn. by repeat split. }
    rewrite enforce_forced_joins_unfold by done. fold cs.
    destruct (for_each_force_join world user cs st Hu Hus) as
      (st1 & new & Hrun & (Hus1 & Hrs1 & Hcs1) & _ & Hu1 & Hdone); [|done|].
    { apply Forall_forall. intros [c r] Hin.
      apply channels_to_join_forced_spec in Hin as (Hc & _). cbn.
      by apply list_elem_of_fmap_2. }
    exists st1, new. split; [done|]. split; [done|]. split; [|by intros _].
    rewrite enforce_forced_joins_unfold by done.
    apply for_each_denied. intros c r Hin.
    apply channels_to_join_forced_spec in Hin as (Hc & Hw & Hnm & Hr & Hroom' & Hf).
    rewrite Hcs1 in Hc. rewrite Hrs1 in Hr.
    destruct (has_permission world user ROOM_CHAT_JOIN (Some r)) eqn:Hp; [|done].
    exfalso. destruct Hdone as (_ & Hch & _).
    destruct (Hch (c_id c)) as (_ & _ & Hjoined & Hkept).
    assert (is_member (st_db st) (c_id c) (u_id user)
            → is_member (st_db st1) (c_id c) (u_id user)) as Hmono.
    { rewrite !is_member_rows.
      destruct (decide (join_permitted world user cs (c_id c))) as [P|P].
      - rewrite (Hjoined P). intros _.
        destruct (membership_rows (st_db st) (c_id c) (u_id user));
          by apply Exists_cons_hd.
      - by rewrite (Hkept P). }
    assert ((c, r) ∈ cs) as Hcand.
    { apply channels_to_join_forced_spec. do 2 (split; [done|]). split; [tauto|done]. }
    apply Hnm, is_member_rows. rewrite Hjoined.
    + destruct (membership_rows (st_db st) (c_id c) (u_id user)); by apply Exists_cons_hd.
    + apply Exists_exists. by exists (c, r).
Qed.

End ForcedJoinIdempotence.

Lemma C8_witness :
  ∃ st1,
    enforce_forced_joins (H := demo_collaborators) demo_world bob demo_state = (Ok tt, st1)
    ∧ enforce_forced_joins (H := demo_collaborators) demo_world bob st1 = (Ok tt, st1)
    ∧ e_event_type <$> chat_events (st_db st1)
      = ["channel.message"; "channel.message"; "channel.message"; "channel.member"]
    ∧ memberships (st_db st1)
      = [mkMembership lobby_id alice_id true false;
         mkMembership lobby_id bob_id false false]
    ∧ membership_rows (st_db st1) stage_id bob_id = [].
Proof.
  destruct (C8_forced_joins_idempotent (H := demo_collaborators) demo_world bob demo_state)
    as (_ & _ & st1 & new & Hrun & _ & Hagain & _).
  { unfold unique_memberships. compute_done. }
  { compute_done. }
  { compute_done. }
  pose proof (f_equal snd Hrun) as Hst. cbn [snd] in Hst. vm_compute in Hst.
  exists st1. split; [exact Hrun|]. split; [exact Hagain|].
  rewrite <- Hst. split; [reflexivity|]. split; reflexivity.
Defined.

(** * Properties of the further operations *)

(** ** More on the event log *)

Lemma max_id_in ids m : max_id ids = Some m → m ∈ ids.
Proof.
  revert m. induction ids as [|i ids IH]; intros m; [done|]. cbn.
  destruct (max_id ids) as [m'|]; intros [= <-]; [|left].
  destruct (Z.max_spec i m') as [[_ ->]|[_ ->]]; [right; by apply IH|left].
Qed.

Section EventLogFacts.
Context `{!Collaborators} (world : World).

(** What a run of [create_event] leaves in the log: one new row at an id
    that was free when it returns, and nothing when it raises. *)
Lemma create_event_rec_outcome n ch ty content sender replaces _retry st :
  match create_event_rec world n ch ty content sender replaces _retry st with
  | (Ok ev, st') =>
      ∃ ce, chat_events (st_db st') = chat_events (st_db st) ++ [ce]
            ∧ ev = serialize_public (st_db st') ce
            ∧ (e_id ce ∉ event_ids (st_db st))
            ∧ e_channel ce = c_id ch ∧ e_event_type ce = ty
            ∧ e_sender ce = u_id sender ∧ e_edited ce = None
            ∧ (2 ≤ next_id st → chat_event_id (st_redis st') = Some (e_id ce))
  | (Raise _, st') => chat_events (st_db st') = chat_events (st_db st)
  end.
Proof.
  revert content replaces _retry st.
  induction n as [|n IH]; intros content replaces _retry st; [done|].
  rewrite create_event_attempt.
  destruct (decide (counter_ok st)) as [Hok|Hok]; [|done].
  destruct (prepare_call world ch content (after_allocate st)) as [[c1|e] s1] eqn:Hp;
    apply prepare_call_events in Hp as [He Hr]; cbn in He; [|done].
  destruct (decide (next_id st ∈ event_ids (st_db st))) as [Hin|Hfree].
  - destruct _retry; [done|].
    specialize (IH c1 None true (healed s1)).
    assert (event_ids (st_db s1) = event_ids (st_db st)) as Hids
      by (unfold event_ids; by rewrite He).
    destruct (create_event_rec world n ch ty c1 sender None true (healed s1))
      as [[ev|x] st']; cbn in IH.
    + destruct IH as (ce & Hlog & Hev & Hid & Hrest).
      exists ce. rewrite Hlog, He. split; [done|]. split; [done|].
      rewrite Hids in Hid. split; [done|].
      destruct Hrest as (? & ? & ? & ? & Hc). do 4 (split; [done|]).
      intros Hge. apply Hc.
      pose proof (highest_id_events _ _ He) as Hh. apply highest_id_ge in Hin.
      unfold next_id, healed, with_counter. cbn. lia.
    + by rewrite IH.
  - destruct (decide _); [|done]. cbn.
    eexists. rewrite He. split; [done|]. split; [done|]. split; [done|].
    do 4 (split; [done|]). intros Hge. rewrite Hr. cbn.
    by rewrite (proj2 (Z.ltb_ge _ _) Hge).
Qed.

(** X1. [create_event] never stores a second row under a stored id,
    whatever it is given and whether it returns or raises. *)
Theorem create_event_keeps_ids_unique ch ty content sender replaces _retry st :
  NoDup (event_ids (st_db st)) →
  NoDup (event_ids (st_db (create_event world ch ty content sender replaces _retry st).2)).
Proof.
  intros Hnd. unfold create_event.
  pose proof (create_event_rec_outcome 2 ch ty content sender replaces _retry st) as Ho.
  destruct (create_event_rec world 2 ch ty content sender replaces _retry st)
    as [[ev|x] st']; cbn.
  - destruct Ho as (ce & Hlog & _ & Hid & _). unfold event_ids in *.
    rewrite Hlog, fmap_app. apply NoDup_app. split; [done|].
    split; [|apply NoDup_singleton].
    by intros i Hi ->%list_elem_of_singleton.
  - unfold event_ids in *. by rewrite Ho.
Qed.

End EventLogFacts.

Lemma create_event_keeps_ids_unique_witness :
  NoDup (event_ids (st_db (create_event (H := demo_collaborators) demo_world lobby
                             "channel.message" (text "hi") alice None false
                             demo_behind).2)).
Proof.
  apply (create_event_keeps_ids_unique (H := demo_collaborators)). compute_done.
Defined.

Section CounterFacts.
Context `{!Collaborators} (world : World).


(** X3. After [create_event] returned from a state whose counter was at
    least 1, [get_last_id] returns the id of the event just stored. *)
Theorem get_last_id_after_create_event ch ty content sender replaces c ev st st' :
  chat_event_id (st_redis st) = Some c → 1 ≤ c →
  create_event world ch ty content sender replaces false st = (Ok ev, st') →
  get_last_id st' = (Ok (pe_event_id ev), st').
Proof.
  intros Hc H1 Hrun.
  pose proof (create_event_rec_outcome world 2 ch ty content sender replaces false st) as Ho.
  unfold create_event in Hrun. rewrite Hrun in Ho.
  destruct Ho as (ce & _ & -> & _ & _ & _ & _ & _ & Hcnt).
  unfold get_last_id, bind, get_redis. rewrite Hcnt; [done|].
  unfold next_id. rewrite Hc. lia.
Qed.

(** X4. Without a counter value, [get_last_id] returns the highest stored
    id, which is 0 for an empty log and a stored id otherwise. *)
Theorem get_last_id_without_counter st :
  chat_event_id (st_redis st) = None →
  ∃ last, get_last_id st = (Ok last, st)
    ∧ Forall (λ i, i ≤ last) (event_ids (st_db st))
    ∧ (chat_events (st_db st) = [] → last = 0)
    ∧ (chat_events (st_db st) ≠ [] → last ∈ event_ids (st_db st)).
Proof.
  intros Hc. exists (highest_id (st_db st)).
  unfold get_last_id, bind, get_redis. rewrite Hc. split; [done|].
  split; [apply Forall_forall; intros i; apply highest_id_ge|].
  unfold highest_id, event_ids. split.
  - by intros ->.
  - intros Hne. destruct (max_id (e_id <$> chat_events (st_db st))) as [m|] eqn:Hm.
    + by apply max_id_in.
    + destruct (chat_events (st_db st)) as [|e l]; [done|]. cbn in Hm.
      by destruct (max_id (e_id <$> l)).
Qed.

(** X5. An event that [create_event] returned is the row that
    [get_event] finds under its id, in the channel, with the type and
    the sender given, and not edited. *)
Theorem get_event_after_create_event ch ty content sender replaces _retry ev st st' :
  NoDup (event_ids (st_db st)) →
  create_event world ch ty content sender replaces _retry st = (Ok ev, st') →
  ∃ e, _get_event (pe_event_id ev) st' = (Ok e, st')
    ∧ serialize_public (st_db st') e = ev
    ∧ e_channel e = c_id ch ∧ e_event_type e = ty ∧ e_sender e = u_id sender
    ∧ e_edited e = None.
Proof.
  intros Hnd Hrun.
  pose proof (create_event_rec_outcome world 2 ch ty content sender replaces _retry st) as Ho.
  unfold create_event in Hrun. rewrite Hrun in Ho.
  destruct Ho as (ce & Hlog & -> & Hid & ? & ? & ? & ? & _).
  assert (NoDup (event_ids (st_db st'))) as Hnd'.
  { unfold event_ids in *. rewrite Hlog, fmap_app. apply NoDup_app. split; [done|].
    split; [|apply NoDup_singleton]. by intros i Hi ->%list_elem_of_singleton. }
  exists ce. split; [|done]. cbn [pe_event_id serialize_public].
  apply get_event_stored; [done|]. rewrite Hlog. apply elem_of_app. right. left.
Qed.

End CounterFacts.


Lemma get_last_id_after_create_event_witness :
  ∃ ev st',
    create_event (H := demo_collaborators) demo_world lobby "channel.message" (text "hi")
      alice None false demo_behind = (Ok ev, st')
    ∧ get_last_id st' = (Ok (pe_event_id ev), st')
    ∧ pe_event_id ev = 5.
Proof.
  eexists _, _. split; [vm_compute; reflexivity|]. split; [|reflexivity].
  apply (get_last_id_after_create_event (H := demo_collaborators) demo_world lobby
           "channel.message" (text "hi") alice None 1 _ demo_behind);
    [reflexivity|lia|vm_compute; reflexivity].
Defined.

Lemma get_last_id_without_counter_witness :
  ∃ last, get_last_id demo_flushed = (Ok last, demo_flushed) ∧ last = 3.
Proof.
  destruct (get_last_id_without_counter demo_flushed eq_refl) as (last & Hrun & _).
  exists last. split; [exact Hrun|]. vm_compute in Hrun. by injection Hrun.
Defined.

Lemma get_event_after_create_event_witness :
  ∃ ev st' e,
    create_event (H := demo_collaborators) demo_world stage "channel.message" (text "hi")
      bob (Some 2) false demo_state = (Ok ev, st')
    ∧ _get_event (pe_event_id ev) st' = (Ok e, st')
    ∧ e_channel e = stage_id.
Proof.
  eexists _, _. 
  destruct (get_event_after_create_event (H := demo_collaborators) demo_world stage
              "channel.message" (text "hi") bob (Some 2) false
              _ demo_state _ ltac:(compute_done) ltac:(vm_compute; reflexivity))
    as (e & Hget & _ & Hch & _).
  exists e. split; [vm_compute; reflexivity|]. split; [exact Hget|exact Hch].
Defined.

(** ** Call events *)


Lemma dict_get_set_ne k k' v (d : dict) :
  k' ≠ k → dict_get k' (dict_set k v d) = dict_get k' d.
Proof.
  intros Hne. induction d as [|[k0 v0] d IH]; cbn; [by rewrite decide_False|].
  destruct (decide (k0 = k)) as [->|Hne0]; cbn.
  - by rewrite !decide_False.
  - by rewrite IH.
Qed.

Lemma dict_get_setdefault_ne k k' v (d : dict) :
  k' ≠ k → dict_get k' (dict_setdefault k v d) = dict_get k' d.
Proof.
  intros Hne. unfold dict_setdefault. destruct (dict_get k d); [done|].
  by apply dict_get_set_ne.
Qed.



Lemma body_set_not_dict k v content st :
  call_body content = None →
  body_set k v (dict_setdefault "body" (JDict []) content) st = (Raise TypeError, st).
Proof.
  unfold call_body, body_set, dict_setdefault. intros Hb.
  destruct (dict_get "body" content) as [[]|] eqn:Hg; try done; by rewrite Hg.
Qed.

Section CallFacts.
Context `{!Collaborators} (world : World).



(** X8. A call event whose body is present and is no dict raises a
    TypeError and stores no event; in a world without the janus flag the
    BBB call has been created by then and stays. *)
Theorem store_event_call_body_type_error ch id ty content sender replaces st :
  is_call content = true → call_body content = None →
  uuid4 (st_uuid_draws st) ∉ call_id <$> bbb_calls (st_db st) →
  ∃ st',
    _store_event world ch id ty content sender replaces st = (Raise TypeError, st')
    ∧ chat_events (st_db st') = chat_events (st_db st)
    ∧ bbb_calls (st_db st')
      = if decide ("janus" ∈ w_feature_flags world) then bbb_calls (st_db st)
        else bbb_calls (st_db st)
             ++ [mkBBBCall (uuid4 (st_uuid_draws st)) (w_id world)
                   (choose_server world (st_db st))
                   (channel_member_ids (st_db st) (c_id ch))].
Proof.
  intros Hcall Hbody Hfresh. unfold _store_event, prepare_call. rewrite Hcall.
  destruct (decide ("janus" ∈ w_feature_flags world)).
  - unfold bind at 1. rewrite body_set_not_dict by done. by eexists.
  - unfold bind at 1. unfold bind at 1, get_db.
    unfold bind at 1, BBBCall_create, bind at 1, draw_uuid. unfold bind at 1, get_db.
    cbn [st_db]. rewrite decide_False by done.
    unfold bind at 1, put_db. unfold ret at 1. unfold bind at 1.
    rewrite body_set_not_dict by done. by eexists.
Qed.

End CallFacts.



Lemma store_event_call_body_type_error_witness :
  ∃ st',
    _store_event (H := demo_collaborators) demo_world lobby 4 "channel.message"
      (call_content (JStr "now")) alice None demo_state = (Raise TypeError, st')
    ∧ length (bbb_calls (st_db st')) = 1%nat.
Proof.
  destruct (store_event_call_body_type_error (H := demo_collaborators) demo_world lobby 4
              "channel.message" (call_content (JStr "now")) alice None demo_state)
    as (st' & Hrun & _ & Hcalls); [reflexivity|reflexivity|compute_done|].
  exists st'. split; [exact Hrun|]. rewrite Hcalls. reflexivity.
Defined.

(** ** More on memberships *)

Section MembershipReads.
Context `{!Collaborators} `{!Profiles} (world : World).

(** X9. For a stored channel and a stored user: after
    [add_channel_user], [membership_is_volatile] returns the requested
    flag for a new member and, for an old one, the old flag unless the
    join was non-volatile; for a user without a row it returns false. *)
Theorem membership_is_volatile_after_add ch user v st :
  unique_memberships (st_db st) →
  channel_stored (st_db st) (c_id ch) → user_stored (st_db st) (u_id user) →
  (membership_rows (st_db st) (c_id ch) (u_id user) = [] →
   membership_is_volatile ch (u_id user) st = (Ok false, st))
  ∧ ∃ created st1,
      add_channel_user (c_id ch) user v st = (Ok created, st1)
      ∧ membership_is_volatile ch (u_id user) st1
        = (Ok match membership_rows (st_db st) (c_id ch) (u_id user) with
              | [] => v
              | m :: _ => m_volatile m && v
              end, st1).
Proof.
  intros Hu Hcs Hus. split.
  - intros Hnil. unfold membership_is_volatile, bind, get_db. by rewrite Hnil.
  - destruct (add_channel_user_spec (c_id ch) user v st Hu Hcs Hus)
      as (created & st1 & Hrun & _ & _ & _ & m1 & Hrows & Hvol).
    exists created, st1. split; [done|].
    unfold membership_is_volatile, bind, get_db. rewrite Hrows. cbn. by rewrite Hvol.
Qed.

(** X10. [remove_channel_user] deletes the rows of the pair and no other
    row, and a second call changes nothing; a later [add_channel_user]
    reports a creation when the channel and the user are stored, and is
    refused with an IntegrityError, changing nothing, when one of them is
    not. *)
Theorem remove_channel_user_removes_pair c user v st :
  ∃ st1,
    remove_channel_user c (u_id user) st = (Ok tt, st1)
    ∧ membership_rows (st_db st1) c (u_id user) = []
    ∧ (∀ m, m ∈ memberships (st_db st1)
            ↔ m ∈ memberships (st_db st) ∧ ¬ (m_channel m = c ∧ m_user m = u_id user))
    ∧ remove_channel_user c (u_id user) st1 = (Ok tt, st1)
    ∧ (channel_stored (st_db st) c → user_stored (st_db st) (u_id user) →
       ∃ st2, add_channel_user c user v st1 = (Ok true, st2))
    ∧ (¬ (channel_stored (st_db st) c ∧ user_stored (st_db st) (u_id user)) →
       add_channel_user c user v st1 = (Raise (IntegrityError false), st1)).
Proof.
  eexists. split; [reflexivity|]. cbn [st_db memberships set_memberships].
  set (keep := filter (λ m, ¬ (m_channel m = c ∧ m_user m = u_id user))
                 (memberships (st_db st))).
  assert (filter (λ m, m_channel m = c ∧ m_user m = u_id user) keep = []) as Hgone.
  { apply filter_none. by intros m [? _]%list_elem_of_filter. }
  split; [exact Hgone|]. split; [|split; [|split]].
  - intros m. unfold keep. rewrite list_elem_of_filter. tauto.
  - unfold remove_channel_user, bind, get_db, put_db.
    cbn [st_db memberships set_memberships]. fold keep.
    rewrite (filter_all _ keep); [done|]. by intros m [? _]%list_elem_of_filter.
  - intros Hcs Hus. eexists. by apply add_channel_user_new.
  - intros Hno. by apply add_channel_user_refused.
Qed.

(** X11. Joining a stored user who had no row to a stored channel and
    removing the user again gives back the state before the join. *)
Theorem add_then_remove_channel_user c user v st :
  membership_rows (st_db st) c (u_id user) = [] →
  channel_stored (st_db st) c → user_stored (st_db st) (u_id user) →
  ∃ st1, add_channel_user c user v st = (Ok true, st1)
    ∧ remove_channel_user c (u_id user) st1 = (Ok tt, st).
Proof.
  intros Hnil Hcs Hus. eexists. split; [by apply add_channel_user_new|].
  unfold remove_channel_user, bind, get_db, put_db.
  cbn [with_db st_db memberships set_memberships st_redis st_sent st_clock st_uuid_draws].
  rewrite filter_app, filter_cons_False by (cbn; tauto).
  rewrite filter_all.
  - rewrite app_nil_r. by destruct st as [[] ? ? ? ?].
  - intros m Hm Hk.
    assert (m ∈ membership_rows (st_db st) c (u_id user)) as Hin
      by (by apply list_elem_of_filter).
    rewrite Hnil in Hin. by apply elem_of_nil in Hin.
Qed.

End MembershipReads.

Lemma membership_is_volatile_after_add_witness :
  ∃ st1, add_channel_user lobby_id alice false demo_state = (Ok false, st1)
    ∧ membership_is_volatile lobby alice_id demo_state = (Ok true, demo_state)
    ∧ membership_is_volatile lobby alice_id st1 = (Ok false, st1).
Proof.
  destruct (membership_is_volatile_after_add lobby alice false demo_state)
    as (_ & created & st1 & Hrun & Hvol).
  { unfold unique_memberships. compute_done. }
  { compute_done. }
  { compute_done. }
  destruct created.
  { vm_compute in Hrun. discriminate Hrun. }
  exists st1. split; [exact Hrun|]. split; [reflexivity|exact Hvol].
Defined.

Lemma add_then_remove_channel_user_witness :
  ∃ st1, add_channel_user stage_id carol true demo_state = (Ok true, st1)
    ∧ remove_channel_user stage_id carol_id st1 = (Ok tt, demo_state).
Proof.
  apply (add_then_remove_channel_user stage_id carol true demo_state);
    [reflexivity|compute_done|compute_done].
Defined.

Lemma remove_channel_user_removes_pair_witness :
  ∃ st1 st2,
    remove_channel_user lobby_id alice_id demo_state = (Ok tt, st1)
    ∧ membership_rows (st_db st1) lobby_id alice_id = []
    ∧ add_channel_user lobby_id alice false st1 = (Ok true, st2).
Proof.
  destruct (remove_channel_user_removes_pair lobby_id alice false demo_state)
    as (st1 & Hrun & Hgone & _ & _ & Hadd & _).
  destruct Hadd as [st2 Hadd]; [compute_done|compute_done|].
  exists st1, st2. split; [exact Hrun|]. split; [exact Hgone|exact Hadd].
Defined.

Section HideAndShow.
Context `{!Collaborators} (world : World).

Lemma show_channels_to_hidden_users_spec c st :
  ∃ us st1,
    show_channels_to_hidden_users c st = (Ok us, st1)
    ∧ (∀ u, u ∈ us ↔ ∃ m, m ∈ memberships (st_db st) ∧ m_channel m = c
                          ∧ m_hidden m = true ∧ u ∈ users (st_db st)
                          ∧ u_id u = m_user m)
    ∧ Forall (λ m, m_channel m = c → m_hidden m = false) (memberships (st_db st1)).
Proof.
  eexists _, _.
  split; [unfold show_channels_to_hidden_users, bind, get_db, put_db, ret; reflexivity|].
  cbn [st_db memberships set_memberships]. split.
  - intros u. rewrite list_elem_of_bind. split.
    + intros (m & Hu & Hm). apply list_elem_of_filter in Hm as [[Hc Hh] Hm].
      apply list_elem_of_filter in Hu as [Hid Hu]. by exists m.
    + intros (m & Hm & Hc & Hh & Hu & Hid). exists m.
      split; by apply list_elem_of_filter.
  - apply Forall_fmap, Forall_forall. intros m _. cbn. case_decide as Hn; cbn; [done|].
    intros Hc. destruct (m_hidden m); [|done]. by destruct Hn.
Qed.

(** X12. [show_channels_to_hidden_users] returns the users of the hidden
    memberships of the channel and leaves no membership of the channel
    hidden; it keeps the channel, user and volatile flag of every row and
    every row of another channel; a second call returns no user and
    changes nothing. *)
Theorem show_channels_to_hidden_users_clears c st :
  ∃ us st1,
    show_channels_to_hidden_users c st = (Ok us, st1)
    ∧ (∀ u, u ∈ us ↔ ∃ m, m ∈ memberships (st_db st) ∧ m_channel m = c
                          ∧ m_hidden m = true ∧ u ∈ users (st_db st)
                          ∧ u_id u = m_user m)
    ∧ Forall (λ m, m_channel m = c → m_hidden m = false) (memberships (st_db st1))
    ∧ Forall2 (λ m m', m_channel m' = m_channel m ∧ m_user m' = m_user m
                       ∧ m_volatile m' = m_volatile m
                       ∧ (m_channel m ≠ c → m' = m))
        (memberships (st_db st)) (memberships (st_db st1))
    ∧ show_channels_to_hidden_users c st1 = (Ok [], st1).
Proof.
  eexists _, _.
  split; [unfold show_channels_to_hidden_users, bind, get_db, put_db, ret; reflexivity|].
  cbn [st_db memberships set_memberships].
  set (f := λ m, if decide (m_channel m = c ∧ m_hidden m = true)
                 then mkMembership (m_channel m) (m_user m) (m_volatile m) false
                 else m).
  assert (∀ m, m_channel (f m) = c → m_hidden (f m) = false) as Hf.
  { intros m. unfold f. cbv beta. case_decide as Hn; cbn; [done|].
    intros Hc. destruct (m_hidden m); [|done]. by destruct Hn. }
  split; [|split; [|split]].
  - intros u. rewrite list_elem_of_bind. split.
    + intros (m & Hu & Hm). apply list_elem_of_filter in Hm as [[Hc Hh] Hm].
      apply list_elem_of_filter in Hu as [Hid Hu]. by exists m.
    + intros (m & Hm & Hc & Hh & Hu & Hid). exists m.
      split; by apply list_elem_of_filter.
  - apply Forall_fmap, Forall_forall. intros m _. exact (Hf m).
  - apply Forall2_fmap_r, Forall_Forall2_diag, Forall_forall. intros m _.
    unfold f, compose. cbv beta. case_decide as Hd; cbn; [|by repeat split].
    destruct Hd as [Hc _]. do 3 (split; [done|]). intros Hn. by destruct Hn.
  - unfold show_channels_to_hidden_users, bind, get_db, put_db.
    cbn [st_db memberships set_memberships users]. fold f.
    rewrite (filter_none _ (f <$> _)).
    2:{ intros m' (m & -> & _)%list_elem_of_fmap [Hc Hh]. rewrite Hf in Hh; done. }
    cbn. f_equal. rewrite <- list_fmap_compose.
    erewrite (list_fmap_ext (f ∘ f) f); [done|].
    intros i m _. cbn. unfold f at 1. cbv beta. case_decide as Hd; [|done].
    destruct Hd as [Hc Hh]. rewrite Hf in Hh; done.
Qed.

(** X13. A member that [hide_channel_user] has hidden is among the users
    that [show_channels_to_hidden_users] returns, and is visible
    afterwards. *)
Theorem hide_then_show user m c st :
  user ∈ users (st_db st) → m ∈ memberships (st_db st) →
  m_channel m = c → m_user m = u_id user →
  ∃ st1 us st2,
    hide_channel_user c (u_id user) st = (Ok tt, st1)
    ∧ show_channels_to_hidden_users c st1 = (Ok us, st2)
    ∧ user ∈ us
    ∧ Forall (λ m', m_channel m' = c → m_hidden m' = false) (memberships (st_db st2)).
Proof.
  intros Hu Hm Hc Hmu.
  destruct (show_channels_to_hidden_users_spec c
              (hide_channel_user c (u_id user) st).2) as (us & st2 & Hrun & Hus & Hall).
  exists (hide_channel_user c (u_id user) st).2, us, st2.
  split; [reflexivity|]. split; [exact Hrun|]. split; [|done].
  apply Hus. cbn [st_db memberships set_memberships users].
  exists (mkMembership (m_channel m) (m_user m) (m_volatile m) true).
  split; [|by rewrite Hc, Hmu].
  apply list_elem_of_fmap. exists m. split; [|done]. by rewrite decide_True.
Qed.

End HideAndShow.

Lemma hide_then_show_witness :
  ∃ st1 us st2,
    hide_channel_user lobby_id alice_id demo_state = (Ok tt, st1)
    ∧ show_channels_to_hidden_users lobby_id st1 = (Ok us, st2)
    ∧ alice ∈ us.
Proof.
  destruct (hide_then_show alice (mkMembership lobby_id alice_id true false)
              lobby_id demo_state) as (st1 & us & st2 & H1 & H2 & H3 & _);
    [left|left|reflexivity|reflexivity|].
  exists st1, us, st2. split; [exact H1|]. split; [exact H2|exact H3].
Defined.

Section DirectChannelRows.
Context `{!Collaborators} (world : World).

Lemma direct_rows_of_user c hide hide_except (us : list User) u :
  NoDup (u_id <$> us) → u ∈ us →
  filter (λ m, m_channel m = c ∧ m_user m = u_id u) (direct_rows c hide hide_except us)
  = [mkMembership c (u_id u) false
       (hide && negb (bool_decide (Some (str_uuid (u_id u)) = hide_except)))].
Proof.
  induction us as [|u0 us IH]; [by intros _ ?%elem_of_nil|].
  rewrite fmap_cons, NoDup_cons. intros [Hfresh Hnd] Hin.
  unfold direct_rows in *. cbn [fmap list_fmap].
  apply elem_of_cons in Hin as [->|Hin].
  - rewrite filter_cons_True by done. f_equal.
    apply filter_none. intros m (u' & -> & Hu')%list_elem_of_fmap [_ Hid]. cbn in Hid.
    apply Hfresh. rewrite <- Hid. by apply list_elem_of_fmap_2.
  - rewrite filter_cons_False; [by apply IH|].
    cbn. intros [_ Hid]. apply Hfresh. rewrite Hid. by apply list_elem_of_fmap_2.
Qed.

(** X14. In a direct channel that [get_or_create_direct_channel] creates,
    every requested user has exactly one membership row; the row is not
    volatile, and it is hidden exactly when [hide] is set and the user is
    not the one named by [hide_except]. *)
Theorem direct_channel_created_rows user_ids hide hide_except st :
  NoDup (u_id <$> users (st_db st)) →
  memberships_have_channels (st_db st) →
  not_eligible (requested_users world (st_db st) user_ids) user_ids = false →
  direct_channel_matches world (st_db st) user_ids = [] →
  uuid4 (st_uuid_draws st) ∉ c_id <$> channels (st_db st) →
  ∃ c st1,
    get_or_create_direct_channel world user_ids hide hide_except st
    = (Ok (Some c, true, requested_users world (st_db st) user_ids), st1)
    ∧ ∀ u, u ∈ requested_users world (st_db st) user_ids →
        membership_rows (st_db st1) (c_id c) (u_id u)
        = [mkMembership (c_id c) (u_id u) false
             (hide && negb (bool_decide (Some (str_uuid (u_id u)) = hide_except)))].
Proof.
  intros Hpk Hfk Hel Hnone Hfresh.
  eexists _, _. split; [by apply get_or_create_creates|].
  intros u Hu. unfold membership_rows, direct_channel_created.
  cbn [st_db memberships set_memberships]. rewrite filter_app.
  rewrite (filter_none _ (memberships (st_db st))).
  2:{ intros m Hm [Hch _].
      by apply (no_old_rows_of_new_channel world st Hfk Hfresh m). }
  apply direct_rows_of_user; [by apply requested_users_NoDup|done].
Qed.

End DirectChannelRows.

Lemma direct_channel_created_rows_witness :
  ∃ c st1,
    get_or_create_direct_channel (H := demo_collaborators) demo_world
      [alice_id; bob_id] true (Some (str_uuid alice_id)) demo_state
    = (Ok (Some c, true, [alice; bob]), st1)
    ∧ m_hidden <$> membership_rows (st_db st1) (c_id c) alice_id = [false]
    ∧ m_hidden <$> membership_rows (st_db st1) (c_id c) bob_id = [true].
Proof.
  destruct (direct_channel_created_rows (H := demo_collaborators) demo_world
              [alice_id; bob_id] true (Some (str_uuid alice_id)) demo_state)
    as (c & st1 & Hrun & Hrows);
    [compute_done|unfold memberships_have_channels; compute_done|reflexivity|reflexivity
    |compute_done|].
  exists c, st1. split; [exact Hrun|]. split.
  - change alice_id with (u_id alice). rewrite (Hrows alice); [reflexivity|left].
  - change bob_id with (u_id bob). rewrite (Hrows bob); [reflexivity|right; left].
Defined.

(** ** Unread pointers *)

Lemma same_counting_events_preorder : PreOrder same_counting_events.
Proof.
  split.
  - by intros st c.
  - intros s1 s2 s3 H12 H23 c. by rewrite H23, H12.
Qed.

#[global] Existing Instance same_counting_events_preorder.

Lemma same_counting_events_same st st' :
  chat_events (st_db st') = chat_events (st_db st) → same_counting_events st st'.
Proof. intros He c. unfold nonmember_events. by rewrite He. Qed.

Section UnreadPointers.
Context `{!Collaborators} `{!Profiles} (world : World).

(** X15. The unread pointer of a channel is 0 when the channel has no
    event besides membership changes, and otherwise the highest id of
    such an event; the entries of the channel in
    [get_channels_for_user] carry the same value. *)
Theorem unread_pointer_is_highest_counting_id c st :
  ∃ p,
    get_highest_nonmember_id_in_channel c st = (Ok p, st)
    ∧ Forall (λ e, e_id e ≤ p) (nonmember_events (st_db st) c)
    ∧ (nonmember_events (st_db st) c = [] → p = 0)
    ∧ (nonmember_events (st_db st) c ≠ [] →
       ∃ e, e ∈ nonmember_events (st_db st) c ∧ e_id e = p)
    ∧ ∀ user_id v h entry,
        entry ∈ get_channels_for_user world (st_db st) user_id v h →
        cle_id entry = str_uuid c → cle_unread_pointer entry = p.
Proof.
  exists (or_0 (max_nonmember_id (st_db st) c)). split; [done|].
  unfold max_nonmember_id. fold (nonmember_events (st_db st) c).
  split; [|split; [|split]].
  - apply Forall_forall. intros e He.
    destruct (max_id_ge (e_id <$> nonmember_events (st_db st) c) (e_id e)) as (m & -> & Hm);
      [by apply list_elem_of_fmap_2|done].
  - by intros ->.
  - intros Hne.
    destruct (max_id (e_id <$> nonmember_events (st_db st) c)) as [m|] eqn:Hm.
    + apply max_id_in, list_elem_of_fmap in Hm as (e & -> & He). by exists e.
    + destruct (nonmember_events (st_db st) c) as [|e l]; [done|]. cbn in Hm.
      by destruct (max_id (e_id <$> l)).
  - intros user_id v h entry Hin Hid. unfold get_channels_for_user in Hin.
    apply list_elem_of_bind in Hin as (m & Hin & _).
    apply list_elem_of_bind in Hin as (c' & Hin & _).
    apply list_elem_of_singleton in Hin as ->. cbn in *.
    apply str_uuid_inj in Hid as ->. done.
Qed.

Lemma create_event_member_keeps_counting n ch content sender replaces _retry :
  respects same_counting_events
    (create_event_rec world n ch "channel.member" content sender replaces _retry).
Proof.
  intros st.
  pose proof (create_event_rec_outcome world n ch "channel.member" content sender
                replaces _retry st) as Ho.
  destruct (create_event_rec _ _ _ _ _ _ _ _ _) as [[ev|x] st']; cbn.
  - destruct Ho as (ce & Hlog & _ & _ & _ & Hty & _). intros c.
    unfold nonmember_events. rewrite Hlog, filter_app.
    rewrite (filter_cons_False _ ce) by (rewrite Hty; tauto).
    by rewrite app_nil_r.
  - by apply same_counting_events_same.
Qed.

Lemma add_channel_user_keeps_counting c user v :
  respects same_counting_events (add_channel_user c user v).
Proof.
  apply (respects_atomic same_counting_events);
    [by intros st st' _; apply same_counting_events_same|].
  intros st. unfold Membership_get_or_create, Membership_save_volatile, bind, get_db.
  destruct (filter _ _) as [|m [|m' l]]; cbn;
    [destruct (decide _)|destruct (m_volatile m), v|];
    by apply same_counting_events_same.
Qed.

(** X16. [enforce_forced_joins] moves no unread pointer: the join events
    that it stores do not count. *)
Theorem forced_joins_keep_unread_pointers user c st :
  (get_highest_nonmember_id_in_channel c (enforce_forced_joins world user st).2).1
  = (get_highest_nonmember_id_in_channel c st).1.
Proof.
  assert (respects same_counting_events (enforce_forced_joins world user)) as Hr.
  { unfold enforce_forced_joins.
    destruct (negb _); [apply (respects_ret same_counting_events)|].
    apply (respects_bind_db same_counting_events). intros s. cbv beta zeta.
    destruct (get_channels_to_join_forced world (st_db s) user) as [|cr l];
      [reflexivity|].
    apply (respects_for_each same_counting_events). intros [channel room].
    unfold force_join.
    destruct (negb _); [apply (respects_ret same_counting_events)|].
    apply (respects_bind same_counting_events);
      [apply add_channel_user_keeps_counting|].
    intros [|]; [|apply (respects_ret same_counting_events)].
    apply (respects_bind same_counting_events);
        [apply create_event_member_keeps_counting|]. intros ev.
      apply (respects_bind same_counting_events);
        [by unfold respects; intros s'; apply same_counting_events_same|]. intros _.
      apply (respects_bind same_counting_events);
        [by unfold respects; intros s'; apply same_counting_events_same|]. intros _.
      unfold respects. intros s'. apply same_counting_events_same.
      by rewrite redis_sadd_state. }
  specialize (Hr st c). cbn. unfold max_nonmember_id.
  fold (nonmember_events (st_db (enforce_forced_joins world user st).2) c).
  fold (nonmember_events (st_db st) c). by rewrite Hr.
Qed.

(** X17. An event returned by [create_event] moves the unread pointer
    of its own channel up to its id, unless it is a membership change;
    the pointer of every other channel stays. *)
Theorem create_event_moves_unread_pointer
    ch ty content sender replaces _retry ev st st' c p :
  create_event world ch ty content sender replaces _retry st = (Ok ev, st') →
  get_highest_nonmember_id_in_channel c st = (Ok p, st) →
  0 ≤ pe_event_id ev →
  get_highest_nonmember_id_in_channel c st'
  = (Ok (if decide (c = c_id ch ∧ ty ≠ "channel.member")
         then Z.max p (pe_event_id ev) else p), st').
Proof.
  intros Hrun [= <-] Hpos. unfold create_event in Hrun.
  pose proof (create_event_rec_outcome world 2 ch ty content sender replaces _retry st) as Ho.
  rewrite Hrun in Ho. destruct Ho as (ce & Hlog & -> & _ & Hch & Hty & _).
  cbn in Hpos. unfold get_highest_nonmember_id_in_channel, bind, get_db, ret.
  f_equal. f_equal. unfold max_nonmember_id. rewrite Hlog, filter_app, fmap_app.
  case_decide as Hd.
  - rewrite (filter_cons_True _ ce) by (rewrite Hch, Hty; by destruct Hd as [-> ?]).
    cbn. rewrite max_id_snoc. cbn.
    destruct (max_id _) as [m|]; cbn; lia.
  - rewrite (filter_cons_False _ ce) by (rewrite Hch, Hty; intros [<- ?]; by apply Hd).
    cbn. by rewrite app_nil_r.
Qed.

End UnreadPointers.

Lemma create_event_moves_unread_pointer_witness :
  let r := create_event (H := demo_collaborators) demo_world lobby "channel.message"
             (text "hi") alice None false demo_state in
  get_highest_nonmember_id_in_channel lobby_id demo_state = (Ok 2, demo_state)
  ∧ get_highest_nonmember_id_in_channel lobby_id r.2 = (Ok 4, r.2)
  ∧ get_highest_nonmember_id_in_channel stage_id r.2 = (Ok 3, r.2).
Proof.
  intros r.
  assert (∃ ev, r = (Ok ev, r.2) ∧ pe_event_id ev = 4) as (ev & Hrun & Hid)
    by (eexists; split; vm_compute; reflexivity).
  assert (0 ≤ pe_event_id ev) as Hpos by (rewrite Hid; lia).
  split; [reflexivity|]. split.
  - rewrite (create_event_moves_unread_pointer (H := demo_collaborators) demo_world
               lobby "channel.message" (text "hi") alice None false ev demo_state
               r.2 lobby_id 2 Hrun eq_refl Hpos).
    rewrite Hid. by rewrite decide_True by (split; [done|discriminate]).
  - rewrite (create_event_moves_unread_pointer (H := demo_collaborators) demo_world
               lobby "channel.message" (text "hi") alice None false ev demo_state
               r.2 stage_id 3 Hrun eq_refl Hpos).
    by rewrite decide_False by (intros [? _]; discriminate).
Defined.

(** ** Channel lists *)

Lemma list_bind_ext_in {A B} (f g : A → list B) l :
  (∀ x, x ∈ l → f x = g x) → l ≫= f = l ≫= g.
Proof.
  induction l as [|x l IH]; intros Hfg; [done|]. cbn.
  rewrite (Hfg x) by left. rewrite IH; [done|]. intros y Hy. apply Hfg. by right.
Qed.

Lemma list_fmap_bind_comp {A B C} (f : A → B) (g : B → list C) (l : list A) :
  (f <$> l) ≫= g = l ≫= λ x, g (f x).
Proof. induction l as [|x l IH]; [done|]. cbn. by rewrite IH. Qed.

Lemma list_bind_through {A B C} (f : A → B) (g : B → list C) (l l' : list A) :
  f <$> l = f <$> l' → (l ≫= λ x, g (f x)) = (l' ≫= λ x, g (f x)).
Proof. intros Hl. rewrite <- !(list_fmap_bind_comp f g). by rewrite Hl. Qed.

Section ChannelListFacts.
Context `{!Collaborators} (world : World).

Lemma get_channels_for_user_rows d u v h :
  get_channels_for_user world d u v h
  = m ← filter (listed_row u v h) (memberships d); row_entries world d m.
Proof. reflexivity. Qed.

Lemma row_entries_id d m e : e ∈ row_entries world d m → cle_id e = str_uuid (m_channel m).
Proof.
  unfold row_entries. intros (c & He & _)%list_elem_of_bind.
  by apply list_elem_of_singleton in He as ->.
Qed.

(** The entries of a row depend on the memberships only through the users
    of the rows of its channel. *)
Lemma row_entries_memberships d ms' m :
  m_user <$> filter (λ m', m_channel m' = m_channel m) ms'
  = m_user <$> filter (λ m', m_channel m' = m_channel m) (memberships d) →
  row_entries world (set_memberships ms' d) m = row_entries world d m.
Proof.
  intros Hu. unfold row_entries. cbn [channels set_memberships].
  apply list_bind_ext_in. intros c [[Hc _] _]%list_elem_of_filter.
  cbn [memberships users set_memberships]. rewrite Hc.
  change (max_nonmember_id (set_memberships ms' d)) with (max_nonmember_id d).
  destruct (c_room c); [done|]. do 3 f_equal.
  pose (F := λ i : UUID, u ← filter (λ u, u_id u = i) (users d);
     [serialize_public_user u (dict_get "trait_badges_map" (w_config world))]).
  exact (list_bind_through m_user F _ _ Hu).
Qed.

Lemma channel_list_without d ms' c u v h :
  (∀ cid, cid ≠ c →
     m_user <$> filter (λ m, m_channel m = cid) ms'
     = m_user <$> filter (λ m, m_channel m = cid) (memberships d)) →
  filter (listed_row u v h) ms'
  = filter (λ m, m_channel m ≠ c) (filter (listed_row u v h) (memberships d)) →
  get_channels_for_user world (set_memberships ms' d) u v h
  = filter (λ e, cle_id e ≠ str_uuid c) (get_channels_for_user world d u v h).
Proof.
  intros Hu Hrows. rewrite !get_channels_for_user_rows.
  cbn [memberships set_memberships]. rewrite Hrows. clear Hrows.
  induction (filter (listed_row u v h) (memberships d)) as [|m l IH]; [done|].
  cbn [mbind list_bind]. rewrite filter_app, <- IH. clear IH.
  destruct (decide (m_channel m = c)) as [Hc|Hc].
  - rewrite filter_cons_False by (by intros ?).
    rewrite (filter_none _ (row_entries world d m)); [done|].
    intros e He%row_entries_id Hne. by rewrite He, Hc in Hne.
  - rewrite filter_cons_True by done. cbn [mbind list_bind]. f_equal.
    rewrite row_entries_memberships by (by apply Hu).
    symmetry. apply filter_all. intros e He%row_entries_id.
    rewrite He. by intros ?%str_uuid_inj.
Qed.

(** X18. After [hide_channel_user] the channel is gone from the default
    channel list of the user; the other entries of that list, and the
    lists of the other users, are as before. *)
Theorem hidden_channel_leaves_list c u v st :
  let st1 := (hide_channel_user c u st).2 in
  get_channels_for_user world (st_db st1) u v (Some false)
  = filter (λ e, cle_id e ≠ str_uuid c)
      (get_channels_for_user world (st_db st) u v (Some false))
  ∧ ∀ u' v' h, u' ≠ u →
      get_channels_for_user world (st_db st1) u' v' h
      = get_channels_for_user world (st_db st) u' v' h.
Proof.
  cbn zeta. cbn [hide_channel_user bind get_db put_db snd st_db with_db].
  set (g := λ m, if decide (m_channel m = c ∧ m_user m = u)
                 then mkMembership (m_channel m) (m_user m) (m_volatile m) true
                 else m).
  assert (∀ m, m_channel (g m) = m_channel m ∧ m_user (g m) = m_user m) as Hg
    by (intros m; unfold g; by case_decide).
  assert (∀ cid (l : list Membership), m_user <$> filter (λ m, m_channel m = cid) (g <$> l)
                   = m_user <$> filter (λ m, m_channel m = cid) l) as Hu.
  { intros cid l. induction l as [|m l IH]; [done|]. rewrite fmap_cons.
    destruct (Hg m) as [Hc Hm].
    destruct (decide (m_channel m = cid)) as [Hd|Hd].
    - rewrite !filter_cons_True by congruence. rewrite !fmap_cons. congruence.
    - rewrite !filter_cons_False by congruence. done. }
  split.
  - apply channel_list_without; [by intros cid _; apply Hu|].
    induction (memberships (st_db st)) as [|m l IH]; [done|]. rewrite fmap_cons.
    destruct (decide (listed_row u v (Some false) m)) as [Hl|Hl].
    + rewrite (filter_cons_True (listed_row _ _ _) m) by done.
      destruct (decide (m_channel m = c)) as [Hc|Hc].
      * rewrite (filter_cons_False (λ m, m_channel m ≠ c)) by (by intros ?).
        rewrite filter_cons_False; [done|].
        unfold g at 1. rewrite decide_True by (split; [done|apply Hl]).
        intros (_ & [?|?] & _); done.
      * rewrite (filter_cons_True (λ m, m_channel m ≠ c)) by done.
        assert (g m = m) as -> by (unfold g; rewrite decide_False; [done|tauto]).
        rewrite filter_cons_True by done. by rewrite IH.
    + rewrite (filter_cons_False (listed_row _ _ _) m) by done.
      rewrite filter_cons_False; [done|]. intros Hl'. apply Hl.
      revert Hl'. unfold g. case_decide as Hd; [|done].
      intros (_ & [?|?] & _); done.
  - intros u' v' h Hne. rewrite !get_channels_for_user_rows.
    cbn [memberships set_memberships].
    assert (filter (listed_row u' v' h) (g <$> memberships (st_db st))
            = filter (listed_row u' v' h) (memberships (st_db st))) as ->.
    { induction (memberships (st_db st)) as [|m l IH]; [done|]. rewrite fmap_cons.
      destruct (decide (m_user m = u)) as [Hm|Hm].
      - rewrite !filter_cons_False; [done| |].
        + intros [? _]. congruence.
        + intros [Hm' _]. destruct (Hg m) as [_ Hgm]. congruence.
      - assert (g m = m) as -> by (unfold g; rewrite decide_False; [done|tauto]).
        destruct (decide (listed_row u' v' h m)).
        + rewrite !filter_cons_True by done. by rewrite IH.
        + rewrite !filter_cons_False by done. done. }
    apply list_bind_ext_in. intros m _.
    apply row_entries_memberships, Hu.
Qed.

(** X19. After [remove_channel_user] the channel is gone from every
    channel list of the user, and the other entries of those lists are as
    before. *)
Theorem removed_channel_leaves_list c u v h st :
  get_channels_for_user world (st_db (remove_channel_user c u st).2) u v h
  = filter (λ e, cle_id e ≠ str_uuid c)
      (get_channels_for_user world (st_db st) u v h).
Proof.
  cbn [remove_channel_user bind get_db put_db snd st_db with_db].
  apply channel_list_without.
  - intros cid Hne. f_equal.
    induction (memberships (st_db st)) as [|m l IH]; [done|].
    destruct (decide (m_channel m = c ∧ m_user m = u)) as [Hd|Hd].
    + rewrite (filter_cons_False _ m) by tauto.
      rewrite (filter_cons_False _ m l) by (destruct Hd; congruence). done.
    + rewrite (filter_cons_True _ m) by done.
      destruct (decide (m_channel m = cid)).
      * rewrite !filter_cons_True by done. by rewrite IH.
      * rewrite !filter_cons_False by done. done.
  - induction (memberships (st_db st)) as [|m l IH]; [done|].
    destruct (decide (m_channel m = c ∧ m_user m = u)) as [Hd|Hd].
    + rewrite (filter_cons_False _ m) by tauto. rewrite IH.
      destruct (decide (listed_row u v h m)).
      * rewrite (filter_cons_True (listed_row _ _ _)) by done.
        rewrite filter_cons_False; [done|]. destruct Hd. tauto.
      * by rewrite (filter_cons_False (listed_row _ _ _)) by done.
    + rewrite (filter_cons_True _ m) by done.
      destruct (decide (listed_row u v h m)) as [Hl|Hl].
      * rewrite !(filter_cons_True (listed_row _ _ _)) by done.
        rewrite filter_cons_True; [by rewrite IH|].
        intros Hc. apply Hd. split; [done|apply Hl].
      * by rewrite !(filter_cons_False (listed_row _ _ _)) by done.
Qed.

End ChannelListFacts.

(** ** Mentions and channel lookup *)

Section MentionFacts.
Context `{!Collaborators} `{!Profiles} (world : World).

(** X20. [filter_mentions] returns, without a write, exactly the texts of
    the requested ids that belong to a member of the channel or, with
    [include_all_permitted], to a stored user who may read the chat of the
    room of the channel; no id is returned that was not requested. *)
Theorem filter_mentions_sound channel channel_room uids include_all_permitted st :
  ∃ res,
    filter_mentions world channel channel_room uids include_all_permitted st
    = (Ok res, st)
    ∧ ∀ s, s ∈ res ↔
        ∃ u, s = str_uuid u ∧ u ∈ uids
             ∧ if include_all_permitted
               then ∃ usr, usr ∈ users (st_db st) ∧ u_id usr = u
                           ∧ has_permission world usr ROOM_CHAT_READ channel_room = true
               else ∃ m, m ∈ memberships (st_db st)
                         ∧ m_channel m = c_id channel ∧ m_user m = u.
Proof.
  unfold filter_mentions. destruct uids as [|u0 uids].
  { exists ∅. split; [done|]. intros s. split; [set_solver|].
    by intros (u & _ & ?%elem_of_nil & _). }
  unfold bind, get_db, ret. destruct include_all_permitted; eexists; (split; [done|]);
    intros s; rewrite elem_of_list_to_set, list_elem_of_fmap.
  - split.
    + intros (usr & -> & Hin). apply list_elem_of_filter in Hin as [Hp Hin].
      apply list_elem_of_filter in Hin as [Hu Hin]. exists (u_id usr). split; [done|]. split; [done|]. by exists usr.
    + intros (u & -> & Hu & usr & Hin & <- & Hp). exists usr. split; [done|].
      apply list_elem_of_filter. split; [done|]. by apply list_elem_of_filter.
  - split.
    + intros (m & -> & Hin). apply list_elem_of_filter in Hin as [[Hc Hu] Hin].
      exists (m_user m). split; [done|]. split; [done|]. by exists m.
    + intros (u & -> & Hu & m & Hin & Hc & <-). exists m. split; [done|].
      by apply list_elem_of_filter.
Qed.

Lemma filter_mentions_rows channel channel_room u st :
  filter_mentions world channel channel_room [u] false st
  = (Ok (list_to_set ((λ m, str_uuid (m_user m))
                        <$> filter (λ m, m_channel m = c_id channel ∧ m_user m ∈ [u])
                              (memberships (st_db st)))), st)
  ∧ ∀ s, s ∈ (list_to_set ((λ m, str_uuid (m_user m))
                        <$> filter (λ m, m_channel m = c_id channel ∧ m_user m ∈ [u])
                              (memberships (st_db st))) : gset string)
         ↔ ∃ m, s = str_uuid (m_user m)
                ∧ m ∈ membership_rows (st_db st) (c_id channel) u.
Proof.
  split; [done|]. intros s. rewrite elem_of_list_to_set, list_elem_of_fmap.
  unfold membership_rows. split.
  - intros (m & -> & [[Hc Hu%list_elem_of_singleton] Hin]%list_elem_of_filter).
    exists m. split; [done|]. by apply list_elem_of_filter.
  - intros (m & -> & [[Hc Hu] Hin]%list_elem_of_filter).
    exists m. split; [done|]. apply list_elem_of_filter. split; [|done].
    split; [done|]. by apply list_elem_of_singleton.
Qed.

(** X21. A mention of a stored user who was just added to the stored
    channel is kept by [filter_mentions], and a mention of a user who
    was just removed is dropped. *)
Theorem mention_follows_membership channel channel_room user v st :
  unique_memberships (st_db st) →
  (channel_stored (st_db st) (c_id channel) → user_stored (st_db st) (u_id user) →
   ∃ created st1,
     add_channel_user (c_id channel) user v st = (Ok created, st1)
     ∧ filter_mentions world channel channel_room [u_id user] false st1
       = (Ok {[ str_uuid (u_id user) ]}, st1))
  ∧ ∃ st2,
      remove_channel_user (c_id channel) (u_id user) st = (Ok tt, st2)
      ∧ filter_mentions world channel channel_room [u_id user] false st2
        = (Ok ∅, st2).
Proof.
  intros Hu. split.
  - intros Hcs Hus.
    destruct (add_channel_user_spec (c_id channel) user v st Hu Hcs Hus)
      as (created & st1 & Hrun & _ & _ & _ & m1 & Hrows & _).
    exists created, st1. split; [done|].
    destruct (filter_mentions_rows channel channel_room (u_id user) st1) as [-> Hs].
    f_equal. f_equal. apply set_eq. intros s. rewrite Hs, Hrows, elem_of_singleton.
    assert (m_user m1 = u_id user) as Hm1.
    { assert (m1 ∈ membership_rows (st_db st1) (c_id channel) (u_id user)) as Hin
        by (rewrite Hrows; left).
      by apply list_elem_of_filter in Hin as [[_ ?] _]. }
    split.
    + intros (m & -> & ->%list_elem_of_singleton). by rewrite Hm1.
    + intros ->. exists m1. rewrite Hm1. split; [done|left].
  - exists (remove_channel_user (c_id channel) (u_id user) st).2.
    split; [reflexivity|].
    destruct (filter_mentions_rows channel channel_room (u_id user)
                (remove_channel_user (c_id channel) (u_id user) st).2) as [-> Hs].
    f_equal. f_equal. apply set_eq. intros s. rewrite Hs. split; [|set_solver].
    intros (m & _ & Hin). unfold membership_rows in Hin.
    cbn [remove_channel_user bind get_db put_db snd st_db with_db memberships
         set_memberships] in Hin.
    apply list_elem_of_filter in Hin as [Hp Hin].
    apply list_elem_of_filter in Hin as [Hn _]. done.
Qed.

End MentionFacts.

Lemma mention_follows_membership_witness :
  (∃ created st1,
     add_channel_user stage_id bob true demo_state = (Ok created, st1)
     ∧ filter_mentions (H := demo_collaborators) demo_world stage None [bob_id] false st1
       = (Ok {[ str_uuid bob_id ]}, st1))
  ∧ ∃ st2,
      remove_channel_user lobby_id alice_id demo_state = (Ok tt, st2)
      ∧ filter_mentions (H := demo_collaborators) demo_world lobby None [alice_id] false st2
        = (Ok ∅, st2).
Proof.
  assert (unique_memberships (st_db demo_state)) as Hu
    by (unfold unique_memberships; compute_done).
  split.
  - apply (mention_follows_membership (H := demo_collaborators) demo_world stage None
             bob true demo_state Hu); compute_done.
  - apply (mention_follows_membership (H := demo_collaborators) demo_world lobby None
             alice true demo_state Hu).
Defined.

(** ** Channel lookup *)

Section ChannelLookup.
Context `{!Collaborators} `{!Profiles} (world : World).

(** X22. [get_channel] never raises and never writes.  With unique
    channel ids, a lookup by id returns the stored channel of that id when
    it has no room or a room that is not deleted, and [None] otherwise. *)
Theorem get_channel_by_id x st :
  NoDup (c_id <$> channels (st_db st)) →
  (∀ kwargs (Hdec : ∀ c, Decision (kwargs c)),
     ∃ o, get_channel kwargs st = (Ok o, st))
  ∧ ∃ o,
      get_channel (λ c, c_id c = x) st = (Ok o, st)
      ∧ ∀ c, o = Some c ↔ c ∈ channels (st_db st) ∧ c_id c = x
                           ∧ channel_listed (st_db st) c.
Proof.
  intros Hnd. split.
  { intros kwargs Hdec. unfold get_channel, catch, _get_channel, bind, get_db.
    destruct (filter _ _) as [|c [|c' l]]; cbn; eauto. }
  unfold get_channel, catch, _get_channel, bind, get_db.
  destruct (filter _ _) as [|c [|c' l]] eqn:Hf; cbn.
  - exists None. split; [done|]. intros c. split; [done|].
    intros (Hin & Hid & Hl).
    assert (c ∈ @nil Channel) as Hc; [|by apply elem_of_nil in Hc].
    rewrite <- Hf. by apply list_elem_of_filter.
  - exists (Some c). split; [done|]. intros c1. 
    assert (c ∈ [c]) as Hc by left. rewrite <- Hf in Hc.
    apply list_elem_of_filter in Hc as [[Hl Hid] Hin]. split.
    + by intros [= <-].
    + intros (Hin1 & Hid1 & Hl1). f_equal.
      assert (c1 ∈ [c]) as Hc1 by (rewrite <- Hf; by apply list_elem_of_filter).
      by apply list_elem_of_singleton in Hc1.
  - exfalso.
    assert (NoDup (c_id <$> (c :: c' :: l))) as Hnd'.
    { rewrite <- Hf. eapply sublist_NoDup; [exact Hnd|].
      apply fmap_sublist, sublist_filter. }
    assert (c ∈ c :: c' :: l) as Hc by left.
    assert (c' ∈ c :: c' :: l) as Hc' by (right; left).
    rewrite <- Hf in Hc, Hc'.
    apply list_elem_of_filter in Hc as [[_ Hid] _].
    apply list_elem_of_filter in Hc' as [[_ Hid'] _].
    rewrite !fmap_cons, Hid, Hid' in Hnd'. apply NoDup_cons in Hnd' as [Hn _].
    apply Hn. left.
Qed.

End ChannelLookup.

Lemma get_channel_by_id_witness :
  get_channel (λ c, c_id c = lobby_id) demo_state = (Ok (Some lobby), demo_state).
Proof.
  destruct (get_channel_by_id lobby_id demo_state) as (_ & o & Hrun & Ho);
    [compute_done|].
  rewrite Hrun. f_equal. f_equal. apply Ho. split; [left|]. split; [done|].
  unfold channel_listed. compute_done.
Defined.

(** ** Extraction of mentions *)

Lemma match_classes_some p s m :
  match_classes p s = Some m →
  String.length m = length p ∧ match_classes p m = Some m
  ∧ ∃ rest, s = m +:+ rest.
Proof.
  revert s m. induction p as [|c p IH]; intros s m; cbn.
  - intros [= <-]. split; [done|]. split; [done|]. by exists s.
  - destruct s as [|a s]; [done|]. destruct (class_matches c a) eqn:Hc; [|done].
    destruct (match_classes p s) as [m'|] eqn:Hm; [|done]. intros [= <-].
    destruct (IH s m' Hm) as (Hlen & Hself & rest & ->). cbn.
    rewrite Hc, Hself, Hlen. split; [done|]. split; [done|]. by exists rest.
Qed.

Lemma match_classes_app p m post :
  match_classes p m = Some m → match_classes p (m +:+ post) = Some m.
Proof.
  revert m. induction p as [|c p IH]; intros m; cbn.
  - by intros [= <-].
  - destruct m as [|a m]; [done|].
    change (String a m +:+ post) with (String a (m +:+ post)). cbn.
    destruct (class_matches c a); [|done].
    destruct (match_classes p m) as [m'|] eqn:Hm; [|done]. cbn. intros [= ->].
    by rewrite (IH _ Hm).
Qed.

Lemma mentions_from_skip u post :
  mentions_from (String.length u) (u +:+ post) = mentions_from 0 post.
Proof.
  induction u as [|a u IH]; [done|].
  change (String a u +:+ post) with (String a (u +:+ post)). done.
Qed.

Lemma mentions_from_no_at pre s :
  no_at pre → mentions_from 0 (pre +:+ s) = mentions_from 0 s.
Proof.
  induction pre as [|a pre IH]; [done|]. intros [Ha Hpre].
  change (String a pre +:+ s) with (String a (pre +:+ s)). cbn [mentions_from].
  destruct (Ascii.eqb a "@") eqn:He; [by apply Ascii.eqb_eq in He|]. by apply IH.
Qed.

Lemma mentions_from_in k s m :
  m ∈ mentions_from k s →
  match_classes uuid_pattern m = Some m
  ∧ ∃ pre post, s = pre +:+ String "@" (m +:+ post).
Proof.
  revert k. induction s as [|a s IH]; intros k; cbn [mentions_from];
    [by intros ?%elem_of_nil|].
  assert (∀ k', m ∈ mentions_from k' s →
            match_classes uuid_pattern m = Some m
            ∧ ∃ pre post, String a s = pre +:+ String "@" (m +:+ post)) as Hrec.
  { intros k' Hin. destruct (IH k' Hin) as (Hm & pre & post & ->).
    split; [done|]. by exists (String a pre), post. }
  destruct k as [|k]; [|apply Hrec].
  destruct (Ascii.eqb a "@") eqn:He; [|apply Hrec].
  apply Ascii.eqb_eq in He as ->.
  destruct (match_classes uuid_pattern s) as [m'|] eqn:Hm; [|apply Hrec].
  intros [->|Hin]%elem_of_cons; [|by apply (Hrec 36%nat)].
  destruct (match_classes_some _ _ _ Hm) as (_ & Hself & rest & ->).
  split; [done|]. by exists "", rest.
Qed.

(** X23. Every id that [extract_mentioned_user_ids] returns is a text of
    36 characters of the form 8-4-4-4-12 in hexadecimal digits, and it
    stands in the message behind an [@]. *)
Theorem mentioned_ids_well_formed message m :
  m ∈ extract_mentioned_user_ids message →
  String.length m = 36%nat
  ∧ match_classes uuid_pattern m = Some m
  ∧ ∃ pre post, message = pre +:+ String "@" (m +:+ post).
Proof.
  unfold extract_mentioned_user_ids. rewrite elem_of_list_to_set.
  intros (Hm & Hsub)%mentions_from_in. split; [|done].
  by destruct (match_classes_some _ _ _ Hm) as [-> _].
Qed.

(** X24. A message without [@] mentions nobody, and a well-formed id
    behind the first [@] of a message is found, with the mentions of the
    text behind it. *)
Theorem first_mention_found pre u post :
  no_at pre → match_classes uuid_pattern u = Some u →
  extract_mentioned_user_ids pre = ∅
  ∧ extract_mentioned_user_ids (pre +:+ String "@" (u +:+ post))
    = {[ u ]} ∪ extract_mentioned_user_ids post.
Proof.
  intros Hpre Hu. unfold extract_mentioned_user_ids. split.
  - assert (pre = pre +:+ "") as ->.
    { clear. induction pre as [|a pre IH]; [done|].
      change (String a pre +:+ "") with (String a (pre +:+ "")). by rewrite <- IH. }
    by rewrite mentions_from_no_at.
  - rewrite mentions_from_no_at by done. cbn [mentions_from].
    rewrite Ascii.eqb_refl.
    rewrite (match_classes_app _ _ post Hu).
    destruct (match_classes_some _ _ _ Hu) as [Hlen _].
    change 36%nat with (length uuid_pattern). rewrite <- Hlen, mentions_from_skip.
    done.
Qed.

Lemma mentioned_ids_well_formed_witness :
  let message :=
    "hi @5b0b0000-0000-4000-8000-00000000000b, see @5A1CE000-0000-4000-8000-00000000000a"
  in
  extract_mentioned_user_ids message
  = {[ "5b0b0000-0000-4000-8000-00000000000b"; "5A1CE000-0000-4000-8000-00000000000a" ]}
  ∧ String.length "5A1CE000-0000-4000-8000-00000000000a" = 36%nat.
Proof.
  intros message. split; [by vm_compute|].
  apply (mentioned_ids_well_formed message). vm_compute. reflexivity.
Defined.

Lemma first_mention_found_witness :
  extract_mentioned_user_ids "hi @5B0B0000-0000-4000-8000-00000000000b!"
  = {[ "5B0B0000-0000-4000-8000-00000000000b" ]} ∪ extract_mentioned_user_ids "!".
Proof.
  apply (first_mention_found "hi " "5B0B0000-0000-4000-8000-00000000000b" "!");
    [cbn; by repeat split|reflexivity].
Defined.

(** ** Pages of events *)

Lemma later_first_transitive : Transitive later_first.
Proof. intros a b c. unfold later_first. lia. Qed.

Lemma later_first_total : Total later_first.
Proof. intros a b. unfold later_first. lia. Qed.

#[global] Existing Instance later_first_transitive.
#[global] Existing Instance later_first_total.

Lemma StronglySorted_reverse {A} (R : relation A) l :
  StronglySorted R l → StronglySorted (flip R) (reverse l).
Proof.
  induction 1 as [|x l Hl IH Hx]; [constructor|]. rewrite reverse_cons.
  apply StronglySorted_app_2; [|done|repeat constructor].
  intros x1 x2 Hx1 ->%list_elem_of_singleton. rewrite elem_of_reverse in Hx1.
  rewrite Forall_forall in Hx. unfold flip. by apply Hx.
Qed.

Section PageFacts.
Context `{!Collaborators} `{!Profiles} (world : World).

Lemma events_page_spec d channel before_id count skip_membership :
  let page := events_page d channel before_id count skip_membership in
  let selected := filter (in_page_range channel before_id skip_membership)
                    (chat_events d) in
  length page = Nat.min (Z.to_nat (Z.min count 1000)) (length selected)
  ∧ StronglySorted later_first page
  ∧ (∀ e, e ∈ page → e ∈ selected)
  ∧ ∀ e e', e ∈ page → e' ∈ selected → e' ∉ page → e_id e' ≤ e_id e.
Proof.
  intros page selected.
  pose proof (StronglySorted_merge_sort later_first selected) as Hs.
  pose proof (merge_sort_Permutation later_first selected) as Hp.
  set (n := Z.to_nat (Z.min count 1000)).
  change page with (take n (merge_sort later_first selected)).
  rewrite <- (take_drop n (merge_sort later_first selected)) in Hs.
  split; [|split; [|split]].
  - by rewrite length_take, Hp.
  - by apply StronglySorted_app_1_l in Hs.
  - intros e He. rewrite <- Hp, <- (take_drop n (merge_sort later_first selected)).
    apply elem_of_app. by left.
  - intros e e' He He' Hn.
    apply (StronglySorted_app_1_elem_of later_first _ _ e e' Hs He).
    rewrite <- Hp, <- (take_drop n (merge_sort later_first selected)) in He'.
    by apply elem_of_app in He' as [?|?].
Qed.

(** X25. [get_events] returns the page in ascending order of the ids: the
    latest [min(count, 1000)] events of the channel below [before_id]
    (without the membership changes when they are skipped), fewer only when
    there are no more; the users that it returns are stored users of the
    world under their own key.  It raises only for a negative count or,
    with a TypeError, for a text event of the channel whose body is no
    string, and it writes nothing. *)
Theorem get_events_page
    channel before_id count skip_membership known include_admin_info trait_badges_map st :
  let d := st_db st in
  let selected := filter (in_page_range channel before_id skip_membership)
                    (chat_events d) in
  match get_events world channel before_id count skip_membership known
          include_admin_info trait_badges_map st with
  | (Ok (evs, us), st') =>
      st' = st ∧ 0 ≤ count
      ∧ (∃ page,
           evs = serialize_public d <$> page
           ∧ length page = Nat.min (Z.to_nat (Z.min count 1000)) (length selected)
           ∧ StronglySorted (λ a b, e_id a ≤ e_id b) page
           ∧ (∀ e, e ∈ page → e ∈ selected)
           ∧ ∀ e e', e ∈ page → e' ∈ selected → e' ∉ page → e_id e' ≤ e_id e)
      ∧ ∀ k v, us !! k = Some v →
          ∃ u, u ∈ users d ∧ u_world u = w_id world ∧ k = str_uuid (u_id u)
               ∧ v = serialize_public_profile u include_admin_info trait_badges_map
  | (Raise x, st') =>
      st' = st
      ∧ (count < 0
         ∨ x = TypeError ∧ 0 ≤ count
           ∧ ∃ e j, e ∈ selected ∧ is_text (e_content e) = true
                    ∧ dict_get "body" (e_content e) = Some j ∧ ∀ s, j ≠ JStr s)
  end.
Proof.
  intros d selected. unfold get_events, bind, get_db. fold d.
  destruct (Z.min count 1000 <? 0) eqn:Hneg.
  { cbn. split; [done|]. left. apply Z.ltb_lt in Hneg. lia. }
  apply Z.ltb_ge in Hneg.
  destruct (events_page_spec d channel before_id count skip_membership)
    as (Hlen & Hsorted & Hsel & Hlatest).
  fold selected in Hlen, Hsel, Hlatest.
  set (events := events_page d channel before_id count skip_membership) in *.
  destruct (mapM (event_user_ids d) events) as [sets|] eqn:Hm; cbn.
  - split; [done|]. split; [lia|]. split.
    + exists (reverse events). split; [done|]. split; [by rewrite length_reverse|].
      split; [exact (StronglySorted_reverse _ _ Hsorted)|]. split.
      * intros e He. rewrite elem_of_reverse in He. by apply Hsel.
      * intros e e' He He' Hn. rewrite elem_of_reverse in He.
        apply (Hlatest e e' He He').
        by rewrite <- elem_of_reverse.
    + intros k v Hk. apply elem_of_list_to_map_2 in Hk.
      rewrite elem_of_reverse in Hk.
      apply list_elem_of_fmap in Hk as (u & [= -> ->] & Hu).
      apply list_elem_of_filter in Hu as [[Hw _] Hu]. by exists u.
  - split; [done|]. right. split; [done|]. split; [lia|].
    apply mapM_None_1, Exists_exists in Hm as (e & He & Hnone).
    unfold event_user_ids in Hnone.
    destruct (is_text (e_content e)) eqn:Ht; [|done].
    destruct (dict_get "body" (e_content e)) as [j|] eqn:Hb; [|done].
    exists e, j. split; [by apply Hsel|]. split; [done|]. split; [done|].
    intros s ->. done.
Qed.

End PageFacts.

(** ** More on notifications *)

Lemma notification_channels_unique d n c :
  NoDup (event_ids d) → c ∈ notification_channels d n →
  notification_channels d n = [c].
Proof.
  intros Hnd Hc. unfold notification_channels in *.
  apply list_elem_of_fmap in Hc as (e & -> & He).
  apply list_elem_of_filter in He as [Hid He]. rewrite <- Hid.
  by rewrite (event_row_unique _ e).
Qed.

Lemma filter_eq_unique {A} `{EqDecision A} (l : list A) x :
  NoDup l → x ∈ l → filter (λ y, y = x) l = [x].
Proof.
  induction l as [|y l IH]; [by intros _ ?%elem_of_nil|].
  rewrite NoDup_cons, elem_of_cons. intros [Hy Hnd] [->|Hin].
  - rewrite filter_cons_True by done. f_equal. apply filter_none.
    intros z Hz ->. done.
  - rewrite filter_cons_False by (intros ->; done). by apply IH.
Qed.

Section NotificationFrame.
Context `{!Collaborators} (world : World).

Lemma notified_channels_store d id uids u :
  notified_channels (set_notifications (notifications d ++ (mkNotification id <$> uids)) d) u
  = notified_channels d u
    ++ (_ ← filter (λ y, y = u) uids; notification_channels d (mkNotification id u)).
Proof.
  unfold notified_channels, notification_channels.
  cbn [notifications set_notifications chat_events].
  rewrite filter_app, bind_app. f_equal.
  induction uids as [|y uids IH]; [done|]. rewrite fmap_cons.
  destruct (decide (y = u)) as [->|Hne].
  - rewrite !filter_cons_True by done. cbn [mbind list_bind]. by rewrite IH.
  - rewrite !filter_cons_False by done. apply IH.
Qed.

Lemma store_notification_stored id uids st :
  id ∈ event_ids (st_db st) → Forall (user_stored (st_db st)) uids →
  store_notification id uids st
  = (Ok tt, with_db (set_notifications
                       (notifications (st_db st) ++ (mkNotification id <$> uids))
                       (st_db st)) st).
Proof.
  intros Hid Hus. destruct uids as [|u uids].
  - cbn. rewrite app_nil_r. by destruct st as [[] ? ? ? ?].
  - unfold store_notification, bind, get_db. by rewrite decide_True.
Qed.

(** X26. [store_notification] for a stored event of a channel and stored
    recipients raises the count of that channel by one for each of the
    recipients, when none is listed twice; it leaves the counts of every
    other user, and of every other channel, as they are. *)
Theorem store_notification_fan_out e c uids st :
  e ∈ chat_events (st_db st) → e_channel e = c → NoDup (event_ids (st_db st)) →
  NoDup uids → Forall (user_stored (st_db st)) uids →
  ∃ st1,
    store_notification (e_id e) uids st = (Ok tt, st1)
    ∧ (∀ u, u ∈ uids →
         get_notification_counts (st_db st1) u !! str_uuid c
         = Some (S (default 0%nat (get_notification_counts (st_db st) u !! str_uuid c))))
    ∧ (∀ u, u ∉ uids →
         get_notification_counts (st_db st1) u = get_notification_counts (st_db st) u)
    ∧ ∀ u c', c' ≠ c →
        get_notification_counts (st_db st1) u !! str_uuid c'
        = get_notification_counts (st_db st) u !! str_uuid c'.
Proof.
  intros He Hc Hnd Hu Hus.
  assert (∀ u, notification_channels (st_db st) (mkNotification (e_id e) u) = [c]) as Hch.
  { intros u. unfold notification_channels. cbn [n_chat_event].
    rewrite (event_row_unique _ e) by done. by rewrite <- Hc. }
  eexists. split.
  { apply store_notification_stored; [|done]. by apply list_elem_of_fmap_2. }
  cbn [with_db st_db]. split; [|split].
  - intros u Hin. rewrite !notified_channels_counts, !count_by_channel_lookup.
    change (notified_channels (set_notifications _ (st_db st)) u)
      with (notified_channels
              (set_notifications
                 (notifications (st_db st) ++ (mkNotification (e_id e) <$> uids))
                 (st_db st)) u).
    rewrite notified_channels_store, filter_eq_unique by done.
    cbn [mbind list_bind]. rewrite Hch, app_nil_r. by apply grouped_count_snoc.
  - intros u Hin. rewrite !notified_channels_counts. f_equal.
    change (notified_channels (set_notifications _ (st_db st)) u)
      with (notified_channels
              (set_notifications
                 (notifications (st_db st) ++ (mkNotification (e_id e) <$> uids))
                 (st_db st)) u).
    rewrite notified_channels_store, (filter_none (λ y, y = u) uids).
    + apply app_nil_r.
    + intros y Hy ->. done.
  - intros u c' Hne. rewrite !notified_channels_counts, !count_by_channel_lookup.
    change (notified_channels (set_notifications _ (st_db st)) u)
      with (notified_channels
              (set_notifications
                 (notifications (st_db st) ++ (mkNotification (e_id e) <$> uids))
                 (st_db st)) u).
    rewrite notified_channels_store. unfold grouped_count. rewrite filter_app.
    rewrite (filter_none _ (_ ≫= _)); [by rewrite app_nil_r|].
    intros x Hx Hk. apply list_elem_of_bind in Hx as (y & Hx & _).
    rewrite Hch in Hx. apply list_elem_of_singleton in Hx as ->.
    by apply str_uuid_inj in Hk.
Qed.

(** X27. [remove_notifications] leaves the counts of every other user
    and, with unique event ids, the counts of the user for every other
    channel as they are. *)
Theorem remove_notifications_frame u c max_id st :
  NoDup (event_ids (st_db st)) →
  let st1 := (remove_notifications u c max_id st).2 in
  (∀ u', u' ≠ u →
     get_notification_counts (st_db st1) u' = get_notification_counts (st_db st) u')
  ∧ ∀ c', c' ≠ c →
      get_notification_counts (st_db st1) u !! str_uuid c'
      = get_notification_counts (st_db st) u !! str_uuid c'.
Proof.
  intros Hnd st1. unfold st1. rewrite remove_notifications_spec.
  cbn [snd with_db st_db]. split.
  - intros u' Hne. rewrite !notified_channels_counts. f_equal.
    unfold notified_channels. cbn [notifications set_notifications].
    change (notification_channels (set_notifications _ (st_db st)))
      with (notification_channels (st_db st)).
    f_equal. induction (notifications (st_db st)) as [|n l IH]; [done|].
    destruct (decide (n_recipient n = u')) as [Hr|Hr].
    + rewrite (filter_cons_True (λ n, ¬ _) n).
      * rewrite !filter_cons_True by done. by rewrite IH.
      * intros (_ & _ & Hu). congruence.
    + rewrite (filter_cons_False (λ n, n_recipient n = u') n l) by done.
      destruct (decide (notification_selected (st_db st) u c max_id n)).
      * by rewrite (filter_cons_False (λ n, ¬ _) n) by tauto.
      * rewrite (filter_cons_True (λ n, ¬ _) n) by done.
        by rewrite filter_cons_False by done.
  - intros c' Hne. rewrite !notified_channels_counts, !count_by_channel_lookup.
    unfold grouped_count. f_equal.
    unfold notified_channels. cbn [notifications set_notifications].
    change (notification_channels (set_notifications _ (st_db st)))
      with (notification_channels (st_db st)).
    induction (notifications (st_db st)) as [|n l IH]; [done|].
    destruct (decide (notification_selected (st_db st) u c max_id n)) as [Hs|Hs].
    + rewrite (filter_cons_False (λ n, ¬ _) n) by tauto. rewrite IH.
      destruct Hs as (_ & Hc & Hr).
      rewrite (filter_cons_True (λ n, n_recipient n = u) n l) by done.
      cbn [mbind list_bind].
      rewrite (notification_channels_unique _ _ _ Hnd Hc). cbn [app].
      rewrite filter_cons_False; [done|]. by intros ?%str_uuid_inj.
    + rewrite (filter_cons_True (λ n, ¬ _) n) by done.
      destruct (decide (n_recipient n = u)).
      * rewrite !(filter_cons_True (λ n, n_recipient n = u)) by done.
        cbn [mbind list_bind]. rewrite !filter_app. by rewrite IH.
      * by rewrite !(filter_cons_False (λ n, n_recipient n = u)) by done.
Qed.

End NotificationFrame.

Lemma store_notification_fan_out_witness :
  ∃ st1,
    store_notification 2 [bob_id; carol_id] demo_state = (Ok tt, st1)
    ∧ get_notification_counts (st_db st1) bob_id !! str_uuid lobby_id = Some 1%nat
    ∧ get_notification_counts (st_db st1) alice_id
      = get_notification_counts (st_db demo_state) alice_id.
Proof.
  destruct (store_notification_fan_out
              (mkChatEvent 2 lobby_id "channel.message" (text "two") bob_id None None)
              lobby_id [bob_id; carol_id] demo_state)
    as (st1 & Hrun & Hraised & Hothers & _);
    [right; left|reflexivity|compute_done|compute_done|compute_done|].
  exists st1. split; [exact Hrun|]. split.
  - rewrite (Hraised bob_id) by left. reflexivity.
  - apply Hothers. compute_done.
Defined.

Lemma remove_notifications_frame_witness :
  let st := (store_notification 3 [alice_id; bob_id]
               (store_notification 2 [alice_id] demo_state).2).2 in
  let st1 := (remove_notifications alice_id lobby_id 2 st).2 in
  get_notification_counts (st_db st1) bob_id = get_notification_counts (st_db st) bob_id
  ∧ get_notification_counts (st_db st1) alice_id !! str_uuid stage_id = Some 1%nat
  ∧ get_notification_counts (st_db st1) alice_id !! str_uuid lobby_id = None.
Proof.
  intros st st1.
  destruct (remove_notifications_frame alice_id lobby_id 2 st) as [Hu Hc];
    [compute_done|].
  split; [apply Hu; compute_done|]. split; [|reflexivity].
  unfold st1. rewrite (Hc stage_id) by compute_done. reflexivity.
Defined.

(** ** Round trips of edits and reactions *)

Lemma filter_other_id (f : ChatEvent → ChatEvent) (es : list ChatEvent) id pk :
  pk ≠ id → (∀ e, e_id (f e) = e_id e) → (∀ e, e_id e ≠ id → f e = e) →
  filter (λ e, e_id e = pk) (f <$> es) = filter (λ e, e_id e = pk) es.
Proof.
  intros Hne Hid Hf. induction es as [|e es IH]; [done|]. rewrite fmap_cons.
  destruct (decide (e_id e = pk)) as [He|He].
  - rewrite Hf by congruence. rewrite !filter_cons_True by done. by rewrite IH.
  - rewrite !filter_cons_False; [done|done|]. by rewrite Hid.
Qed.

Section RoundTrips.
Context `{!Collaborators} (world : World).

(** X28. After [update_event] a read of the event returns the stored row
    with the new content and the edit time and with its channel, type,
    sender and reference as stored, and a read of any other event returns
    what it returned before.  For an event that is not stored,
    [update_event] raises and leaves the store, audit log included, as it
    was. *)
Theorem update_event_round_trip event new_content by_user st :
  NoDup (event_ids (st_db st)) →
  (∀ stored, stored ∈ chat_events (st_db st) → e_id stored = e_id event →
     ∃ ev st',
       update_event world event new_content by_user st = (Ok ev, st')
       ∧ _get_event (e_id event) st'
         = (Ok (mkChatEvent (e_id stored) (e_channel stored) (e_event_type stored)
                  new_content (e_sender stored) (e_replaces stored)
                  (Some (st_clock st))), st')
       ∧ ∀ pk, pk ≠ e_id event → (_get_event pk st').1 = (_get_event pk st).1)
  ∧ (e_id event ∉ event_ids (st_db st) →
     ∃ st', update_event world event new_content by_user st = (Raise DatabaseError, st')
            ∧ st_db st' = st_db st).
Proof.
  intros Hnd. split.
  - intros stored Hin Hid.
    assert (e_id event ∈ event_ids (st_db st)) as Hev
      by (rewrite <- Hid; by apply list_elem_of_fmap_2).
    unfold update_event, atomic, ChatEvent_save_content_edited, bind, get_db, now.
    cbn [e_id e_content e_edited]. rewrite decide_True by done. cbn.
    eexists _, _. split; [reflexivity|].
    set (f := λ e : ChatEvent, if decide (e_id e = e_id event)
                 then mkChatEvent (e_id e) (e_channel e) (e_event_type e) new_content
                        (e_sender e) (e_replaces e) (Some (st_clock st))
                 else e).
    assert (∀ e, e_id (f e) = e_id e) as Hfid by (intros e; unfold f; by case_decide).
    split.
    + unfold _get_event, bind, get_db. cbn. fold f.
      assert (f stored = mkChatEvent (e_id stored) (e_channel stored)
                           (e_event_type stored) new_content (e_sender stored)
                           (e_replaces stored) (Some (st_clock st))) as Hfs
        by (unfold f; by rewrite decide_True).
      rewrite <- Hid, <- (Hfid stored).
      rewrite (event_row_unique (f <$> chat_events (st_db st)) (f stored)).
      * by rewrite Hfs.
      * rewrite <- list_fmap_compose.
        erewrite (list_fmap_ext (e_id ∘ f) e_id); [exact Hnd|]. intros i e _. apply Hfid.
      * by apply list_elem_of_fmap_2.
    + intros pk Hpk. unfold _get_event, bind, get_db. cbn. fold f.
      rewrite (filter_other_id f _ (e_id event) pk Hpk Hfid).
      * by destruct (filter _ _) as [|e [|e' l]].
      * intros e He. unfold f. by rewrite decide_False.
  - intros Hno.
    unfold update_event, atomic, ChatEvent_save_content_edited, bind, get_db, now.
    cbn [e_id e_content e_edited]. rewrite decide_False by done. cbn.
    by eexists.
Qed.

(** X29. A reaction of a stored user to a stored event that was not
    stored is shown by the event that [add_reaction] returns, and a
    [remove_reaction] right after it brings the store back to what it was
    and returns the event as it was. *)
Theorem add_then_remove_reaction event stored reaction user st :
  NoDup (event_ids (st_db st)) → stored ∈ chat_events (st_db st) →
  e_id event = e_id stored → user_stored (st_db st) (u_id user) →
  reaction_rows (st_db st) (e_id event) reaction (u_id user) = [] →
  ∃ pe st1,
    add_reaction event reaction user st = (Ok pe, st1)
    ∧ (reaction, u_id user) ∈ pe_reactions pe
    ∧ remove_reaction event reaction user st1
      = (Ok (serialize_public (st_db st) stored), st)
    ∧ (reaction, u_id user) ∉ pe_reactions (serialize_public (st_db st) stored).
Proof.
  intros Hnd Hin Hid Hus Hnone. unfold reaction_rows in Hnone. rewrite Hid in Hnone.
  set (st1 := with_reactions (reactions (st_db st)
                                ++ [mkReaction (e_id stored) reaction (u_id user)]) st).
  assert (add_reaction event reaction user st
          = (Ok (serialize_public (st_db st1) stored), st1)) as Hadd.
  { unfold add_reaction, bind at 1, get_db. rewrite Hid, Hnone.
    rewrite decide_True by (split; [by apply list_elem_of_fmap_2|done]).
    unfold bind at 1, put_db. unfold bind at 1.
    rewrite get_event_stored by done. reflexivity. }
  exists (serialize_public (st_db st1) stored), st1. split; [done|]. split; [|split].
  - cbn. unfold event_reactions. apply list_elem_of_fmap.
    exists (mkReaction (e_id stored) reaction (u_id user)). split; [done|].
    apply list_elem_of_filter. split; [done|].
    cbn. apply elem_of_app. right. left.
  - unfold remove_reaction, bind at 1, get_db. rewrite Hid. unfold bind at 1, put_db.
    fold (with_db
            (set_reactions
               (filter (λ r, ¬ (rx_chat_event r = e_id stored ∧ rx_reaction r = reaction
                                ∧ rx_sender r = u_id user)) (reactions (st_db st1)))
               (st_db st1)) st1).
    assert (with_db
              (set_reactions
                 (filter (λ r, ¬ (rx_chat_event r = e_id stored ∧ rx_reaction r = reaction
                                  ∧ rx_sender r = u_id user)) (reactions (st_db st1)))
                 (st_db st1)) st1 = st) as ->.
    { cbn. rewrite filter_app, filter_cons_False by (by intros []).
      rewrite app_nil_r, filter_all.
      - by destruct st as [[]].
      - intros r Hr Hm.
        assert (r ∈ filter (λ r, rx_chat_event r = e_id stored ∧ rx_reaction r = reaction
                                 ∧ rx_sender r = u_id user) (reactions (st_db st))) as Hx
          by (by apply list_elem_of_filter).
        rewrite Hnone in Hx. by apply elem_of_nil in Hx. }
    unfold bind at 1. rewrite get_event_stored by done. reflexivity.
  - cbn. unfold event_reactions. intros (r & [= Hr Hu] & Hx)%list_elem_of_fmap.
    apply list_elem_of_filter in Hx as [He Hx].
    assert (r ∈ filter (λ r, rx_chat_event r = e_id stored ∧ rx_reaction r = reaction
                             ∧ rx_sender r = u_id user) (reactions (st_db st))) as Hy
      by (by apply list_elem_of_filter).
    rewrite Hnone in Hy. by apply elem_of_nil in Hy.
Qed.

End RoundTrips.

Lemma update_event_round_trip_witness :
  ∃ ev st',
    update_event demo_world
      (mkChatEvent 2 stage_id "channel.member" (text "stale") carol_id (Some 1) None)
      (text "edited") carol demo_state = (Ok ev, st')
    ∧ _get_event 2 st'
      = (Ok (mkChatEvent 2 lobby_id "channel.message" (text "edited") bob_id None
               (Some 1000)), st').
Proof.
  destruct (update_event_round_trip demo_world
              (mkChatEvent 2 stage_id "channel.member" (text "stale") carol_id (Some 1) None)
              (text "edited") carol demo_state) as [Hok _]; [compute_done|].
  destruct (Hok (mkChatEvent 2 lobby_id "channel.message" (text "two") bob_id None None))
    as (ev & st' & Hrun & Hget & _); [right; left|reflexivity|].
  exists ev, st'. split; [exact Hrun|exact Hget].
Defined.

Lemma add_then_remove_reaction_witness :
  ∃ pe st1,
    add_reaction (mkChatEvent 2 lobby_id "channel.message" (text "two") bob_id None None)
      "+1" alice demo_state = (Ok pe, st1)
    ∧ pe_reactions pe = [("+1", alice_id)]
    ∧ remove_reaction
        (mkChatEvent 2 lobby_id "channel.message" (text "two") bob_id None None)
        "+1" alice st1
      = (Ok (serialize_public (st_db demo_state)
               (mkChatEvent 2 lobby_id "channel.message" (text "two") bob_id None None)),
         demo_state).
Proof.
  destruct (add_then_remove_reaction
              (mkChatEvent 2 lobby_id "channel.message" (text "two") bob_id None None)
              (mkChatEvent 2 lobby_id "channel.message" (text "two") bob_id None None)
              "+1" alice demo_state)
    as (pe & st1 & Hadd & _ & Hrem & _);
    [compute_done|right; left|reflexivity|compute_done|reflexivity|].
  exists pe, st1. split; [exact Hadd|]. split; [|exact Hrem].
  vm_compute in Hadd. by injection Hadd as <- _.
Defined.

(** ** The counter never goes back *)

Section CounterMonotone.
Context `{!Collaborators} (world : World).

Lemma after_allocate_advances st :
  0 ≤ highest_id (st_db st) → counter_value st < counter_value (after_allocate st).
Proof.
  intros Hh. unfold counter_value, after_allocate, with_counter, next_id. cbn.
  destruct (chat_event_id (st_redis st)) as [c|]; cbn.
  - destruct (c + 1 <? 2) eqn:Hc; [apply Z.ltb_lt in Hc|]; lia.
  - change (1 <? 2) with true. cbn. lia.
Qed.

Lemma create_event_rec_counter n ch ty content sender replaces _retry st :
  0 ≤ highest_id (st_db st) →
  counter_value st
  ≤ counter_value (create_event_rec world n ch ty content sender replaces _retry st).2
  ∧ (n ≠ 0%nat → counter_ok st →
     counter_value st
     < counter_value (create_event_rec world n ch ty content sender replaces _retry st).2).
Proof.
  revert content replaces _retry st.
  induction n as [|n IH]; intros content replaces _retry st Hh.
  { split; [done|]. by intros []. }
  pose proof (after_allocate_advances st Hh) as Ha.
  rewrite create_event_attempt.
  destruct (decide (counter_ok st)) as [Hok|Hok]; [|by split].
  enough (counter_value st
          < counter_value
              (match prepare_call world ch content (after_allocate st) with
               | (Raise e, s1) => (Raise e, s1)
               | (Ok c1, s1) =>
                   if decide (next_id st ∈ event_ids (st_db st)) then
                     if _retry
                     then (Raise (ValueError "unable to recover in store_event"), s1)
                     else create_event_rec world n ch ty c1 sender None true (healed s1)
                   else if decide (refs_ok (st_db st) ch sender (next_id st) replaces) then
                     let ce := new_event (next_id st) ch ty c1 sender replaces in
                     (Ok (serialize_public (st_db (append_event ce s1)) ce),
                      append_event ce s1)
                   else (Raise (IntegrityError false), s1)
               end).2)
    by (split; [lia|done]).
  destruct (prepare_call world ch content (after_allocate st)) as [[c1|e] s1] eqn:Hp;
    apply prepare_call_events in Hp as [He Hr]; cbn in He.
  2:{ cbn. unfold counter_value in *. by rewrite Hr. }
  assert (counter_value s1 = counter_value (after_allocate st)) as Hs1
    by (unfold counter_value; by rewrite Hr).
  destruct (decide _) as [Hin|Hfree].
  - destruct _retry; [cbn; lia|].
    pose proof (highest_id_events _ _ He) as Hhe.
    destruct (IH c1 None true (healed s1)) as [Hle _]; [cbn; lia|].
    eapply Z.lt_le_trans; [|exact Hle].
    apply highest_id_ge in Hin.
    unfold counter_value at 2, healed, with_counter. cbn. rewrite Hhe.
    unfold counter_value, next_id in *.
    destruct (chat_event_id (st_redis st)); cbn in *; lia.
  - destruct (decide _); cbn; unfold counter_value in *; cbn; lia.
Qed.

(** X30. When the stored ids are not negative and the counter is one
    that Redis increments (a missing counter counts as 0), every run of
    [create_event], whether it returns or raises, leaves the counter
    strictly above the value it found: an id that was handed out is not
    handed out again by the counter.  With a counter that Redis does not
    increment, [create_event] raises the error of the increment and
    changes nothing. *)
Theorem create_event_counter_advances ch ty content sender replaces _retry st :
  0 ≤ highest_id (st_db st) →
  (counter_ok st →
   counter_value st
   < counter_value (create_event world ch ty content sender replaces _retry st).2)
  ∧ (¬ counter_ok st →
     create_event world ch ty content sender replaces _retry st
     = (Raise ResponseError, st)).
Proof.
  intros Hh. unfold create_event. split.
  - intros Hok.
    by apply (create_event_rec_counter 2 ch ty content sender replaces _retry st Hh).
  - intros Hno. by rewrite create_event_attempt, decide_False.
Qed.

End CounterMonotone.

Lemma create_event_counter_advances_witness :
  counter_value demo_flushed = 0
  ∧ counter_value demo_flushed
    < counter_value
        (create_event (H := demo_collaborators) demo_world lobby "channel.message"
           (text "hi") alice None false demo_flushed).2.
Proof.
  split; [reflexivity|].
  apply (create_event_counter_advances (H := demo_collaborators) demo_world).
  - vm_compute. discriminate.
  - compute_done.
Defined.
